(** * pdf-processor: the document ingestion and structuring pipeline

    A shallow embedding of [ai_processor.py], [database.py],
    [pdf_processor.py] and the upload filter of [app.py].  Python values that come back from the language
    model are kept dynamically typed ([json]); Python exceptions are an
    explicit [result]; the database, the request log and the external
    services are threaded through a small state-and-exception monad. *)

From Stdlib Require Import ZArith String Ascii List Lia Bool.
From Stdlib Require Import Numbers.DecimalString.
From Stdlib Require Import Floats.SpecFloat.
From stdpp Require Import base list strings sorting.

Set Warnings "-register-all".
Open Scope string_scope.
Open Scope list_scope.
Open Scope Z_scope.

(** ** Python strings

    A [str] is modelled by [string]; its characters are the code points
    below 256.  [+:+] is concatenation. *)

Definition nl : string := String (ascii_of_nat 10) "".

Definition py_len (s : string) : Z := Z.of_nat (String.length s).

Fixpoint str_take (n : nat) (s : string) : string :=
  match n, s with
  | S k, String c r => String c (str_take k r)
  | _, _ => ""
  end.

Fixpoint str_drop (n : nat) (s : string) : string :=
  match n, s with
  | S k, String _ r => str_drop k r
  | _, _ => s
  end.

(** The position a slice bound [k] denotes in a sequence of length [len]:
    negative bounds count from the end, and both ends are clipped. *)
Definition slice_index (len k : Z) : nat :=
  Z.to_nat (if k <? 0 then Z.max (len + k) 0 else Z.min k len).

(** [s[:k]] and [s[j:]]. *)
Definition py_slice_to (s : string) (k : Z) : string :=
  str_take (slice_index (py_len s) k) s.

Definition py_slice_from (s : string) (j : Z) : string :=
  str_drop (slice_index (py_len s) j) s.

(** [str.isspace] on one character (code points below 256). *)
Definition py_isspace (c : ascii) : bool :=
  let n := nat_of_ascii c in
  ((9 <=? n) && (n <=? 13) || (28 <=? n) && (n <=? 32)
   || (n =? 133) || (n =? 160))%nat.

Fixpoint py_lstrip (s : string) : string :=
  match s with
  | String c r => if py_isspace c then py_lstrip r else s
  | EmptyString => ""
  end.

Fixpoint py_rstrip (s : string) : string :=
  match s with
  | String c r =>
      match py_rstrip r with
      | EmptyString => if py_isspace c then "" else String c ""
      | r' => String c r'
      end
  | EmptyString => ""
  end.

(** [s.strip()] *)
Definition py_strip (s : string) : string := py_rstrip (py_lstrip s).

(** [s.replace(old, new)] for a non-empty [old] (both call sites pass a
    literal): occurrences are found left to right and do not overlap.
    [skip] counts the characters of a match still to be dropped. *)
Fixpoint py_replace_from (old new : string) (skip : nat) (s : string) : string :=
  match s with
  | EmptyString => ""
  | String c r =>
      match skip with
      | S k => py_replace_from old new k r
      | O =>
          if String.prefix old s
          then new +:+ py_replace_from old new (String.length old - 1) r
          else String c (py_replace_from old new O r)
      end
  end.

Definition py_replace (old new s : string) : string :=
  py_replace_from old new O s.

(** [pat in s] for two strings. *)
Fixpoint str_contains (pat s : string) : bool :=
  String.prefix pat s
  || match s with
     | String _ r => str_contains pat r
     | EmptyString => false
     end.

(** ["sep".join(parts)] *)
Fixpoint py_join (sep : string) (parts : list string) : string :=
  match parts with
  | [] => ""
  | [p] => p
  | p :: rest => p +:+ sep +:+ py_join sep rest
  end.

(** Decimal text of a natural number, as an f-string prints an [int]. *)
Definition str_of_nat (n : nat) : string :=
  NilEmpty.string_of_uint (Nat.to_uint n).

(** ** Python exceptions *)

Inductive PyExc : Type :=
| AuthenticationError   (* openai.AuthenticationError *)
| RateLimitError        (* openai.RateLimitError *)
| APITimeoutError       (* openai.APITimeoutError *)
| APIError              (* openai.APIError itself and its other subclasses *)
| JSONDecodeError
| TypeError
| AttributeError
| OverflowError
| OtherException.

(** [isinstance(e, openai.APIError)]: the three classes above derive from it. *)
Definition is_APIError (e : PyExc) : bool :=
  match e with
  | AuthenticationError | RateLimitError | APITimeoutError | APIError => true
  | _ => false
  end.

Inductive result (A : Type) : Type :=
| Ok (a : A)
| Raise (e : PyExc).
Arguments Ok {A} a.
Arguments Raise {A} e.

Definition rbind {A B} (r : result A) (k : A -> result B) : result B :=
  match r with
  | Ok a => k a
  | Raise e => Raise e
  end.

(** ** Values decoded from JSON

    [json.loads] yields [None], [bool], [int], [float], [str], [list] and
    [dict]; a [dict] keeps its keys in insertion order, without repeats. *)

Inductive json : Type :=
| JNull
| JBool (b : bool)
| JInt (z : Z)
| JFloat (f : spec_float)
| JStr (s : string)
| JList (l : list json)
| JDict (d : list (string * json)).

Abbreviation pydict := (list (string * json)).

(** Equality of two values is decidable; the database uses it to tell
    whether a write changed a record. *)
#[global] Instance spec_float_eq_dec : EqDecision spec_float.
Proof. intros a b. unfold Decision. repeat decide equality. Defined.

Definition json_eq_dec : forall a b : json, {a = b} + {a <> b}.
Proof.
  fix IH 1. intros a b. decide equality.
  - apply Bool.bool_dec.
  - apply Z.eq_dec.
  - apply spec_float_eq_dec.
  - apply string_dec.
  - apply (List.list_eq_dec IH).
  - apply List.list_eq_dec. intros [k1 v1] [k2 v2].
    destruct (string_dec k1 k2) as [Hk|Hk]; [|right; congruence].
    destruct (IH v1 v2) as [Hv|Hv]; [left; congruence | right; congruence].
Defined.

#[global] Instance json_eq_decision : EqDecision json := json_eq_dec.

(** [bool(v)] *)
Definition truthy (v : json) : bool :=
  match v with
  | JNull => false
  | JBool b => b
  | JInt z => negb (z =? 0)
  | JFloat (S754_zero _) => false
  | JFloat _ => true
  | JStr s => negb (String.eqb s "")
  | JList l => match l with [] => false | _ => true end
  | JDict d => match d with [] => false | _ => true end
  end.

Definition is_str (v : json) : bool := match v with JStr _ => true | _ => false end.
Definition is_list (v : json) : bool := match v with JList _ => true | _ => false end.
Definition is_dict (v : json) : bool := match v with JDict _ => true | _ => false end.

(** [d.get(k)] *)
Fixpoint dict_lookup (k : string) (d : pydict) : option json :=
  match d with
  | [] => None
  | (k', v) :: rest => if String.eqb k k' then Some v else dict_lookup k rest
  end.

(** [d.get(k, dflt)] *)
Definition dict_get (k : string) (dflt : json) (d : pydict) : json :=
  match dict_lookup k d with
  | Some v => v
  | None => dflt
  end.

(** [k in d] *)
Definition dict_mem (k : string) (d : pydict) : bool :=
  match dict_lookup k d with
  | Some _ => true
  | None => false
  end.

(** [d[k] = v]: an existing key keeps its place, a new key goes last. *)
Fixpoint dict_set (k : string) (v : json) (d : pydict) : pydict :=
  match d with
  | [] => [(k, v)]
  | (k', v') :: rest =>
      if String.eqb k k' then (k', v) :: rest else (k', v') :: dict_set k v rest
  end.

(** [d.update(other)] *)
Definition dict_update (d other : pydict) : pydict :=
  fold_left (fun acc kv => dict_set (fst kv) (snd kv) acc) other d.

(** The exact value [m * 2^e] of a number that can be a dict key.  Python
    hashes and compares [True], [1] and [1.0] as the same key. *)
Definition num_value (v : json) : option (Z * Z) :=
  match v with
  | JBool b => Some (if b then 1 else 0, 0)
  | JInt z => Some (z, 0)
  | JFloat (S754_zero _) => Some (0, 0)
  | JFloat (S754_finite s m e) => Some (if s then Z.neg m else Z.pos m, e)
  | _ => None
  end.

Definition num_eqb (a b : Z * Z) : bool :=
  let e := Z.min (snd a) (snd b) in
  (fst a * 2 ^ (snd a - e) =? fst b * 2 ^ (snd b - e)).

(** Whether two hashable values are the same dict key.  Every [nan] that
    [json.loads] builds is an object of its own and equals nothing. *)
Definition key_eqb (a b : json) : bool :=
  match a, b with
  | JNull, JNull => true
  | JStr s, JStr t => String.eqb s t
  | JFloat (S754_infinity s), JFloat (S754_infinity t) => Bool.eqb s t
  | _, _ =>
      match num_value a, num_value b with
      | Some x, Some y => num_eqb x y
      | _, _ => false
      end
  end.

Definition hashable (v : json) : bool :=
  match v with
  | JList _ | JDict _ => false
  | _ => true
  end.

(** [x in l] for a list: equality of the values met in this program. *)
Definition list_has_str (k : string) (l : list json) : bool :=
  existsb (fun v => match v with JStr s => String.eqb s k | _ => false end) l.

(** ** [int(n * c)] for a positive double constant [c]

    A double is [m * 2^e] with [m] below [2^53].  [round53] rounds a
    non-negative [m * 2^e] to the nearest such number, ties to even. *)

Definition round53 (m e : Z) : Z * Z :=
  let sh := Z.log2 m + 1 - 53 in
  if sh <=? 0 then (m, e)
  else
    let q := m / 2 ^ sh in
    let r := m mod 2 ^ sh in
    let half := 2 ^ (sh - 1) in
    let up := (half <? r) || ((r =? half) && Z.odd q) in
    ((if up then q + 1 else q), e + sh).

(** The doubles written [0.7] and [0.3]. *)
Definition double_07 : Z * Z := (6305039478318694, -53).
Definition double_03 : Z * Z := (5404319552844595, -54).

(** [int(n * c)]: [n] is converted to a double (an [OverflowError] past the
    double range), the product is rounded, and [int] truncates towards 0. *)
Definition py_int_mul (n : Z) (c : Z * Z) : result Z :=
  let '(m1, e1) := round53 (Z.abs n) 0 in
  if 2 ^ 1024 <=? m1 * 2 ^ e1 then Raise OverflowError
  else
    let '(m2, e2) := round53 (m1 * fst c) (e1 + snd c) in
    let t := if 0 <=? e2 then m2 * 2 ^ e2 else m2 / 2 ^ (- e2) in
    Ok (Z.sgn n * t).

(** The same computation through the Standard Library's IEEE 754
    specification, to check [py_int_mul] against. *)
Definition ieee_int_mul (n : Z) (c : Z * Z) : result Z :=
  let x := binary_normalize 53 1024 n 0 false in
  let y := binary_normalize 53 1024 (fst c) (snd c) false in
  match SFmul 53 1024 x y with
  | S754_zero _ => Ok 0
  | S754_finite s m e =>
      let t := if 0 <=? e then Z.pos m * 2 ^ e else Z.pos m / 2 ^ (- e) in
      Ok (if s then - t else t)
  | _ => Raise OverflowError
  end.

(** ** A reader for a subset of JSON

    [json.loads] is a library function; the program is verified for an
    arbitrary one (a section variable below).  Concrete runs use this
    reader: it accepts objects, arrays, strings without escapes, integers
    and the three literals, and on what it accepts it returns what
    [json.loads] returns. *)

Definition dquote : ascii := ascii_of_nat 34.
Definition backslash : ascii := ascii_of_nat 92.

(** JSON texts are written below with apostrophes for the double quotes. *)
Fixpoint json_text (s : string) : string :=
  match s with
  | EmptyString => ""
  | String c r => String (if Ascii.eqb c "'" then dquote else c) (json_text r)
  end.

Definition is_json_ws (c : ascii) : bool :=
  let n := nat_of_ascii c in
  ((n =? 32) || (n =? 9) || (n =? 10) || (n =? 13))%nat.

Fixpoint skip_ws (s : string) : string :=
  match s with
  | String c r => if is_json_ws c then skip_ws r else s
  | EmptyString => ""
  end.

Definition is_digit (c : ascii) : bool :=
  let n := nat_of_ascii c in ((48 <=? n) && (n <=? 57))%nat.

Fixpoint read_digits (acc : Z) (s : string) : Z * string :=
  match s with
  | String c r =>
      if is_digit c
      then read_digits (10 * acc + Z.of_nat (nat_of_ascii c - 48)) r
      else (acc, s)
  | EmptyString => (acc, "")
  end.

(** The characters up to the closing quote. *)
Fixpoint read_string (s : string) : option (string * string) :=
  match s with
  | EmptyString => None
  | String c r =>
      if Ascii.eqb c dquote then Some ("", r)
      else if Ascii.eqb c backslash || (nat_of_ascii c <? 32)%nat then None
      else match read_string r with
           | Some (t, rest) => Some (String c t, rest)
           | None => None
           end
  end.

(** An integer; a fraction or an exponent is outside the subset. *)
Definition read_number (s : string) : option (json * string) :=
  let '(neg, s1) := match s with
                    | String "-" r => (true, r)
                    | _ => (false, s)
                    end in
  match s1 with
  | String c r =>
      if is_digit c then
        let '(n, rest) := if Ascii.eqb c "0" then (0, r) else read_digits 0 s1 in
        match rest with
        | String "." _ | String "e" _ | String "E" _ => None
        | _ => Some (JInt (if neg then - n else n), rest)
        end
      else None
  | EmptyString => None
  end.

Definition read_literal (s : string) : option (json * string) :=
  if String.prefix "true" s then Some (JBool true, str_drop 4 s)
  else if String.prefix "false" s then Some (JBool false, str_drop 5 s)
  else if String.prefix "null" s then Some (JNull, str_drop 4 s)
  else read_number s.

Fixpoint parse_value (fuel : nat) (s : string) : option (json * string) :=
  match fuel with
  | O => None
  | S f =>
      match skip_ws s with
      | String "{" r =>
          match skip_ws r with
          | String "}" r' => Some (JDict [], r')
          | _ => parse_members f r []
          end
      | String "[" r =>
          match skip_ws r with
          | String "]" r' => Some (JList [], r')
          | _ => parse_elements f r []
          end
      | String c r =>
          if Ascii.eqb c dquote
          then match read_string r with
               | Some (t, rest) => Some (JStr t, rest)
               | None => None
               end
          else read_literal (String c r)
      | EmptyString => None
      end
  end
with parse_elements (fuel : nat) (s : string) (acc : list json)
  : option (json * string) :=
  match fuel with
  | O => None
  | S f =>
      match parse_value f s with
      | Some (v, rest) =>
          match skip_ws rest with
          | String "," r => parse_elements f r (acc ++ [v])
          | String "]" r => Some (JList (acc ++ [v]), r)
          | _ => None
          end
      | None => None
      end
  end
with parse_members (fuel : nat) (s : string) (acc : pydict)
  : option (json * string) :=
  match fuel with
  | O => None
  | S f =>
      match skip_ws s with
      | String c r =>
          if Ascii.eqb c dquote then
            match read_string r with
            | Some (k, rest) =>
                match skip_ws rest with
                | String ":" r2 =>
                    match parse_value f r2 with
                    | Some (v, rest2) =>
                        match skip_ws rest2 with
                        | String "," r3 => parse_members f r3 (dict_set k v acc)
                        | String "}" r3 => Some (JDict (dict_set k v acc), r3)
                        | _ => None
                        end
                    | None => None
                    end
                | _ => None
                end
            | None => None
            end
          else None
      | EmptyString => None
      end
  end.

(** What the reader does not accept is a [json.JSONDecodeError]. *)
Definition json_loads_subset (s : string) : result json :=
  match parse_value (2 * String.length s + 2) s with
  | Some (v, rest) =>
      match skip_ws rest with
      | EmptyString => Ok v
      | _ => Raise JSONDecodeError
      end
  | None => Raise JSONDecodeError
  end.

(** ** Stored records ([database.py])

    [status], [raw_text] and [page_num] are only ever written by this
    program with one type; the three fields filled from the model's reply
    hold whatever value the reply carried.  [updated_at] is the time of
    the last write in the milliseconds the database keeps, absent on a
    page that was never written again; [pdf_file_id] is the reference to
    the original file in GridFS. *)

Record PageRecord : Type := {
  doc_id : string;
  page_num : Z;
  raw_text : string;
  status : string;
  page_summary : json;
  keywords : json;
  structured_data : json;
  updated_at : option Z
}.

Record DocumentRecord : Type := {
  doc_doc_id : string;
  filename : string;
  pdf_file_id : option string;
  document_summary : json;
  doc_keywords : json;
  doc_status : string
}.

(** A file of GridFS: its identifier, the name and the document it was
    stored under, and its bytes. *)
Record GridFile : Type := {
  file_id : string;
  file_filename : string;
  file_doc_id : string;
  file_data : string
}.

(** A collection is [None] while the database is not connected, and so
    is [fs]. *)
Record MongoDBManager : Type := {
  documents_collection : option (list DocumentRecord);
  pages_collection : option (list PageRecord);
  fs : option (list GridFile)
}.

#[global] Instance PageRecord_eq_dec : EqDecision PageRecord.
Proof. intros a b. unfold Decision. decide equality; apply (decide _). Defined.

(** ** The outside world *)

Inductive Prompt : Type := StructurePrompt | SummaryPrompt.

(** What a run does that can be observed from outside it: the requests
    sent to the model, the decision taken on each page (the log lines
    "skipping", "Retrying" and "Processing" of [process_document]) and
    the call of the document-level metadata build. *)
Inductive Event : Type :=
| EvChat (p : Prompt) (user_content : string)
| EvSkip (page : PageRecord)
| EvStructure (page : PageRecord)
| EvMetadata (page_summaries all_keywords : list json).

(** What a request to the model gives: the value of
    [response.choices[0].message.content], which can be [None], or an
    exception (a reply without choices is one). *)
Inductive CallOutcome : Type :=
| Returns (content : option string)
| Raises (e : PyExc).

(** How the collaborators answer during one run.  The model's answer may
    depend on everything that happened before the request. *)
Record Env : Type := {
  chat_completions_create : list Event -> Prompt -> string -> CallOutcome;
  find_raises : bool;
  pages_update_one_raises : Z -> bool;
  utcnow : Z -> Z;      (* the clock read by the write to a page *)
  documents_update_one_raises : bool
}.

Record World : Type := {
  db : MongoDBManager;
  log : list Event
}.

(** ** State and exceptions *)

Definition M (A : Type) : Type := World -> result A * World.

Definition ret {A} (a : A) : M A := fun w => (Ok a, w).

Definition raise {A} (e : PyExc) : M A := fun w => (Raise e, w).

Definition bind {A B} (c : M A) (k : A -> M B) : M B :=
  fun w =>
    match c w with
    | (Ok a, w') => k a w'
    | (Raise e, w') => (Raise e, w')
    end.

Notation "x <- c ;; k" := (bind c (fun x => k))
  (at level 100, c at next level, right associativity).
Notation "c ;;; k" := (bind c (fun _ => k))
  (at level 100, right associativity).

Definition lift {A} (r : result A) : M A := fun w => (r, w).

(** [try: body / except Exception as e: handler e] *)
Definition try_except {A} (body : M A) (handler : PyExc -> M A) : M A :=
  fun w =>
    match body w with
    | (Ok a, w') => (Ok a, w')
    | (Raise e, w') => handler e w'
    end.

Definition emit (ev : Event) : M unit :=
  fun w => (Ok tt, {| db := db w; log := log w ++ [ev] |}).

Definition get_db : M MongoDBManager := fun w => (Ok (db w), w).

Definition put_db (d : MongoDBManager) : M unit :=
  fun w => (Ok tt, {| db := d; log := log w |}).

(** [client.chat.completions.create(...)]: the request is recorded, then
    the service answers or raises. *)
Definition chat (env : Env) (p : Prompt) (user_content : string)
  : M (option string) :=
  fun w =>
    let w' := {| db := db w; log := log w ++ [EvChat p user_content] |} in
    match chat_completions_create env (log w) p user_content with
    | Returns content => (Ok content, w')
    | Raises e => (Raise e, w')
    end.

(** A [for] loop whose body may raise. *)
Fixpoint for_each {A S} (body : S -> A -> M S) (l : list A) (s : S) : M S :=
  match l with
  | [] => ret s
  | x :: rest => s' <- body s x ;; for_each body rest s'
  end.

(** ** [MongoDBManager] *)

Definition page_matches (d : string) (n : Z) (p : PageRecord) : bool :=
  String.eqb (doc_id p) d && (page_num p =? n).

Definition page_le (p q : PageRecord) : Prop := page_num p <= page_num q.

#[global] Instance page_le_dec (p q : PageRecord) : Decision (page_le p q).
Proof. unfold page_le. apply _. Defined.

(** [find({"doc_id": doc_id}).sort("page_num", 1)]; page numbers are
    unique within a document, so the order is determined. *)
Definition find_pages (pages : list PageRecord) (d : string) : list PageRecord :=
  merge_sort page_le (filter (fun p => doc_id p = d) pages).

Definition get_raw_text (env : Env) (m : MongoDBManager) (d : string)
  : list PageRecord :=
  match pages_collection m with
  | None => []
  | Some pages => if find_raises env then [] else find_pages pages d
  end.

(** The ["$set"] of [update_page_data], written at time [now]: an
    argument that is [None] leaves its field alone. *)
Definition set_page_fields (now : Z) (sd ps kw : json) (p : PageRecord)
  : PageRecord :=
  {| doc_id := doc_id p;
     page_num := page_num p;
     raw_text := raw_text p;
     status := "structured";
     page_summary := match ps with JNull => page_summary p | _ => ps end;
     keywords := match kw with JNull => keywords p | _ => kw end;
     structured_data := match sd with JNull => structured_data p | _ => sd end;
     updated_at := Some now |}.

(** [update_one]: the first record the filter matches is changed. *)
Fixpoint update_one {A} (matches : A -> bool) (f : A -> A) (l : list A)
  : option (list A) :=
  match l with
  | [] => None
  | x :: rest =>
      if matches x then Some (f x :: rest)
      else match update_one matches f rest with
           | Some rest' => Some (x :: rest')
           | None => None
           end
  end.

(** Returns the manager after the write and [modified_count > 0]:
    [modified_count] is 1 when the record matched was changed by the
    write, and 0 when no record matched or the one matched already held
    every value written, the time included.  An exception inside is
    caught and gives [False]. *)
Definition update_page_data (env : Env) (m : MongoDBManager) (d : string)
    (n : Z) (sd ps kw : json) : MongoDBManager * bool :=
  match pages_collection m with
  | None => (m, false)
  | Some pages =>
      if pages_update_one_raises env n then (m, false)
      else match update_one (page_matches d n)
                   (set_page_fields (utcnow env n) sd ps kw) pages with
           | Some pages' =>
               let modified_count := if decide (pages' = pages) then 0 else 1 in
               ({| documents_collection := documents_collection m;
                   pages_collection := Some pages';
                   fs := fs m |}, modified_count >? 0)
           | None => (m, false)
           end
  end.

Definition find_one_document (docs : list DocumentRecord) (d : string)
  : option DocumentRecord :=
  List.find (fun r => String.eqb (doc_doc_id r) d) docs.

(** The document's metadata with all its pages in page order. *)
Definition get_document_details (env : Env) (m : MongoDBManager) (d : string)
  : option (DocumentRecord * list PageRecord) :=
  match documents_collection m, pages_collection m with
  | Some docs, Some pages =>
      if find_raises env then None
      else match find_one_document docs d with
           | Some doc => Some (doc, find_pages pages d)
           | None => None
           end
  | _, _ => None
  end.

Record UnifiedDoc : Type := {
  u_doc_id : string;
  u_filename : string;
  total_pages : Z;
  all_sections : list json;
  all_measurements : list json;
  all_key_fields : pydict;
  all_tables : list json;
  u_pages : list PageRecord;
  u_document_summary : json;
  document_keywords : json
}.

Definition extend_sections (u : UnifiedDoc) (l : list json) : UnifiedDoc :=
  {| u_doc_id := u_doc_id u; u_filename := u_filename u;
     total_pages := total_pages u;
     all_sections := all_sections u ++ l;
     all_measurements := all_measurements u;
     all_key_fields := all_key_fields u;
     all_tables := all_tables u;
     u_pages := u_pages u; u_document_summary := u_document_summary u;
     document_keywords := document_keywords u |}.

Definition extend_measurements (u : UnifiedDoc) (l : list json) : UnifiedDoc :=
  {| u_doc_id := u_doc_id u; u_filename := u_filename u;
     total_pages := total_pages u;
     all_sections := all_sections u;
     all_measurements := all_measurements u ++ l;
     all_key_fields := all_key_fields u;
     all_tables := all_tables u;
     u_pages := u_pages u; u_document_summary := u_document_summary u;
     document_keywords := document_keywords u |}.

Definition update_key_fields (u : UnifiedDoc) (d : pydict) : UnifiedDoc :=
  {| u_doc_id := u_doc_id u; u_filename := u_filename u;
     total_pages := total_pages u;
     all_sections := all_sections u;
     all_measurements := all_measurements u;
     all_key_fields := dict_update (all_key_fields u) d;
     all_tables := all_tables u;
     u_pages := u_pages u; u_document_summary := u_document_summary u;
     document_keywords := document_keywords u |}.

Definition extend_tables (u : UnifiedDoc) (l : list json) : UnifiedDoc :=
  {| u_doc_id := u_doc_id u; u_filename := u_filename u;
     total_pages := total_pages u;
     all_sections := all_sections u;
     all_measurements := all_measurements u;
     all_key_fields := all_key_fields u;
     all_tables := all_tables u ++ l;
     u_pages := u_pages u; u_document_summary := u_document_summary u;
     document_keywords := document_keywords u |}.

(** "Collect sections" *)
Definition collect_sections (u : UnifiedDoc) (s_data : pydict) : UnifiedDoc :=
  match dict_get "sections" (JList []) s_data with
  | JList sections => extend_sections u sections
  | _ => u
  end.

(** "Collect measurements" *)
Definition collect_measurements (u : UnifiedDoc) (s_data : pydict) : UnifiedDoc :=
  match dict_get "measurements" (JList []) s_data with
  | JList measurements => extend_measurements u measurements
  | _ => u
  end.

(** "Merge key_fields" *)
Definition merge_key_fields (u : UnifiedDoc) (s_data : pydict) : UnifiedDoc :=
  match dict_get "key_fields" (JDict []) s_data with
  | JDict key_fields => update_key_fields u key_fields
  | _ => u
  end.

(** "Collect tables" *)
Definition collect_tables (u : UnifiedDoc) (s_data : pydict) : UnifiedDoc :=
  match dict_get "tables" (JList []) s_data with
  | JList tables => extend_tables u tables
  | _ => u
  end.

(** The body of the loop over [doc_details["pages"]]. *)
Definition merge_page (u : UnifiedDoc) (page : PageRecord) : UnifiedDoc :=
  let s_data := structured_data page in
  if negb (truthy s_data) || negb (is_dict s_data) then u
  else
    match s_data with
    | JDict s_data =>
        collect_tables
          (merge_key_fields
             (collect_measurements (collect_sections u s_data) s_data)
             s_data)
          s_data
    | _ => u
    end.

(** [None] is returned when the document is unknown or a read fails. *)
Definition create_document_structure (env : Env) (m : MongoDBManager)
    (d : string) : option UnifiedDoc :=
  match get_document_details env m d with
  | None => None
  | Some (doc_details, pages) =>
      let unified_doc :=
        {| u_doc_id := d;
           u_filename := filename doc_details;
           total_pages := Z.of_nat (length pages);
           all_sections := [];
           all_measurements := [];
           all_key_fields := [];
           all_tables := [];
           u_pages := pages;
           u_document_summary := document_summary doc_details;
           document_keywords := doc_keywords doc_details |} in
      Some (fold_left merge_page pages unified_doc)
  end.

(** ** More of [MongoDBManager] *)

(** [update_structured_text]: the legacy entry point passes the structure
    alone, so [page_summary] and [keywords] are [None]. *)
Definition update_structured_text (env : Env) (m : MongoDBManager) (d : string)
    (n : Z) (sd : json) : MongoDBManager * bool :=
  update_page_data env m d n sd JNull JNull.

(** What [get_document_status] returns. *)
Record DocumentStatus : Type := {
  st_doc_id : string;
  st_filename : string;
  st_total_pages : Z;
  processed_pages : Z;
  is_complete : bool;
  has_pdf_file : bool
}.

(** [count_documents(query)] *)
Definition count_documents (query : PageRecord -> Prop)
    `{forall p, Decision (query p)} (pages : list PageRecord) : Z :=
  Z.of_nat (length (filter query pages)).

Definition get_document_status (env : Env) (m : MongoDBManager) (d : string)
  : option DocumentStatus :=
  match documents_collection m, pages_collection m with
  | Some docs, Some pages =>
      if find_raises env then None
      else match find_one_document docs d with
           | None => None
           | Some doc =>
               let total := count_documents (fun p => doc_id p = d) pages in
               let processed :=
                 count_documents
                   (fun p => doc_id p = d /\ status p = "structured") pages in
               Some {| st_doc_id := d;
                       st_filename := filename doc;
                       st_total_pages := total;
                       processed_pages := processed;
                       is_complete := (total >? 0) && (total =? processed);
                       has_pdf_file :=
                         match pdf_file_id doc with
                         | Some _ => true
                         | None => false
                         end |}
           end
  | _, _ => None
  end.

(** ** Ingestion and removal *)

(** One entry of [pages_data], as [extract_text_from_pdf] builds it. *)
Record ExtractedPage : Type := {
  ex_page_num : Z;
  ex_raw_text : string;
  text_length : Z
}.

(** How a write ends. *)
Inductive WriteOutcome : Type :=
| Written
| OperationFailure    (* pymongo.errors.OperationFailure, a duplicate key included *)
| OtherFailure.       (* any other exception *)

(** The identifier [uuid.uuid4()] draws, the file on disk, and what the
    writes of one call do.  [open_file] gives the bytes at a path, [None]
    when [open] raises; [object_id] is the identifier GridFS gives the
    file it stores.  A write of one record or one file that raises
    stores nothing, and a removal that raises removes nothing;
    [insert_many] is ordered, so when it raises the records before the
    failure are stored, [insert_many_written] of them.
    [fs_delete_raises] covers a file identifier that is no [ObjectId]. *)
Record WriteEnv : Type := {
  uuid4 : string;
  open_file : string -> option string;
  object_id : string;
  fs_put_raises : bool;
  insert_one : WriteOutcome;
  insert_many : WriteOutcome;
  insert_many_written : nat;
  fs_delete_raises : bool;
  delete_many_raises : bool;
  delete_one_raises : bool
}.

Definition document_record (d fname : string) (pdf_file_id : option string)
  : DocumentRecord :=
  {| doc_doc_id := d; filename := fname; pdf_file_id := pdf_file_id;
     document_summary := JStr ""; doc_keywords := JList []; doc_status := "raw" |}.

Definition page_record (d : string) (page : ExtractedPage) : PageRecord :=
  {| doc_id := d; page_num := ex_page_num page; raw_text := ex_raw_text page;
     status := "raw"; page_summary := JStr ""; keywords := JList [];
     structured_data := JDict []; updated_at := None |}.

(** Step 1 of [save_pdf_with_pages]: the upload to GridFS, in a [try]
    block of its own.  Returns the files afterwards and [pdf_file_id],
    [None] when the file cannot be opened, GridFS is not there or the
    upload raises. *)
Definition upload_pdf (wenv : WriteEnv) (files : option (list GridFile))
    (pdf_path fname d : string) : option (list GridFile) * option string :=
  match open_file wenv pdf_path, files with
  | Some data, Some stored =>
      if fs_put_raises wenv then (files, None)
      else
        (Some (stored ++ [ {| file_id := object_id wenv;
                              file_filename := fname;
                              file_doc_id := d;
                              file_data := data |} ]),
         Some (object_id wenv))
  | _, _ => (files, None)
  end.

(** Returns the manager after the writes and the [doc_id], [None] on a
    failure. *)
Definition save_pdf_with_pages (wenv : WriteEnv) (m : MongoDBManager)
    (pdf_path fname : string) (pages_data : list ExtractedPage)
  : MongoDBManager * option string :=
  match pages_collection m, documents_collection m with
  | Some pages, Some docs =>
      let d := uuid4 wenv in
      let '(files, pdf_file_id) := upload_pdf wenv (fs m) pdf_path fname d in
      match insert_one wenv with
      | Written =>
          let docs' := docs ++ [document_record d fname pdf_file_id] in
          let page_records := map (page_record d) pages_data in
          match page_records with
          | [] =>
              ({| documents_collection := Some docs';
                  pages_collection := Some pages;
                  fs := files |}, None)
          | _ :: _ =>
              match insert_many wenv with
              | Written =>
                  ({| documents_collection := Some docs';
                      pages_collection := Some (pages ++ page_records);
                      fs := files |},
                   Some d)
              | _ =>
                  ({| documents_collection := Some docs';
                      pages_collection :=
                        Some (pages
                              ++ take (insert_many_written wenv) page_records);
                      fs := files |},
                   None)
              end
          end
      | _ =>
          ({| documents_collection := Some docs;
              pages_collection := Some pages;
              fs := files |}, None)
      end
  | _, _ => (m, None)
  end.

(** The legacy entry point stores no file and catches [OperationFailure]
    only. *)
Definition save_pdf_pages (wenv : WriteEnv) (m : MongoDBManager)
    (fname : string) (pages_data : list ExtractedPage)
  : MongoDBManager * result (option string) :=
  match pages_collection m, documents_collection m with
  | Some pages, Some docs =>
      let d := uuid4 wenv in
      match insert_one wenv with
      | Written =>
          let docs' := docs ++ [document_record d fname None] in
          let page_records := map (page_record d) pages_data in
          match page_records with
          | [] =>
              ({| documents_collection := Some docs';
                  pages_collection := Some pages;
                  fs := fs m |}, Ok None)
          | _ :: _ =>
              let partial :=
                {| documents_collection := Some docs';
                   pages_collection :=
                     Some (pages
                           ++ take (insert_many_written wenv) page_records);
                   fs := fs m |} in
              match insert_many wenv with
              | Written =>
                  ({| documents_collection := Some docs';
                      pages_collection := Some (pages ++ page_records);
                      fs := fs m |},
                   Ok (Some d))
              | OperationFailure => (partial, Ok None)
              | OtherFailure => (partial, Raise OtherException)
              end
          end
      | OperationFailure => (m, Ok None)
      | OtherFailure => (m, Raise OtherException)
      end
  | _, _ => (m, Ok None)
  end.

(** [get_pdf_file]: the file with that identifier, [None] when there is
    none or GridFS is not there. *)
Definition get_pdf_file (m : MongoDBManager) (id : string) : option GridFile :=
  match fs m with
  | None => None
  | Some stored => List.find (fun f => String.eqb (file_id f) id) stored
  end.

(** [delete_pdf_file]: returns the manager afterwards and whether the
    removal went through. *)
Definition delete_pdf_file (wenv : WriteEnv) (m : MongoDBManager) (id : string)
  : MongoDBManager * bool :=
  match fs m with
  | None => (m, false)
  | Some stored =>
      if fs_delete_raises wenv then (m, false)
      else
        ({| documents_collection := documents_collection m;
            pages_collection := pages_collection m;
            fs := Some (filter (fun f => file_id f <> id) stored) |}, true)
  end.

(** [delete_one]: the first record the filter matches is removed. *)
Fixpoint delete_one {A} (matches : A -> bool) (l : list A) : list A :=
  match l with
  | [] => []
  | x :: rest => if matches x then rest else x :: delete_one matches rest
  end.

(** [if doc.get("pdf_file_id"): self.delete_pdf_file(doc["pdf_file_id"])]:
    what [delete_pdf_file] answers is not looked at. *)
Definition delete_file_of (wenv : WriteEnv) (m : MongoDBManager)
    (doc : DocumentRecord) : MongoDBManager :=
  match pdf_file_id doc with
  | Some id => if String.eqb id "" then m else fst (delete_pdf_file wenv m id)
  | None => m
  end.

(** Returns the manager after the writes and [deleted_count > 0] of the
    document record; an exception inside gives [False].  The file goes
    first. *)
Definition delete_document (env : Env) (wenv : WriteEnv) (m : MongoDBManager)
    (d : string) : MongoDBManager * bool :=
  match documents_collection m, pages_collection m with
  | Some docs, Some pages =>
      if find_raises env then (m, false)
      else
        match find_one_document docs d with
        | None => (m, false)
        | Some doc =>
            let m1 := delete_file_of wenv m doc in
            if delete_many_raises wenv then (m1, false)
            else
              let pages' := filter (fun p => doc_id p <> d) pages in
              if delete_one_raises wenv then
                ({| documents_collection := Some docs;
                    pages_collection := Some pages';
                    fs := fs m1 |}, false)
              else
                let matches := fun r => String.eqb (doc_doc_id r) d in
                let deleted_count := if existsb matches docs then 1 else 0 in
                ({| documents_collection := Some (delete_one matches docs);
                    pages_collection := Some pages';
                    fs := fs m1 |}, deleted_count >? 0)
        end
  | _, _ => (m, false)
  end.

(** ** Operations on dynamically typed values that can raise *)

(** [k in data] *)
Definition py_in (k : string) (data : json) : result bool :=
  match data with
  | JDict d => Ok (dict_mem k d)
  | JList l => Ok (list_has_str k l)
  | JStr s => Ok (str_contains k s)
  | _ => Raise TypeError
  end.

(** [all(key in data for key in keys)]: stops at the first [False]. *)
Fixpoint all_in (keys : list string) (data : json) : result bool :=
  match keys with
  | [] => Ok true
  | k :: rest =>
      rbind (py_in k data) (fun b => if b then all_in rest data else Ok false)
  end.

(** [data[k] = v] with a string [k]: only a dict takes it. *)
Definition py_setitem (data : json) (k : string) (v : json) : result pydict :=
  match data with
  | JDict d => Ok (dict_set k v d)
  | _ => Raise TypeError
  end.

(** [list(data.keys())] *)
Definition py_keys (data : json) : result (list string) :=
  match data with
  | JDict d => Ok (map fst d)
  | _ => Raise AttributeError
  end.

(** [len(v)] *)
Definition py_len_json (v : json) : result Z :=
  match v with
  | JStr s => Ok (py_len s)
  | JList l => Ok (Z.of_nat (length l))
  | JDict d => Ok (Z.of_nat (length d))
  | _ => Raise TypeError
  end.

(** [v[:80]], evaluated for a log line: a [str] or a [list] can be
    sliced, anything else raises (which exception is immaterial here). *)
Definition py_sliceable (v : json) : result unit :=
  match v with
  | JStr _ | JList _ => Ok tt
  | _ => Raise TypeError
  end.

(** [', '.join(keywords[:5])], evaluated for a log line. *)
Definition join_first_keywords (kw : json) : result unit :=
  match kw with
  | JStr _ => Ok tt
  | JList l => if forallb is_str (take 5 l) then Ok tt else Raise TypeError
  | _ => Raise TypeError
  end.

Fixpoint chars_of (s : string) : list json :=
  match s with
  | EmptyString => []
  | String c r => JStr (String c "") :: chars_of r
  end.

(** [acc.extend(v)]: [v] is iterated. *)
Definition py_extend (acc : list json) (v : json) : result (list json) :=
  match v with
  | JList l => Ok (acc ++ l)
  | JStr s => Ok (acc ++ chars_of s)
  | JDict d => Ok (acc ++ map (fun kv => JStr (fst kv)) d)
  | _ => Raise TypeError
  end.

(** [list(dict.fromkeys(l))], with the keys seen so far in [seen]. *)
Fixpoint dict_fromkeys (seen l : list json) : result (list json) :=
  match l with
  | [] => Ok seen
  | k :: rest =>
      if hashable k
      then dict_fromkeys (if existsb (key_eqb k) seen then seen else seen ++ [k]) rest
      else Raise TypeError
  end.

(** [list(dict.fromkeys(all_keywords))[:30]] *)
Definition unique_keywords (all_kw : list json) : result (list json) :=
  rbind (dict_fromkeys [] all_kw) (fun keys => Ok (take 30 keys)).

(** ** [AIProcessor] *)

Record AIProcessor : Type := {
  api_key : option string;
  client : option string;    (* the OpenAI client, built from the key *)
  model : string
}.

Definition str_or_none_truthy (o : option string) : bool :=
  match o with
  | Some s => negb (String.eqb s "")
  | None => false
  end.

(** [__init__]: the key comes from the argument or the environment; the
    client stays [None] without a key or when its construction raises. *)
Definition AIProcessor_init (key env_key : option string)
    (openai_raises : bool) (mdl : string) : AIProcessor :=
  let k := if str_or_none_truthy key then key else env_key in
  {| api_key := k;
     client := match k with
               | Some s =>
                   if String.eqb s "" || openai_raises then None else Some s
               | None => None
               end;
     model := mdl |}.

(** [not self.api_key or not self.client] *)
Definition not_configured (self : AIProcessor) : bool :=
  negb (str_or_none_truthy (api_key self))
  || match client self with Some _ => false | None => true end.

Definition _get_default_structure : pydict :=
  [ ("summary", JStr "");
    ("keywords", JList []);
    ("sections", JList []);
    ("measurements", JList []);
    ("key_fields", JDict []);
    ("tables", JList []);
    ("processing_status", JStr "failed") ].

Definition required_keys : list string :=
  ["summary"; "keywords"; "sections"; "measurements"; "key_fields"; "tables"].

Definition _validate_structure (data : json) : result bool :=
  all_in required_keys data.

Definition default_tagged (tag : string) : pydict :=
  dict_set "processing_status" (JStr tag) _get_default_structure.

Definition truncation_marker : string :=
  nl +:+ nl +:+ "[...middle content truncated...]" +:+ nl +:+ nl.

(** Lines 84-90: what is sent for [raw_text]. *)
Definition text_to_process (raw_text : string) (max_chars : Z) : result string :=
  if py_len raw_text >? max_chars then
    rbind (py_int_mul max_chars double_07) (fun k1 =>
    rbind (py_int_mul max_chars double_03) (fun k2 =>
      let first_part := py_slice_to raw_text k1 in
      let last_part := py_slice_from raw_text (- k2) in
      Ok (first_part +:+ truncation_marker +:+ last_part)))
  else Ok raw_text.

(** [not raw_text or len(raw_text.strip()) == 0] *)
Definition is_blank (raw_text : string) : bool :=
  String.eqb raw_text "" || (py_len (py_strip raw_text) =? 0).

(** The reply without its markdown fences (line 135). *)
Definition clean_content (content : string) : string :=
  py_strip (py_replace "```" "" (py_replace "```json" "" content)).

(** The [except] clauses of [structure_text], in their order. *)
Definition structure_text_handler (e : PyExc) : pydict :=
  match e with
  | AuthenticationError => default_tagged "auth_error"
  | RateLimitError => default_tagged "rate_limit_error"
  | _ =>
      if is_APIError e then default_tagged "api_error"
      else default_tagged "unknown_error"
  end.

Definition summary_marker : string :=
  nl +:+ nl +:+ "[...intermediate pages omitted...]" +:+ nl +:+ nl.

Definition sentinel_summary : string := "[No API key - processing skipped]".

(** The accumulators of the loop of [process_document]. *)
Record LoopState : Type := {
  all_summaries : list json;
  all_keywords : list json;
  processed_count : Z;
  failed_count : Z
}.

Section Runtime.

(** [json.loads]: the value decoded, [JSONDecodeError], or whatever else
    the decoder raises (a [RecursionError] on a deeply nested text); and
    the text [str()] gives for a value that is not a string. *)
Variable json_loads : string -> result json.
Variable py_repr : json -> string.

(** [f"{v}"] *)
Definition py_format (v : json) : string :=
  match v with
  | JStr s => s
  | _ => py_repr v
  end.

Definition structure_text (self : AIProcessor) (env : Env)
    (raw_text : string) (max_chars : Z) : M pydict :=
  if not_configured self then ret (default_tagged "no_api_key")
  else if is_blank raw_text then ret (default_tagged "empty_text")
  else
    text <- lift (text_to_process raw_text max_chars) ;;
    try_except
      (content <- chat env StructurePrompt
                    ("Text to structure:" +:+ nl +:+ nl +:+ text) ;;
       match content with
       | None => raise TypeError          (* len(content) *)
       | Some content =>
           match json_loads (clean_content content) with
           | Raise JSONDecodeError => ret (default_tagged "json_error")
           | Raise e => raise e
           | Ok data =>
               valid <- lift (_validate_structure data) ;;
               if valid then
                 lift (py_setitem data "processing_status" (JStr "success"))
               else
                 _ <- lift (py_keys data) ;;
                 match data with
                 | JDict d =>
                     ret (dict_set "processing_status" (JStr "partial_success")
                            (dict_update _get_default_structure d))
                 | _ => raise AttributeError
                 end
           end
       end)
      (fun e => ret (structure_text_handler e)).

(** [enumerate(page_summaries)] turned into the lines of the context. *)
Fixpoint page_lines (i : nat) (page_summaries : list json) : list string :=
  match page_summaries with
  | [] => []
  | summary :: rest =>
      ("Page " +:+ str_of_nat (i + 1) +:+ ": " +:+ py_format summary)
        :: page_lines (i + 1) rest
  end.

Definition summary_context (page_summaries : list json) : string :=
  let context := py_join (nl +:+ nl) (page_lines 0 page_summaries) in
  if py_len context >? 12000
  then py_slice_to context 6000 +:+ summary_marker +:+ py_slice_from context (-6000)
  else context.

(** ["Document with N pages. " + page_summaries[0]] *)
Definition summary_fallback (page_summaries : list json) : result json :=
  match page_summaries with
  | JStr first :: _ =>
      Ok (JStr ("Document with "
                +:+ str_of_nat (length page_summaries) +:+ " pages. " +:+ first))
  | _ => Raise TypeError
  end.

Definition generate_document_summary (self : AIProcessor) (env : Env)
    (page_summaries : list json) : M json :=
  match page_summaries with
  | [] => ret (JStr "")
  | [only] => ret only
  | _ =>
      let context := summary_context page_summaries in
      try_except
        (match client self with
         | None => raise AttributeError
         | Some _ =>
             content <- chat env SummaryPrompt
                          ("Here are the summaries of the document pages:"
                           +:+ nl +:+ nl +:+ context) ;;
             match content with
             | None => raise AttributeError     (* None.strip() *)
             | Some content => ret (JStr (py_strip content))
             end
         end)
        (fun _ => lift (summary_fallback page_summaries))
  end.

Definition set_document_metadata (doc_summary : json) (unique_keywords : list json)
    (r : DocumentRecord) : DocumentRecord :=
  {| doc_doc_id := doc_doc_id r;
     filename := filename r;
     pdf_file_id := pdf_file_id r;
     document_summary := doc_summary;
     doc_keywords := JList unique_keywords;
     doc_status := "structured" |}.

Definition _update_document_metadata (self : AIProcessor) (env : Env)
    (d : string) (page_summaries all_kw : list json) : M unit :=
  try_except
    (doc_summary <- generate_document_summary self env page_summaries ;;
     unique <- lift (unique_keywords all_kw) ;;
     m <- get_db ;;
     match documents_collection m with
     | None => ret tt
     | Some docs =>
         _ <- lift (py_len_json doc_summary) ;;
         if documents_update_one_raises env then raise OtherException
         else
           match update_one (fun r => String.eqb (doc_doc_id r) d)
                   (set_document_metadata doc_summary unique) docs with
           | Some docs' =>
               put_db {| documents_collection := Some docs';
                         pages_collection := pages_collection m;
                         fs := fs m |}
           | None => ret tt
           end
     end)
    (fun _ => ret tt).

Definition update_page (env : Env) (d : string) (n : Z) (sd ps kw : json)
  : M bool :=
  m <- get_db ;;
  let '(m', success) := update_page_data env m d n sd ps kw in
  put_db m' ;;; ret success.

(** The body of the loop over the pages (lines 240-308). *)
Definition process_page (self : AIProcessor) (env : Env) (d : string)
    (st : LoopState) (page : PageRecord) : M LoopState :=
  if String.eqb (status page) "structured" && truthy (page_summary page) then
    emit (EvSkip page) ;;;
    let existing_summary := page_summary page in
    let existing_keywords := keywords page in
    let summaries :=
      if truthy existing_summary
      then all_summaries st ++ [existing_summary] else all_summaries st in
    kws <- (if truthy existing_keywords
            then lift (py_extend (all_keywords st) existing_keywords)
            else ret (all_keywords st)) ;;
    ret {| all_summaries := summaries;
           all_keywords := kws;
           processed_count := processed_count st + 1;
           failed_count := failed_count st |}
  else
    emit (EvStructure page) ;;;
    structured <- structure_text self env (raw_text page) 8000 ;;
    let processing_status := dict_get "processing_status" (JStr "unknown") structured in
    let no_key := match processing_status with
                  | JStr s => String.eqb s "no_api_key"
                  | _ => false
                  end in
    let processed := if no_key then processed_count st else processed_count st + 1 in
    let failed := if no_key then failed_count st + 1 else failed_count st in
    let summary := dict_get "summary" (JStr "") structured in
    let kw := dict_get "keywords" (JList []) structured in
    (if truthy summary then lift (py_sliceable summary) else ret tt) ;;;
    (if truthy kw then lift (join_first_keywords kw) else ret tt) ;;;
    success <- update_page env d (page_num page) (JDict structured) summary kw ;;
    if negb success then
      ret {| all_summaries := all_summaries st;
             all_keywords := all_keywords st;
             processed_count := processed;
             failed_count := failed + 1 |}
    else
      kws <- lift (py_extend (all_keywords st) kw) ;;
      ret {| all_summaries := all_summaries st ++ [summary];
             all_keywords := kws;
             processed_count := processed;
             failed_count := failed |}.

(** Returns the counters the last log lines report, [None] on an early
    [return]. *)
Definition process_document (self : AIProcessor) (env : Env) (d : string)
  : M (option LoopState) :=
  if not_configured self then
    m <- get_db ;;
    let pages := get_raw_text env m d in
    for_each
      (fun (_ : unit) page =>
         _ <- update_page env d (page_num page) (JDict _get_default_structure)
                (JStr sentinel_summary) (JList []) ;;
         ret tt)
      pages tt ;;;
    ret None
  else
    m <- get_db ;;
    let pages := get_raw_text env m d in
    match pages with
    | [] => ret None
    | _ =>
        st <- for_each (process_page self env d) pages
                {| all_summaries := []; all_keywords := [];
                   processed_count := 0; failed_count := 0 |} ;;
        (match all_summaries st with
         | [] => ret tt
         | _ =>
             emit (EvMetadata (all_summaries st) (all_keywords st)) ;;;
             _update_document_metadata self env d (all_summaries st) (all_keywords st)
         end) ;;;
        ret (Some st)
    end.

End Runtime.

(** ** [PDFProcessor] *)

(** What [page.get_text()] does on one page, and a PDF as [fitz.open]
    gives it ([None] when opening raises). *)
Inductive PageText : Type :=
| GetText (text : string)
| GetTextRaises.

Definition is_text_scannable (text_length threshold : Z) : bool :=
  text_length <? threshold.

Definition default_threshold : Z := 50.

(** The loop over the sampled pages. *)
Fixpoint scan_sample (sample : list PageText) : result bool :=
  match sample with
  | [] => Ok false
  | GetTextRaises :: _ => Raise OtherException
  | GetText t :: rest =>
      let text := py_strip t in
      if py_len text <? 50 then Ok true else scan_sample rest
  end.

Definition _needs_ocr (pdf : option (list PageText)) : bool :=
  match pdf with
  | None => true
  | Some doc =>
      let sample_size := Nat.min 3 (length doc) in
      match scan_sample (take sample_size doc) with
      | Ok b => b
      | Raise _ => true
      end
  end.

(** ** [PDFProcessor]: extraction *)

(** How a subprocess ends. *)
Inductive SubprocessOutcome : Type :=
| Completed (returncode : Z)
| TimeoutExpired
| FileNotFoundError
| SubprocessRaises.      (* any other exception *)

(** What the tools and the file system do during one call: the two runs
    of OCRmyPDF, the temporary file ([None] when [mkstemp] raises), what
    [fitz.open] gives for a path ([None] when it raises), and Tesseract
    on the rendering of a page ([None] when either raises). *)
Record Tools : Type := {
  ocrmypdf_version : SubprocessOutcome;
  mkstemp : option string;
  ocrmypdf : SubprocessOutcome;
  fitz_open : string -> option (list PageText);
  path_exists : string -> bool;
  remove_raises : string -> bool;
  image_to_string : Z -> option string
}.

Record PDFProcessor : Type := {
  use_ocrmypdf : bool
}.

(** The value of [self.use_ocrmypdf] afterwards; only a timeout and a
    missing executable are caught. *)
Definition _check_ocrmypdf_available (tools : Tools) (use_ocrmypdf : bool)
  : result bool :=
  if negb use_ocrmypdf then Ok use_ocrmypdf
  else
    match ocrmypdf_version tools with
    | Completed returncode => Ok (if returncode =? 0 then use_ocrmypdf else false)
    | TimeoutExpired | FileNotFoundError => Ok false
    | SubprocessRaises => Raise OtherException
    end.

(** [__init__] *)
Definition PDFProcessor_init (tools : Tools) (use_ocrmypdf : bool)
  : result PDFProcessor :=
  rbind (_check_ocrmypdf_available tools use_ocrmypdf)
    (fun u => Ok {| use_ocrmypdf := u |}).

(** [if os.path.exists(output_path): os.remove(output_path)] on a failed
    run, then [return pdf_path]; a removal that raises does so again in
    the handler and escapes.  The second component lists the files
    removed. *)
Definition discard_output (tools : Tools) (pdf_path output_path : string)
  : result string * list string :=
  if path_exists tools output_path then
    if remove_raises tools output_path then (Raise OtherException, [])
    else (Ok pdf_path, [output_path])
  else (Ok pdf_path, []).

(** The path to read next, and the files removed. *)
Definition _preprocess_with_ocrmypdf (tools : Tools) (pdf_path : string)
  : result string * list string :=
  match mkstemp tools with
  | None => (Ok pdf_path, [])
  | Some output_path =>
      match ocrmypdf tools with
      | Completed returncode =>
          if returncode =? 0 then (Ok output_path, [])
          else discard_output tools pdf_path output_path
      | _ => discard_output tools pdf_path output_path
      end
  end.

Definition _perform_ocr (tools : Tools) (page_num : Z) : string :=
  match image_to_string tools page_num with
  | Some text => text
  | None => "[OCR FAILED]"
  end.

(** The loop over [enumerate(doc, start=1)], from page [page_num] on. *)
Fixpoint extract_pages (self : PDFProcessor) (tools : Tools) (page_num : Z)
    (doc : list PageText) : result (list ExtractedPage) :=
  match doc with
  | [] => Ok []
  | GetTextRaises :: _ => Raise OtherException
  | GetText text :: rest =>
      let text :=
        if is_text_scannable (py_len text) default_threshold
           && negb (use_ocrmypdf self)
        then _perform_ocr tools page_num else text in
      rbind (extract_pages self tools (page_num + 1) rest) (fun results =>
        Ok ({| ex_page_num := page_num;
               ex_raw_text := text;
               text_length := py_len text |} :: results))
  end.

(** Step 1: the path to read, after OCRmyPDF when it is in use and the
    sample calls for it. *)
Definition preprocess_if_needed (self : PDFProcessor) (tools : Tools)
    (pdf_path : string) : result string * list string :=
  if use_ocrmypdf self && _needs_ocr (fitz_open tools pdf_path)
  then _preprocess_with_ocrmypdf tools pdf_path
  else (Ok pdf_path, []).

(** Steps 2 and 3 on [processed_path], and the removal of the temporary
    file, which happens whether the pages are read or an exception is
    re-raised. *)
Definition read_pages (self : PDFProcessor) (tools : Tools)
    (pdf_path processed_path : string)
  : result (list ExtractedPage) * list string :=
  let temp_file_created := negb (String.eqb processed_path pdf_path) in
  let cleanup :=
    if temp_file_created && path_exists tools processed_path
       && negb (remove_raises tools processed_path)
    then [processed_path] else [] in
  match fitz_open tools processed_path with
  | None => (Raise OtherException, cleanup)
  | Some doc => (extract_pages self tools 1 doc, cleanup)
  end.

(** The pages, or the exception re-raised, and the files removed on the
    way. *)
Definition extract_text_from_pdf (self : PDFProcessor) (tools : Tools)
    (pdf_path : string) : result (list ExtractedPage) * list string :=
  match preprocess_if_needed self tools pdf_path with
  | (Raise e, removed) => (Raise e, removed)
  | (Ok processed_path, removed) =>
      let '(results, cleanup) := read_pages self tools pdf_path processed_path in
      (results, removed ++ cleanup)
  end.

(** ** The upload filter ([app.py]) *)

(** [c.lower()] on a code point below 256. *)
Definition ascii_lower (c : ascii) : ascii :=
  let n := nat_of_ascii c in
  if ((65 <=? n) && (n <=? 90)
      || (192 <=? n) && (n <=? 222) && negb (n =? 215))%nat
  then ascii_of_nat (n + 32) else c.

(** [s.lower()] *)
Fixpoint py_lower (s : string) : string :=
  match s with
  | EmptyString => ""
  | String c r => String (ascii_lower c) (py_lower r)
  end.

(** [s.rsplit(".", 1)[1]]: what follows the last dot, [None] (an
    [IndexError]) when there is no dot. *)
Fixpoint after_last_dot (s : string) : option string :=
  match s with
  | EmptyString => None
  | String c r =>
      match after_last_dot r with
      | Some ext => Some ext
      | None => if Ascii.eqb c "." then Some r else None
      end
  end.

Definition ALLOWED_EXTENSIONS : list string := ["pdf"].

Definition allowed_file (filename : string) : bool :=
  str_contains "." filename
  && match after_last_dot filename with
     | Some ext => existsb (String.eqb (py_lower ext)) ALLOWED_EXTENSIONS
     | None => false
     end.

(** * Vocabulary of the properties *)

(** ** The OCR gate and the document summary *)

(** A sampled page that lets [_needs_ocr] go on: its text is read and,
    stripped, has at least 50 characters. *)
Definition readable (p : PageText) : Prop :=
  match p with
  | GetText t => 50 <= py_len (py_strip t)
  | GetTextRaises => False
  end.

(** The request [generate_document_summary] sends for several summaries. *)
Definition summary_request (py_repr : json -> string) (l : list json) : string :=
  "Here are the summaries of the document pages:" +:+ nl +:+ nl
  +:+ summary_context py_repr l.

(** The summarisation call fails: there is no client, the service raises,
    or the reply carries no text. *)
Definition summary_call_fails (py_repr : json -> string) (self : AIProcessor)
    (env : Env) (w : World) (l : list json) : Prop :=
  client self = None
  \/ (exists e, chat_completions_create env (log w) SummaryPrompt
                  (summary_request py_repr l) = Raises e)
  \/ chat_completions_create env (log w) SummaryPrompt
       (summary_request py_repr l) = Returns None.

(** ** Keywords and truncation *)

(** [dict_fromkeys] on keywords that are all strings. *)
Fixpoint keep_first (seen l : list string) : list string :=
  match l with
  | [] => seen
  | x :: rest =>
      keep_first (if bool_decide (x ∈ seen) then seen else seen ++ [x]) rest
  end.

(** Comparing [py_int_mul] with the IEEE 754 specification. *)
Definition result_Z_eqb (a b : result Z) : bool :=
  match a, b with
  | Ok x, Ok y => x =? y
  | Raise _, Raise _ => true
  | _, _ => false
  end.

(** Both products of the truncation rule agree at [n]. *)
Definition agrees_with_ieee (n : Z) : bool :=
  result_Z_eqb (py_int_mul n double_07) (ieee_int_mul n double_07)
  && result_Z_eqb (py_int_mul n double_03) (ieee_int_mul n double_03).

(** [s * n] *)
Fixpoint str_repeat (s : string) (n : nat) : string :=
  match n with
  | O => ""
  | S k => s +:+ str_repeat s k
  end.

(** A page of 100 characters. *)
Definition digits100 : string :=
  "0123456789012345678901234567890123456789012345678901234567890123456789012345678901234567890123456789".

(** A page of 20000 characters. *)
Definition text20000 : string := str_repeat digits100 200.

(** The text the truncation rule would send if the two parts had exactly
    seven and three tenths of [max_chars] characters. *)
Definition claimed_text (raw : string) (max_chars : Z) : string :=
  str_take (Z.to_nat (7 * max_chars / 10)) raw
  +:+ truncation_marker
  +:+ str_drop (String.length raw - Z.to_nat (3 * max_chars / 10)) raw.

(** The length of what is sent. *)
Definition sent_length (r : result string) : Z :=
  match r with
  | Ok s => py_len s
  | Raise _ => -1
  end.

(** ** The structuring call *)

(** The request [structure_text] sends for a page. *)
Definition structure_request (raw : string) (max_chars : Z) : string :=
  match text_to_process raw max_chars with
  | Ok text => "Text to structure:" +:+ nl +:+ nl +:+ text
  | Raise _ => ""
  end.

(** The tag each failure of the external call is given. *)
Definition failure_tag (e : PyExc) : string :=
  match e with
  | AuthenticationError => "auth_error"
  | RateLimitError => "rate_limit_error"
  | APITimeoutError | APIError => "api_error"
  | _ => "unknown_error"
  end.

(** What [structure_text] returns, as a function of what the external
    call did. *)
Definition structure_outcome (json_loads : string -> result json)
    (o : CallOutcome) : pydict :=
  match o with
  | Raises e => default_tagged (failure_tag e)
  | Returns None => default_tagged "unknown_error"
  | Returns (Some content) =>
      match json_loads (clean_content content) with
      | Raise JSONDecodeError => default_tagged "json_error"
      | Raise e => default_tagged (failure_tag e)
      | Ok (JDict data) =>
          if forallb (fun k => dict_mem k data) required_keys
          then dict_set "processing_status" (JStr "success") data
          else dict_set "processing_status" (JStr "partial_success")
                 (dict_update _get_default_structure data)
      | Ok _ => default_tagged "unknown_error"
      end
  end.

(** The six required keys hold a string, four lists and a dict. *)
Definition container_types_ok (d : pydict) : bool :=
  is_str (dict_get "summary" JNull d)
  && is_list (dict_get "keywords" JNull d)
  && is_list (dict_get "sections" JNull d)
  && is_list (dict_get "measurements" JNull d)
  && is_dict (dict_get "key_fields" JNull d)
  && is_list (dict_get "tables" JNull d).

(** [_validate_structure] on a dict. *)
Definition has_required_keys (d : pydict) : bool :=
  forallb (fun k => dict_mem k d) required_keys.

(** The diagnostic tag of a result. *)
Definition tag_of (d : pydict) : json := dict_get "processing_status" JNull d.

(** What [structure_text] returns, in all cases. *)
Definition structure_result (json_loads : string -> result json)
    (self : AIProcessor) (env : Env) (raw : string) (max_chars : Z) (w : World)
  : pydict :=
  if not_configured self then default_tagged "no_api_key"
  else if is_blank raw then default_tagged "empty_text"
  else structure_outcome json_loads
         (chat_completions_create env (log w) StructurePrompt
            (structure_request raw max_chars)).

(** Collaborators for concrete runs: storage that never fails and a model
    that answers as [answer] says. *)
Definition env_of (answer : list Event -> Prompt -> string -> CallOutcome) : Env :=
  {| chat_completions_create := answer;
     find_raises := false;
     pages_update_one_raises := fun _ => false;
     utcnow := fun _ => 1718000000000;
     documents_update_one_raises := false |}.

Definition configured_processor : AIProcessor :=
  AIProcessor_init (Some "sk-test") None false "gpt-5-mini".

Definition unconfigured_processor : AIProcessor :=
  AIProcessor_init None None false "gpt-5-mini".

Definition empty_world : World :=
  {| db := {| documents_collection := Some []; pages_collection := Some [];
              fs := Some [] |};
     log := [] |}.

(** A reply with all six keys, two of them of the wrong type. *)
Definition ill_typed_reply : string :=
  json_text "{'summary': 'S', 'keywords': 'invoice, total', 'sections': [], 'measurements': [], 'key_fields': [], 'tables': []}".

Definition ill_typed_env : Env :=
  env_of (fun _ _ _ => Returns (Some ill_typed_reply)).

Definition rate_limited_env : Env :=
  env_of (fun _ _ _ => Raises RateLimitError).

(** The result is the parsed reply itself: tagged [success] when the reply
    has the six keys, and otherwise laid over the default structure and
    tagged [partial_success], the keys the reply omits keeping their
    defaults.  The values the reply supplies are not inspected. *)
Definition reply_passed_through (json_loads : string -> result json)
    (o : CallOutcome) (d : pydict) : Prop :=
  exists c data,
    o = Returns (Some c)
    /\ json_loads (clean_content c) = Ok (JDict data)
    /\ ((has_required_keys data = true
         /\ d = dict_set "processing_status" (JStr "success") data)
        \/ (has_required_keys data = false
            /\ d = dict_set "processing_status" (JStr "partial_success")
                     (dict_update _get_default_structure data)
            /\ forall k, dict_mem k data = false ->
                 k <> "processing_status" ->
                 dict_lookup k d = dict_lookup k _get_default_structure)).

(** ** The document aggregate *)

(** A page takes part in the aggregate when its [structured_data] is a
    dict that is not empty. *)
Definition is_record (p : PageRecord) : bool :=
  truthy (structured_data p) && is_dict (structured_data p).

(** The list a page holds under [k], if it is a record and holds one. *)
Definition page_list (k : string) (p : PageRecord) : list json :=
  match structured_data p with
  | JDict (kv :: s) =>
      match dict_get k (JList []) (kv :: s) with
      | JList l => l
      | _ => []
      end
  | _ => []
  end.

(** The [key_fields] dict of a page, if it is a record and holds one. *)
Definition page_key_fields (p : PageRecord) : pydict :=
  match structured_data p with
  | JDict (kv :: s) =>
      match dict_get "key_fields" (JDict []) (kv :: s) with
      | JDict d => d
      | _ => []
      end
  | _ => []
  end.

(** Storage that never fails, with a model that is never asked. *)
Definition reliable_env : Env := env_of (fun _ _ _ => Raises OtherException).

Definition structured_page (d : string) (n : Z) (summary : string)
    (sd : json) : PageRecord :=
  {| doc_id := d; page_num := n; raw_text := "text"; status := "structured";
     page_summary := JStr summary; keywords := JList []; structured_data := sd;
     updated_at := Some 1717000000000 |}.

Definition invoice_page_3 : PageRecord :=
  structured_page "doc-1" 3 "first invoice"
    (JDict [("sections", JList [JStr "s3"]);
            ("key_fields", JDict [("invoice_date", JStr "2024-01-01");
                                  ("number", JInt 42)])]).

Definition invoice_page_5 : PageRecord :=
  structured_page "doc-1" 5 "" (JDict []).

Definition invoice_page_7 : PageRecord :=
  structured_page "doc-1" 7 "second invoice"
    (JDict [("sections", JList [JStr "s7"; JStr "s3"]);
            ("key_fields", JDict [("invoice_date", JStr "2024-02-01")])]).

(** The pages are stored out of order, next to a page of another document. *)
Definition invoice_db : MongoDBManager :=
  {| documents_collection :=
       Some [ {| doc_doc_id := "doc-1"; filename := "invoices.pdf";
                 pdf_file_id := None;
                 document_summary := JStr ""; doc_keywords := JList [];
                 doc_status := "raw" |} ];
     pages_collection :=
       Some [ invoice_page_7;
              structured_page "doc-2" 1 "other"
                (JDict [("key_fields", JDict [("invoice_date", JStr "1999-01-01")])]);
              invoice_page_5;
              invoice_page_3 ];
     fs := Some [] |}.

(** ** Runs of the batch loop *)

(** [c] only appends to the log, events that satisfy [Q], and keeps the
    property [Inv] of the database, whether it returns or raises. *)
Definition effect {A} (Q : Event -> Prop) (Inv : MongoDBManager -> Prop)
    (c : M A) : Prop :=
  forall w, Inv (db w) ->
    exists new, log (snd (c w)) = log w ++ new
                /\ Forall Q new /\ Inv (db (snd (c w))).

(** An event that is a request to the model. *)
Definition is_chat (ev : Event) : Prop :=
  match ev with
  | EvChat _ _ => True
  | _ => False
  end.

(** A property of the database that looks at the pages only. *)
Definition on_pages (J : option (list PageRecord) -> Prop) (m : MongoDBManager) : Prop :=
  J (pages_collection m).

(** The skip rule of the batch loop (line 247). *)
Definition should_skip (p : PageRecord) : bool :=
  String.eqb (status p) "structured" && truthy (page_summary p).

(** What the loop decides for a page. *)
Definition decision (p : PageRecord) : Event :=
  if should_skip p then EvSkip p else EvStructure p.

Definition is_decision (ev : Event) : bool :=
  match ev with
  | EvSkip _ | EvStructure _ => true
  | _ => false
  end.

(** The decisions recorded in a log, in order. *)
Fixpoint decisions (l : list Event) : list Event :=
  match l with
  | [] => []
  | ev :: rest => if is_decision ev then ev :: decisions rest else decisions rest
  end.

Definition returns {A} (r : result A) : Prop := exists a, r = Ok a.

(** What one turn of the batch loop appends to the log: the decision on
    the page, and for a page that is not skipped and whose text is not
    blank the request that carries its text. *)
Definition page_events (p : PageRecord) : list Event :=
  if should_skip p then [EvSkip p]
  else EvStructure p
       :: (if is_blank (raw_text p) then []
           else [EvChat StructurePrompt (structure_request (raw_text p) 8000)]).

(** The pages whose text is sent to the model: those not skipped, with a
    text that is not blank. *)
Definition is_sent (p : PageRecord) : bool :=
  negb (should_skip p) && negb (is_blank (raw_text p)).

(** An event of the end of a run, after the loop: the call of the
    metadata build and the summarisation request. *)
Definition is_epilogue (ev : Event) : Prop :=
  match ev with
  | EvMetadata _ _ | EvChat SummaryPrompt _ => True
  | _ => False
  end.

(** Every stored page of document [d0] is one the skip rule skips. *)
Definition all_done (d0 : string) (pc : option (list PageRecord)) : Prop :=
  forall pages p, pc = Some pages -> p ∈ pages -> doc_id p = d0 ->
    should_skip p = true.

Definition done_pages (d0 : string) : MongoDBManager -> Prop :=
  on_pages (all_done d0).

(** The event is a submission of a page of document [d0] to
    [structure_text]. *)
Definition structures_doc (d0 : string) (ev : Event) : Prop :=
  match ev with
  | EvStructure p => doc_id p = d0
  | _ => False
  end.

(** What the run without a credential writes on a page. *)
Definition no_key_page (now : Z) (p : PageRecord) : PageRecord :=
  set_page_fields now (JDict _get_default_structure) (JStr sentinel_summary)
    (JList []) p.

(** A later invocation: any processor, any behaviour of the
    collaborators, any document. *)
Definition Run : Type := AIProcessor * Env * string.

Fixpoint run_all (json_loads : string -> result json) (py_repr : json -> string)
    (runs : list Run) (w : World) : World :=
  match runs with
  | [] => w
  | (self, env, d) :: rest =>
      run_all json_loads py_repr rest
        (snd (process_document json_loads py_repr self env d w))
  end.

(** The pages of [d] whose number is in [nums] rewritten by the run
    without a credential, the others as they were. *)
Definition mark_in (env : Env) (d : string) (nums : list Z) (p : PageRecord)
  : PageRecord :=
  if String.eqb (doc_id p) d && bool_decide (page_num p ∈ nums)
  then no_key_page (utcnow env (page_num p)) p else p.

Definition mark (env : Env) (d : string) (p : PageRecord) : PageRecord :=
  if String.eqb (doc_id p) d then no_key_page (utcnow env (page_num p)) p else p.

(** ** A document of two pages *)

(** A page as ingestion stores it. *)
Definition raw_page (d : string) (n : Z) (text : string) : PageRecord :=
  {| doc_id := d; page_num := n; raw_text := text; status := "raw";
     page_summary := JStr ""; keywords := JList []; structured_data := JDict [];
     updated_at := None |}.

Definition page_one : PageRecord := raw_page "doc-1" 1 "page one: invoice 42".
Definition page_two : PageRecord := raw_page "doc-1" 2 "page two: terms".

(** Two pages just ingested, stored out of order. *)
Definition two_page_world : World :=
  {| db := {| documents_collection :=
                Some [ {| doc_doc_id := "doc-1"; filename := "invoice.pdf";
                          pdf_file_id := None;
                          document_summary := JStr ""; doc_keywords := JList [];
                          doc_status := "raw" |} ];
              pages_collection := Some [page_two; page_one];
              fs := Some [] |};
     log := [] |}.

Definition reply_S1 : string :=
  json_text "{'summary': 'S1', 'keywords': ['a', 'b', 'a'], 'sections': [], 'measurements': [], 'key_fields': {}, 'tables': []}".

(** The model structures page one, is rate-limited on anything else, and
    answers the summarisation request. *)
Definition two_page_env : Env :=
  env_of (fun _ prompt text =>
            match prompt with
            | SummaryPrompt => Returns (Some "Two pages about invoice 42.")
            | StructurePrompt =>
                if str_contains "page one" text
                then Returns (Some reply_S1)
                else Raises RateLimitError
            end).

(** No summary in these runs is anything but a string. *)
Definition no_repr (v : json) : string := "".

(** The arguments of the calls of the document-level metadata build. *)
Fixpoint metadata_calls (l : list Event) : list (list json * list json) :=
  match l with
  | [] => []
  | EvMetadata s k :: rest => (s, k) :: metadata_calls rest
  | _ :: rest => metadata_calls rest
  end.

(** The requests sent with a given prompt. *)
Fixpoint requests (p : Prompt) (l : list Event) : list string :=
  match l with
  | [] => []
  | EvChat q t :: rest =>
      match p, q with
      | StructurePrompt, StructurePrompt | SummaryPrompt, SummaryPrompt =>
          t :: requests p rest
      | _, _ => requests p rest
      end
  | _ :: rest => requests p rest
  end.

Definition after_first_run : World :=
  snd (process_document json_loads_subset no_repr configured_processor
         two_page_env "doc-1" two_page_world).

(** A one-page document whose only structuring call is rate-limited. *)
Definition one_page_world : World :=
  {| db := {| documents_collection :=
                Some [ {| doc_doc_id := "doc-1"; filename := "terms.pdf";
                          pdf_file_id := None;
                          document_summary := JStr ""; doc_keywords := JList [];
                          doc_status := "raw" |} ];
              pages_collection := Some [page_two];
              fs := Some [] |};
     log := [] |}.

(** A reply whose second keyword is a number, and a model that gives it
    for every page. *)
Definition bad_keyword_reply : string :=
  json_text "{'summary': 'S1', 'keywords': ['invoice', 2024], 'sections': [], 'measurements': [], 'key_fields': {}, 'tables': []}".

Definition bad_keyword_env : Env :=
  env_of (fun _ _ _ => Returns (Some bad_keyword_reply)).

(** Page two as an earlier run left it after a failed call: marked
    [structured], without a summary. *)
Definition retry_page : PageRecord :=
  {| doc_id := "doc-1"; page_num := 2; raw_text := "page two: terms";
     status := "structured"; page_summary := JStr ""; keywords := JList [];
     structured_data := JDict (default_tagged "rate_limit_error");
     updated_at := Some 1717000000000 |}.

Definition retry_world : World :=
  {| db := {| documents_collection :=
                Some [ {| doc_doc_id := "doc-1"; filename := "invoice.pdf";
                          pdf_file_id := None;
                          document_summary := JStr ""; doc_keywords := JList [];
                          doc_status := "raw" |} ];
              pages_collection := Some [retry_page; page_one];
              fs := Some [] |};
     log := [] |}.

(** A page of 60 characters and a page of 5. *)
Definition long_page : PageText := GetText (str_take 60 digits100).
Definition short_page : PageText := GetText "Scan.".

(** A page of 60 blanks. *)
Definition blank_page : PageText := GetText (str_repeat " " 60).

(** ** Extraction, requests and runs *)

(** The text stored for a page whose text layer is [text]. *)
Definition page_text (self : PDFProcessor) (tools : Tools) (page_num : Z)
    (text : string) : string :=
  if use_ocrmypdf self then text
  else if py_len text <? 50 then _perform_ocr tools page_num
  else text.

(** Every character of [s] satisfies [f]. *)
Fixpoint str_forall (f : ascii -> bool) (s : string) : bool :=
  match s with
  | EmptyString => true
  | String c r => f c && str_forall f r
  end.



(** What identifies a page and a document, and what a run may not touch:
    the order and identity of all records, and every record of another
    document. *)
Definition page_ident (p : PageRecord) : string * Z * string :=
  (doc_id p, page_num p, raw_text p).

Definition doc_ident (r : DocumentRecord) : string * string :=
  (doc_doc_id r, filename r).

Definition same_frame (d : string) (m0 m : MongoDBManager) : Prop :=
  (map page_ident <$> pages_collection m) = (map page_ident <$> pages_collection m0)
  /\ (filter (fun p => doc_id p <> d) <$> pages_collection m)
     = (filter (fun p => doc_id p <> d) <$> pages_collection m0)
  /\ (map doc_ident <$> documents_collection m)
     = (map doc_ident <$> documents_collection m0)
  /\ (filter (fun r => doc_doc_id r <> d) <$> documents_collection m)
     = (filter (fun r => doc_doc_id r <> d) <$> documents_collection m0)
  /\ fs m = fs m0.

(** An event that records a page being skipped. *)
Definition is_skip (ev : Event) : Prop :=
  match ev with
  | EvSkip _ => True
  | _ => False
  end.

(** ** A scanned upload *)

(** Writes that succeed, for a document that is given the identifier
    [doc-9] and whose file is stored under [file-9]. *)
Definition reliable_writes : WriteEnv :=
  {| uuid4 := "doc-9";
     open_file := fun path =>
       if String.eqb path "upload.pdf" then Some "%PDF-1.7 scan" else None;
     object_id := "file-9"; fs_put_raises := false;
     insert_one := Written; insert_many := Written;
     insert_many_written := 0;
     fs_delete_raises := false;
     delete_many_raises := false; delete_one_raises := false |}.

(** Two extracted pages. *)
Definition scanned_pages : list ExtractedPage :=
  [ {| ex_page_num := 1; ex_raw_text := "first"; text_length := 5 |};
    {| ex_page_num := 2; ex_raw_text := "second"; text_length := 6 |} ].

(** An upload whose first page has no text layer; OCRmyPDF works and
    writes a file with two readable pages. *)
Definition scan_tools : Tools :=
  {| ocrmypdf_version := Completed 0;
     mkstemp := Some "/tmp/ocr.pdf";
     ocrmypdf := Completed 0;
     fitz_open := fun path =>
       if String.eqb path "upload.pdf" then Some [short_page; long_page]
       else if String.eqb path "/tmp/ocr.pdf" then Some [long_page; long_page]
       else None;
     path_exists := fun _ => true;
     remove_raises := fun _ => false;
     image_to_string := fun _ => Some "text read by Tesseract" |}.

Definition ocr_processor : PDFProcessor := {| use_ocrmypdf := true |}.
Definition tesseract_processor : PDFProcessor := {| use_ocrmypdf := false |}.

(** The two ingested pages after a run without a credential. *)
Definition finished_world : World :=
  snd (process_document json_loads_subset no_repr unconfigured_processor
         two_page_env "doc-1" two_page_world).

(** * Verified properties *)

(** ** Strings *)

Lemma length_py_lstrip (s : string) :
  (String.length (py_lstrip s) <= String.length s)%nat.
Proof.
  induction s as [|c r IH]; simpl; [lia|].
  destruct (py_isspace c); simpl; lia.
Qed.

Lemma length_py_rstrip (s : string) :
  (String.length (py_rstrip s) <= String.length s)%nat.
Proof.
  induction s as [|c r IH]; simpl; [lia|].
  destruct (py_rstrip r) as [|c' r'] eqn:E.
  - destruct (py_isspace c); simpl; lia.
  - simpl in *. lia.
Qed.

Lemma py_len_strip (s : string) : py_len (py_strip s) <= py_len s.
Proof.
  unfold py_len, py_strip.
  pose proof (length_py_rstrip (py_lstrip s)).
  pose proof (length_py_lstrip s). lia.
Qed.

(** ** The OCR gate *)

Lemma scan_sample_false (sample : list PageText) :
  scan_sample sample = Ok false <-> Forall readable sample.
Proof.
  induction sample as [|p rest IH]; simpl.
  - split; [constructor | reflexivity].
  - destruct p as [t|]; simpl.
    + destruct (py_len (py_strip t) <? 50) eqn:E.
      * apply Z.ltb_lt in E. split; [discriminate|].
        intros H. inversion H as [|? ? Hr _]; subst. simpl in Hr. lia.
      * apply Z.ltb_ge in E. rewrite IH. split.
        -- intros H. constructor; [exact E | exact H].
        -- intros H. inversion H; subst. assumption.
    + split; [discriminate|].
      intros H. inversion H as [|? ? Hr _]; subst. destruct Hr.
Qed.

Lemma take_sample_size (doc : list PageText) :
  take (Nat.min 3 (length doc)) doc = take 3 doc.
Proof.
  destruct (Nat.le_ge_cases 3 (length doc)) as [H|H].
  - rewrite Nat.min_l by exact H. reflexivity.
  - rewrite Nat.min_r by exact H.
    rewrite firstn_all. symmetry. apply take_ge. exact H.
Qed.

Lemma needs_ocr_false (doc : list PageText) :
  _needs_ocr (Some doc) = false <-> Forall readable (take 3 doc).
Proof.
  unfold _needs_ocr. rewrite take_sample_size.
  rewrite <- scan_sample_false.
  destruct (scan_sample (take 3 doc)) as [b|e].
  - split; intros H; congruence.
  - split; intros H; discriminate.
Qed.

Lemma needs_ocr_not_readable (doc : list PageText) (i : nat) (p : PageText) :
  (i < 3)%nat -> doc !! i = Some p -> ~ readable p -> _needs_ocr (Some doc) = true.
Proof.
  intros Hi Hp Hn.
  destruct (_needs_ocr (Some doc)) eqn:E; [reflexivity|].
  exfalso. apply needs_ocr_false in E.
  rewrite Forall_lookup in E.
  apply Hn, (E i). rewrite lookup_take_lt by exact Hi. exact Hp.
Qed.

(** C9.  [_needs_ocr] looks at the first three pages only; it answers
    [True] as soon as one of them has fewer than 50 characters of text
    (before or after stripping), and also when the file cannot be opened
    or a sampled page cannot be read; it answers [False] exactly when
    every sampled page is read with at least 50 stripped characters.
    [is_text_scannable] is the comparison [length < threshold]. *)
Theorem needs_ocr_gate (doc : list PageText) :
  _needs_ocr None = true
  /\ _needs_ocr (Some doc) = _needs_ocr (Some (take 3 doc))
  /\ (forall i t, (i < 3)%nat -> doc !! i = Some (GetText t) ->
        py_len t < 50 -> _needs_ocr (Some doc) = true)
  /\ (forall i t, (i < 3)%nat -> doc !! i = Some (GetText t) ->
        py_len (py_strip t) < 50 -> _needs_ocr (Some doc) = true)
  /\ (forall i, (i < 3)%nat -> doc !! i = Some GetTextRaises ->
        _needs_ocr (Some doc) = true)
  /\ (_needs_ocr (Some doc) = false <-> Forall readable (take 3 doc))
  /\ (forall len threshold,
        is_text_scannable len threshold = true <-> len < threshold)
  /\ (forall len, is_text_scannable len default_threshold = true <-> len < 50).
Proof.
  split; [reflexivity|].
  split.
  { destruct (_needs_ocr (Some doc)) eqn:E.
    - destruct (_needs_ocr (Some (take 3 doc))) eqn:E'; [reflexivity|].
      apply needs_ocr_false in E'. rewrite take_take in E'.
      rewrite Nat.min_id in E'. apply needs_ocr_false in E'. congruence.
    - symmetry. apply needs_ocr_false. rewrite take_take, Nat.min_id.
      apply needs_ocr_false. exact E. }
  split.
  { intros i t Hi Hp Hlen. eapply needs_ocr_not_readable; eauto.
    simpl. pose proof (py_len_strip t). lia. }
  split.
  { intros i t Hi Hp Hlen. eapply needs_ocr_not_readable; eauto.
    simpl. lia. }
  split.
  { intros i Hi Hp. eapply needs_ocr_not_readable; eauto. }
  split; [apply needs_ocr_false|].
  split; intros; unfold is_text_scannable, default_threshold; apply Z.ltb_lt.
Qed.

(** ** The document summary *)

Lemma summary_fallback_str (s1 : string) (rest : list json) :
  summary_fallback (JStr s1 :: rest)
  = Ok (JStr ("Document with " +:+ str_of_nat (length (JStr s1 :: rest))
              +:+ " pages. " +:+ s1)).
Proof. reflexivity. Qed.

(** C8.  [generate_document_summary] gives the empty string for no
    summary; gives the only summary back, leaving the world (and so the
    request log) as it was; and for two or more summaries whose first is
    a string, when the summarisation call fails, returns
    ["Document with N pages. "] followed by the first summary instead of
    raising. *)
Theorem generate_document_summary_cases
    (py_repr : json -> string) (self : AIProcessor) (env : Env) (w : World) :
  generate_document_summary py_repr self env [] w = (Ok (JStr ""), w)
  /\ (forall only,
        generate_document_summary py_repr self env [only] w = (Ok only, w))
  /\ (forall s1 s2 rest,
        summary_call_fails py_repr self env w (JStr s1 :: s2 :: rest) ->
        fst (generate_document_summary py_repr self env (JStr s1 :: s2 :: rest) w)
        = Ok (JStr ("Document with "
                    +:+ str_of_nat (length (JStr s1 :: s2 :: rest))
                    +:+ " pages. " +:+ s1))).
Proof.
  split; [reflexivity|].
  split; [reflexivity|].
  intros s1 s2 rest Hfail.
  unfold generate_document_summary, try_except.
  destruct (client self) as [c|] eqn:Hc.
  - destruct Hfail as [Hnone | [[e He] | Hret]]; [congruence| |].
    + unfold bind, chat. fold (summary_request py_repr (JStr s1 :: s2 :: rest)).
      rewrite He. reflexivity.
    + unfold bind, chat. fold (summary_request py_repr (JStr s1 :: s2 :: rest)).
      rewrite Hret. reflexivity.
  - reflexivity.
Qed.

(** ** Document keywords *)

Lemma existsb_key_eqb_str (x : string) (seen : list string) :
  existsb (key_eqb (JStr x)) (map JStr seen) = bool_decide (x ∈ seen).
Proof.
  induction seen as [|y seen IH].
  - symmetry. apply bool_decide_eq_false_2. apply not_elem_of_nil.
  - cbn [map existsb key_eqb]. rewrite IH. destruct (String.eqb x y) eqn:E; simpl.
    + apply String.eqb_eq in E. subst y.
      symmetry. apply bool_decide_eq_true_2. apply list_elem_of_here.
    + apply String.eqb_neq in E.
      apply bool_decide_ext. rewrite elem_of_cons. tauto.
Qed.

Lemma dict_fromkeys_strings (l seen : list string) :
  dict_fromkeys (map JStr seen) (map JStr l) = Ok (map JStr (keep_first seen l)).
Proof.
  revert seen. induction l as [|x rest IH]; intros seen; simpl; [reflexivity|].
  rewrite existsb_key_eqb_str.
  destruct (bool_decide (x ∈ seen)); [apply IH|].
  replace (map JStr seen ++ [JStr x]) with (map JStr (seen ++ [x]))
    by (rewrite map_app; reflexivity).
  apply IH.
Qed.

Lemma keep_first_app (l1 l2 seen : list string) :
  keep_first seen (l1 ++ l2) = keep_first (keep_first seen l1) l2.
Proof.
  revert seen. induction l1 as [|x l1 IH]; intros seen; simpl; [reflexivity|].
  apply IH.
Qed.

Lemma keep_first_prefix (l seen : list string) :
  seen `prefix_of` keep_first seen l.
Proof.
  revert seen. induction l as [|x rest IH]; intros seen; simpl; [reflexivity|].
  destruct (bool_decide (x ∈ seen)); [apply IH|].
  transitivity (seen ++ [x]); [apply prefix_app_r; reflexivity | apply IH].
Qed.

Lemma keep_first_NoDup (l seen : list string) :
  NoDup seen -> NoDup (keep_first seen l).
Proof.
  revert seen. induction l as [|x rest IH]; intros seen Hnd; simpl; [exact Hnd|].
  destruct (bool_decide (x ∈ seen)) eqn:E; apply IH; [exact Hnd|].
  apply bool_decide_eq_false in E.
  apply NoDup_app. split; [exact Hnd|]. split.
  - intros y Hy Hin. apply list_elem_of_singleton in Hin. subst y. contradiction.
  - apply NoDup_singleton.
Qed.

Lemma keep_first_elem_of (l seen : list string) (y : string) :
  y ∈ keep_first seen l <-> y ∈ seen \/ y ∈ l.
Proof.
  revert seen. induction l as [|x rest IH]; intros seen; simpl.
  - split; [tauto|]. intros [H|H]; [exact H|]. inversion H.
  - rewrite IH. rewrite elem_of_cons.
    destruct (bool_decide (x ∈ seen)) eqn:E.
    + apply bool_decide_eq_true in E. split; [tauto|].
      intros [H|[H|H]]; subst; tauto.
    + rewrite elem_of_app, list_elem_of_singleton. tauto.
Qed.

(** C6.  For keywords that are strings, the document-level keywords are
    the first 30 of a list [full] that has no duplicate, holds exactly
    the keywords contributed, and keeps them in first-occurrence order:
    what a prefix of the input yields is a prefix of [full], so a keyword
    stands where it was first met.  Pages contributing a, b, a, c give
    a, b, c. *)
Theorem unique_keywords_first_occurrence (ks : list string) :
  exists full : list string,
    dict_fromkeys [] (map JStr ks) = Ok (map JStr full)
    /\ unique_keywords (map JStr ks) = Ok (map JStr (take 30 full))
    /\ NoDup full
    /\ (forall k, k ∈ full <-> k ∈ ks)
    /\ (forall l1 l2, ks = l1 ++ l2 ->
          exists full1, dict_fromkeys [] (map JStr l1) = Ok (map JStr full1)
                        /\ full1 `prefix_of` full)
    /\ unique_keywords (map JStr ["a"; "b"; "a"; "c"])
       = Ok (map JStr ["a"; "b"; "c"]).
Proof.
  exists (keep_first [] ks).
  pose proof (dict_fromkeys_strings ks []) as Hfull. simpl in Hfull.
  split; [exact Hfull|].
  split.
  { unfold unique_keywords. rewrite Hfull. simpl.
    rewrite firstn_map. reflexivity. }
  split; [apply keep_first_NoDup, NoDup_nil_2|].
  split.
  { intros k. rewrite keep_first_elem_of. split; [|tauto].
    intros [H|H]; [inversion H | exact H]. }
  split; [|reflexivity].
  intros l1 l2 ->. exists (keep_first [] l1). split.
  - apply (dict_fromkeys_strings l1 []).
  - rewrite keep_first_app. apply keep_first_prefix.
Qed.

(** ** The double arithmetic of the truncation rule *)

Lemma round53_bounds (m e : Z) :
  0 <= m ->
  0 <= fst (round53 m e)
  /\ e <= snd (round53 m e)
  /\ (2 ^ 52 - 1) * m <= 2 ^ 52 * (fst (round53 m e) * 2 ^ (snd (round53 m e) - e))
  /\ 2 ^ 52 * (fst (round53 m e) * 2 ^ (snd (round53 m e) - e)) <= (2 ^ 52 + 1) * m.
Proof.
  intros Hm. unfold round53.
  set (sh := Z.log2 m + 1 - 53).
  destruct (sh <=? 0) eqn:Hsh; simpl.
  - rewrite Z.sub_diag. simpl. lia.
  - apply Z.leb_gt in Hsh.
    assert (Hpos : 0 < m).
    { destruct (Z.eq_dec m 0) as [->|]; [|lia]. unfold sh in Hsh. simpl in Hsh. lia. }
    pose proof (Z.log2_spec m Hpos) as [Hlo _].
    replace (Z.log2 m) with (sh + 52) in Hlo by (unfold sh; lia).
    rewrite Z.pow_add_r in Hlo by lia.
    set (S := 2 ^ sh) in *.
    assert (HS : 0 < S) by (apply Z.pow_pos_nonneg; lia).
    replace (e + sh - e) with sh by lia. fold S.
    pose proof (Z.div_mod m S ltac:(lia)) as Hdm.
    pose proof (Z.mod_pos_bound m S HS) as Hr.
    set (q := m / S) in *. set (r := m mod S) in *.
    set (A := 2 ^ 52) in *.
    assert (HA : 0 < A) by (unfold A; lia).
    assert (Hq : A <= q).
    { apply Z.div_le_lower_bound; lia. }
    destruct ((2 ^ (sh - 1) <? r) || (r =? 2 ^ (sh - 1)) && Z.odd q); nia.
Qed.

Lemma trunc_scaled (m2 e2 ce : Z) :
  0 <= m2 -> ce <= 0 -> ce <= e2 ->
  (if 0 <=? e2 then m2 * 2 ^ e2 else m2 / 2 ^ (- e2))
  = (m2 * 2 ^ (e2 - ce)) / 2 ^ (- ce).
Proof.
  intros Hm Hce He.
  destruct (0 <=? e2) eqn:E.
  - apply Z.leb_le in E.
    replace (e2 - ce) with (e2 + - ce) by lia.
    rewrite Z.pow_add_r by lia. rewrite Z.mul_assoc.
    rewrite Z.div_mul; [reflexivity|].
    apply Z.pow_nonzero; lia.
  - apply Z.leb_gt in E.
    replace (- ce) with ((e2 - ce) + - e2) by lia.
    rewrite Z.pow_add_r by lia.
    rewrite (Z.mul_comm (2 ^ (e2 - ce))).
    rewrite Z.div_mul_cancel_r; [reflexivity| |]; apply Z.pow_nonzero; lia.
Qed.

Lemma py_int_mul_bounds (n cm ce : Z) :
  0 <= n < 2 ^ 1023 -> 0 <= cm -> ce <= 0 ->
  exists X,
    py_int_mul n (cm, ce) = Ok (X / 2 ^ (- ce))
    /\ 0 <= X
    /\ 2 ^ 104 * X <= (2 ^ 52 + 1) * (2 ^ 52 + 1) * (n * cm)
    /\ (2 ^ 52 - 1) * (2 ^ 52 - 1) * (n * cm) <= 2 ^ 104 * X.
Proof.
  intros Hn Hcm Hce. unfold py_int_mul.
  rewrite Z.abs_eq by lia.
  pose proof (round53_bounds n 0 ltac:(lia)) as (Hm1 & He1 & Hlo1 & Hhi1).
  destruct (round53 n 0) as [m1 e1]. simpl in *.
  rewrite Z.sub_0_r in *.
  set (V1 := m1 * 2 ^ e1) in *.
  assert (HV1 : 0 <= V1) by (apply Z.mul_nonneg_nonneg; [lia | apply Z.pow_nonneg; lia]).
  destruct (2 ^ 1024 <=? V1) eqn:Hov.
  { apply Z.leb_le in Hov. exfalso.
    change (2 ^ 1024) with (2 * 2 ^ 1023) in Hov. lia. }
  pose proof (round53_bounds (m1 * cm) (e1 + ce) ltac:(nia)) as (Hm2 & He2 & Hlo2 & Hhi2).
  destruct (round53 (m1 * cm) (e1 + ce)) as [m2 e2]. simpl in *.
  rewrite (trunc_scaled m2 e2 ce) by lia.
  set (W := m2 * 2 ^ (e2 - (e1 + ce))) in *.
  assert (HW : 0 <= W) by (apply Z.mul_nonneg_nonneg; [lia | apply Z.pow_nonneg; lia]).
  assert (HX : m2 * 2 ^ (e2 - ce) = W * 2 ^ e1).
  { unfold W. replace (e2 - ce) with ((e2 - (e1 + ce)) + e1) by lia.
    rewrite Z.pow_add_r by lia. ring. }
  rewrite HX.
  assert (Hp : 0 <= 2 ^ e1) by (apply Z.pow_nonneg; lia).
  destruct (Z.eq_dec n 0) as [->|Hnz].
  - exists 0. assert (HV0 : V1 = 0) by lia.
    assert (HP0 : m1 * cm * 2 ^ e1 = 0)
      by (replace (m1 * cm * 2 ^ e1) with (V1 * cm) by (unfold V1; ring); nia).
    assert (HW0 : W * 2 ^ e1 = 0) by nia.
    rewrite HW0. simpl. rewrite Z.div_0_l by (apply Z.pow_nonzero; lia). split; [reflexivity|lia].
  - exists (W * 2 ^ e1). rewrite Z.sgn_pos by lia. rewrite Z.mul_1_l.
    split; [reflexivity|]. split; [nia|].
    set (A := 2 ^ 52) in *. 
    change (2 ^ 104) with (A * A).
    assert (HA : 0 < A) by (unfold A; lia).
    set (E := 2 ^ e1) in *.
    assert (HV : V1 * cm = m1 * cm * E) by (unfold V1; ring).
    split.
    + (* A*A*W*E <= (A+1)(A+1) n cm *)
      assert (Hs1 : A * (W * E) <= (A + 1) * (m1 * cm * E)) by nia.
      assert (Hs2 : A * (V1 * cm) <= (A + 1) * (n * cm)) by nia.
      nia.
    + assert (Hs1 : (A - 1) * (m1 * cm * E) <= A * (W * E)) by nia.
      assert (Hs2 : (A - 1) * (n * cm) <= A * (V1 * cm)) by nia.
      nia.
Qed.

Lemma py_int_mul_agrees_with_ieee :
  forallb agrees_with_ieee
    (seqZ (-20) 2021
     ++ [8000; 20000; 2 ^ 53 - 1; 2 ^ 53 + 1; 2 ^ 60 + 12345; - 2 ^ 70 - 3;
         2 ^ 1023; 2 ^ 1024 - 2 ^ 970 - 1; 2 ^ 1024 - 2 ^ 970; - 2 ^ 1024])
  = true.
Proof. vm_compute. reflexivity. Qed.

Lemma py_int_mul_07_bounds (n : Z) :
  0 <= n < 2 ^ 1023 ->
  exists k, py_int_mul n double_07 = Ok k /\ 0 <= k <= n.
Proof.
  intros Hn.
  destruct (py_int_mul_bounds n 6305039478318694 (-53) Hn ltac:(lia) ltac:(lia))
    as (X & HX & HX0 & Hhi & _).
  exists (X / 2 ^ 53). split; [exact HX|]. split.
  - apply Z.div_pos; lia.
  - apply Z.div_le_upper_bound; lia.
Qed.

Lemma py_int_mul_03_bounds (n : Z) :
  4 <= n < 2 ^ 1023 ->
  exists k, py_int_mul n double_03 = Ok k /\ 1 <= k <= n.
Proof.
  intros Hn.
  destruct (py_int_mul_bounds n 5404319552844595 (-54) ltac:(lia) ltac:(lia) ltac:(lia))
    as (X & HX & HX0 & Hhi & Hlo).
  exists (X / 2 ^ 54). split; [exact HX|]. split.
  - apply Z.div_le_lower_bound; lia.
  - apply Z.div_le_upper_bound; lia.
Qed.

Lemma py_int_mul_no_overflow (n : Z) (c : Z * Z) :
  Z.abs n < 2 ^ 1023 -> exists k, py_int_mul n c = Ok k.
Proof.
  intros Hn. unfold py_int_mul.
  pose proof (round53_bounds (Z.abs n) 0 ltac:(lia)) as (Hm1 & He1 & _ & Hhi1).
  destruct (round53 (Z.abs n) 0) as [m1 e1]. simpl in *.
  rewrite Z.sub_0_r in *.
  destruct (2 ^ 1024 <=? m1 * 2 ^ e1) eqn:Hov.
  { apply Z.leb_le in Hov. exfalso.
    change (2 ^ 1024) with (2 * 2 ^ 1023) in Hov. lia. }
  destruct (round53 (m1 * fst c) (e1 + snd c)) as [m2 e2].
  eexists. reflexivity.
Qed.

(** ** Truncation of long pages *)

Lemma length_app (a b : string) :
  String.length (a +:+ b) = (String.length a + String.length b)%nat.
Proof. induction a as [|c a IH]; simpl; [reflexivity | rewrite IH; reflexivity]. Qed.

Lemma py_len_app (a b : string) : py_len (a +:+ b) = py_len a + py_len b.
Proof. unfold py_len. rewrite length_app. lia. Qed.

Lemma length_str_take (n : nat) (s : string) :
  String.length (str_take n s) = Nat.min n (String.length s).
Proof.
  revert s. induction n as [|n IH]; intros [|c r]; simpl; try reflexivity.
  rewrite IH. reflexivity.
Qed.

Lemma length_str_drop (n : nat) (s : string) :
  String.length (str_drop n s) = (String.length s - n)%nat.
Proof.
  revert s. induction n as [|n IH]; intros [|c r]; simpl; try reflexivity.
  apply IH.
Qed.

Lemma str_take_drop (n : nat) (s : string) : str_take n s +:+ str_drop n s = s.
Proof.
  revert s. induction n as [|n IH]; intros [|c r]; simpl; try reflexivity.
  change (String c (str_take n r +:+ str_drop n r) = String c r).
  rewrite IH. reflexivity.
Qed.

Lemma py_len_nonneg (s : string) : 0 <= py_len s.
Proof. unfold py_len. lia. Qed.

Lemma py_slice_to_head (s : string) (k : Z) :
  0 <= k <= py_len s ->
  py_len (py_slice_to s k) = k /\ exists rest, s = py_slice_to s k +:+ rest.
Proof.
  intros Hk. unfold py_slice_to, slice_index.
  destruct (k <? 0) eqn:E; [apply Z.ltb_lt in E; lia|].
  rewrite Z.min_l by lia. split.
  - unfold py_len in *. rewrite length_str_take. lia.
  - exists (str_drop (Z.to_nat k) s). symmetry. apply str_take_drop.
Qed.

Lemma py_slice_from_tail (s : string) (k : Z) :
  1 <= k <= py_len s ->
  py_len (py_slice_from s (- k)) = k /\ exists rest, s = rest +:+ py_slice_from s (- k).
Proof.
  intros Hk. unfold py_slice_from, slice_index.
  destruct (- k <? 0) eqn:E; [|apply Z.ltb_ge in E; lia].
  rewrite Z.max_l by lia. split.
  - unfold py_len in *. rewrite length_str_drop. lia.
  - exists (str_take (Z.to_nat (py_len s + - k)) s). symmetry. apply str_take_drop.
Qed.

Lemma structure_text_request (json_loads : string -> result json)
    (self : AIProcessor) (env : Env) (raw : string) (max_chars : Z)
    (text : string) (w : World) :
  not_configured self = false ->
  is_blank raw = false ->
  text_to_process raw max_chars = Ok text ->
  log (snd (structure_text json_loads self env raw max_chars w))
  = log w ++ [EvChat StructurePrompt ("Text to structure:" +:+ nl +:+ nl +:+ text)].
Proof.
  intros Hc Hb Ht. unfold structure_text. rewrite Hc, Hb, Ht.
  unfold bind at 1. unfold lift.
  unfold try_except. unfold bind at 1. unfold chat.
  destruct (chat_completions_create env (log w) StructurePrompt _) as [[content|]|e].
  - destruct (json_loads _) as [data|e]; [|destruct e; reflexivity].
    unfold bind, lift. destruct (_validate_structure data) as [[|]|e].
    + destruct (py_setitem data _ _); reflexivity.
    + destruct (py_keys data); [|reflexivity]. destruct data; reflexivity.
    + reflexivity.
  - reflexivity.
  - reflexivity.
Qed.

(** C7, amended.  For a page longer than [max_chars], with [max_chars]
    at least 4 (and within the range of a double), the text sent is a
    head, the elision marker and a tail, in that order: the head is the
    first [k1] characters of the page and the tail its last [k2]
    characters, where [k1 = int(max_chars * 0.7)] and
    [k2 = int(max_chars * 0.3)] are the double products truncated, both
    at most [max_chars], 5600 and 2400 for 8000.  The request of
    [structure_text] carries exactly that text. *)
Theorem truncation_head_marker_tail (raw : string) (max_chars : Z) :
  4 <= max_chars < 2 ^ 1023 ->
  py_len raw > max_chars ->
  exists k1 k2 head tail,
    py_int_mul max_chars double_07 = Ok k1
    /\ py_int_mul max_chars double_03 = Ok k2
    /\ 0 <= k1 <= max_chars /\ 1 <= k2 <= max_chars
    /\ text_to_process raw max_chars = Ok (head +:+ truncation_marker +:+ tail)
    /\ py_len head = k1 /\ (exists rest, raw = head +:+ rest)
    /\ py_len tail = k2 /\ (exists rest, raw = rest +:+ tail)
    /\ py_len (head +:+ truncation_marker +:+ tail)
       = k1 + k2 + py_len truncation_marker
    /\ (max_chars = 8000 -> k1 = 5600 /\ k2 = 2400)
    /\ (forall json_loads self env w,
          not_configured self = false -> is_blank raw = false ->
          log (snd (structure_text json_loads self env raw max_chars w))
          = log w ++ [EvChat StructurePrompt
                        ("Text to structure:" +:+ nl +:+ nl
                         +:+ head +:+ truncation_marker +:+ tail)]).
Proof.
  intros Hmc Hlen.
  destruct (py_int_mul_07_bounds max_chars ltac:(lia)) as (k1 & Hk1 & Hb1).
  destruct (py_int_mul_03_bounds max_chars Hmc) as (k2 & Hk2 & Hb2).
  destruct (py_slice_to_head raw k1 ltac:(lia)) as (Hl1 & Hp1).
  destruct (py_slice_from_tail raw k2 ltac:(lia)) as (Hl2 & Hp2).
  assert (Ht : text_to_process raw max_chars
               = Ok (py_slice_to raw k1 +:+ truncation_marker +:+ py_slice_from raw (- k2))).
  { unfold text_to_process.
    destruct (py_len raw >? max_chars) eqn:E;
      [|rewrite Z.gtb_ltb in E; apply Z.ltb_ge in E; lia].
    rewrite Hk1, Hk2. reflexivity. }
  exists k1, k2, (py_slice_to raw k1), (py_slice_from raw (- k2)).
  repeat split; try assumption; try lia.
  - rewrite !py_len_app. lia.
  - subst max_chars. vm_compute in Hk1. congruence.
  - subst max_chars. vm_compute in Hk2. congruence.
  - intros json_loads self env w Hc Hb.
    apply structure_text_request; assumption.
Qed.

(** C7 as stated fails for [max_chars = 90]: [int(90 * 0.7)] is 62, so
    the head has 62 characters and not 63. *)
Lemma truncation_counterexample :
  py_len digits100 > 90
  /\ text_to_process digits100 90 <> Ok (claimed_text digits100 90)
  /\ sent_length (text_to_process digits100 90) = 62 + 27 + py_len truncation_marker
  /\ py_len (claimed_text digits100 90) = 63 + 27 + py_len truncation_marker.
Proof.
  split; [reflexivity|]. split.
  - intros H. apply (f_equal sent_length) in H. vm_compute in H. discriminate.
  - split; vm_compute; reflexivity.
Qed.

(** The amended C7 at a page of 20000 characters and the default 8000. *)
Lemma truncation_witness :
  exists head tail,
    text_to_process text20000 8000 = Ok (head +:+ truncation_marker +:+ tail)
    /\ py_len head = 5600 /\ (exists rest, text20000 = head +:+ rest)
    /\ py_len tail = 2400 /\ (exists rest, text20000 = rest +:+ tail)
    /\ py_len (head +:+ truncation_marker +:+ tail)
       = 5600 + 2400 + py_len truncation_marker.
Proof.
  assert (Hmc : 4 <= 8000 < 2 ^ 1023) by (split; [lia | reflexivity]).
  assert (Hlen : py_len text20000 > 8000) by (vm_compute; reflexivity).
  destruct (truncation_head_marker_tail text20000 8000 Hmc Hlen)
    as (k1 & k2 & head & tail & _ & _ & _ & _ & Ht & Hl1 & Hp1 & Hl2 & Hp2
        & Hl & H8000 & _).
  destruct (H8000 eq_refl) as [-> ->].
  exists head, tail. repeat split; assumption.
Defined.

(** Below 4 the rule degenerates: [int(3 * 0.3)] is 0 and [raw[-0:]] is
    the whole page, so the page is sent again in full after the marker. *)
Example truncation_max_chars_3 :
  text_to_process "abcdefghij" 3
  = Ok ("ab" +:+ truncation_marker +:+ "abcdefghij").
Proof. vm_compute. reflexivity. Qed.

(** ** The structuring call *)

Lemma all_in_dict (keys : list string) (d : pydict) :
  all_in keys (JDict d) = Ok (forallb (fun k => dict_mem k d) keys).
Proof.
  induction keys as [|k rest IH]; simpl; [reflexivity|].
  destruct (dict_mem k d); simpl; [exact IH | reflexivity].
Qed.

Lemma all_in_list (keys : list string) (l : list json) :
  exists b, all_in keys (JList l) = Ok b.
Proof.
  induction keys as [|k rest IH]; simpl; [eexists; reflexivity|].
  destruct (list_has_str k l); simpl; [exact IH | eexists; reflexivity].
Qed.

Lemma all_in_str (keys : list string) (s : string) :
  exists b, all_in keys (JStr s) = Ok b.
Proof.
  induction keys as [|k rest IH]; simpl; [eexists; reflexivity|].
  destruct (str_contains k s); simpl; [exact IH | eexists; reflexivity].
Qed.

Lemma structure_text_handler_tag (e : PyExc) :
  structure_text_handler e = default_tagged (failure_tag e).
Proof. destruct e; reflexivity. Qed.

(** After validation: what the rest of the [try] block returns. *)
Lemma structure_text_configured (json_loads : string -> result json)
    (self : AIProcessor) (env : Env) (raw : string) (max_chars : Z) (w : World) :
  not_configured self = false ->
  is_blank raw = false ->
  (exists text, text_to_process raw max_chars = Ok text) ->
  structure_text json_loads self env raw max_chars w
  = (Ok (structure_outcome json_loads
           (chat_completions_create env (log w) StructurePrompt
              (structure_request raw max_chars))),
     {| db := db w;
        log := log w ++ [EvChat StructurePrompt (structure_request raw max_chars)] |}).
Proof.
  intros Hc Hb [text Ht]. unfold structure_text, structure_request.
  rewrite Hc, Hb, Ht.
  unfold bind at 1. unfold lift.
  unfold try_except. unfold bind at 1. unfold chat.
  destruct (chat_completions_create env (log w) StructurePrompt _) as [[content|]|e];
    simpl; [| reflexivity | rewrite structure_text_handler_tag; reflexivity].
  destruct (json_loads (clean_content content)) as [data|e];
    [|destruct e; reflexivity].
  unfold bind, lift, _validate_structure.
  destruct data as [ | b | z | f | s | l | d ]; try reflexivity.
  - destruct (all_in_str required_keys s) as [b ->]. destruct b; reflexivity.
  - destruct (all_in_list required_keys l) as [b ->]. destruct b; reflexivity.
  - rewrite all_in_dict. simpl.
    match goal with |- context [if ?c then _ else _] => destruct c end; reflexivity.
Qed.

Lemma text_to_process_ok (raw : string) (max_chars : Z) :
  Z.abs max_chars < 2 ^ 1023 -> exists text, text_to_process raw max_chars = Ok text.
Proof.
  intros Hmc. unfold text_to_process.
  destruct (py_len raw >? max_chars); [|eexists; reflexivity].
  destruct (py_int_mul_no_overflow max_chars double_07 Hmc) as [k1 ->].
  destruct (py_int_mul_no_overflow max_chars double_03 Hmc) as [k2 ->].
  eexists. reflexivity.
Qed.

Lemma structure_text_returns (json_loads : string -> result json)
    (self : AIProcessor) (env : Env) (raw : string) (max_chars : Z) (w : World) :
  Z.abs max_chars < 2 ^ 1023 ->
  fst (structure_text json_loads self env raw max_chars w)
  = Ok (structure_result json_loads self env raw max_chars w).
Proof.
  intros Hmc. unfold structure_result.
  destruct (not_configured self) eqn:Hc.
  { unfold structure_text. rewrite Hc. reflexivity. }
  destruct (is_blank raw) eqn:Hb.
  { unfold structure_text. rewrite Hc, Hb. reflexivity. }
  rewrite structure_text_configured by (auto using text_to_process_ok).
  reflexivity.
Qed.

Lemma dict_lookup_set (k k' : string) (v : json) (d : pydict) :
  dict_lookup k (dict_set k' v d)
  = if String.eqb k k' then Some v else dict_lookup k d.
Proof.
  induction d as [|[k0 v0] rest IH]; simpl.
  - rewrite (String.eqb_sym k k'). reflexivity.
  - destruct (String.eqb k' k0) eqn:E1; simpl.
    + apply String.eqb_eq in E1. subst k0.
      destruct (String.eqb k k'); reflexivity.
    + destruct (String.eqb k k0) eqn:E2.
      * apply String.eqb_eq in E2. subst k0.
        rewrite (String.eqb_sym k k'), E1. reflexivity.
      * exact IH.
Qed.

Lemma dict_mem_set (k k' : string) (v : json) (d : pydict) :
  dict_mem k (dict_set k' v d) = String.eqb k k' || dict_mem k d.
Proof.
  unfold dict_mem. rewrite dict_lookup_set.
  destruct (String.eqb k k'); reflexivity.
Qed.

Lemma dict_mem_update_l (k : string) (other d : pydict) :
  dict_mem k d = true -> dict_mem k (dict_update d other) = true.
Proof.
  unfold dict_update. revert d.
  induction other as [|[k0 v0] rest IH]; intros d Hd; simpl; [exact Hd|].
  apply IH. rewrite dict_mem_set, Hd. apply orb_true_r.
Qed.

Lemma dict_lookup_update_absent (k : string) (other d : pydict) :
  dict_mem k other = false ->
  dict_lookup k (dict_update d other) = dict_lookup k d.
Proof.
  unfold dict_update. revert d.
  induction other as [|[k0 v0] rest IH]; intros d Hk; simpl; [reflexivity|].
  unfold dict_mem in Hk. simpl in Hk.
  destruct (String.eqb k k0) eqn:E; [discriminate|].
  rewrite IH.
  - rewrite dict_lookup_set. simpl. rewrite E. reflexivity.
  - unfold dict_mem. exact Hk.
Qed.

Lemma has_required_keys_set (k : string) (v : json) (d : pydict) :
  has_required_keys d = true -> has_required_keys (dict_set k v d) = true.
Proof.
  unfold has_required_keys. rewrite !forallb_forall.
  intros H x Hx. rewrite dict_mem_set, (H x Hx). apply orb_true_r.
Qed.

Lemma default_tagged_schema (tag : string) :
  has_required_keys (default_tagged tag) = true
  /\ dict_mem "processing_status" (default_tagged tag) = true
  /\ container_types_ok (default_tagged tag) = true
  /\ tag_of (default_tagged tag) = JStr tag.
Proof. repeat split; reflexivity. Qed.

(** C2, amended.  For every [max_chars] in the range of a double,
    whatever the external call and [json.loads] do, [structure_text]
    returns a structure and raises nothing: an authentication failure
    gives the default structure tagged [auth_error], a rate limit
    [rate_limit_error], any other API error [api_error], any other
    exception (a reply without text included) [unknown_error], a reply
    that does not parse [json_error], a reply on which [json.loads]
    raises anything else the tag of that exception ([unknown_error] for
    a [RecursionError]), and a reply that parses to something that is
    not a dict [unknown_error]. *)
Theorem structure_text_never_raises (json_loads : string -> result json)
    (self : AIProcessor) (env : Env) (raw : string) (max_chars : Z) (w : World) :
  Z.abs max_chars < 2 ^ 1023 ->
  exists d,
    fst (structure_text json_loads self env raw max_chars w) = Ok d
    /\ (not_configured self = true -> d = default_tagged "no_api_key")
    /\ (not_configured self = false -> is_blank raw = true ->
          d = default_tagged "empty_text")
    /\ (not_configured self = false -> is_blank raw = false ->
          let o := chat_completions_create env (log w) StructurePrompt
                     (structure_request raw max_chars) in
          (o = Raises AuthenticationError -> d = default_tagged "auth_error")
          /\ (o = Raises RateLimitError -> d = default_tagged "rate_limit_error")
          /\ (forall e, o = Raises e -> is_APIError e = true ->
                e <> AuthenticationError -> e <> RateLimitError ->
                d = default_tagged "api_error")
          /\ (forall e, o = Raises e -> is_APIError e = false ->
                d = default_tagged "unknown_error")
          /\ (o = Returns None -> d = default_tagged "unknown_error")
          /\ (forall c, o = Returns (Some c) ->
                json_loads (clean_content c) = Raise JSONDecodeError ->
                d = default_tagged "json_error")
          /\ (forall c e, o = Returns (Some c) ->
                json_loads (clean_content c) = Raise e ->
                e <> JSONDecodeError ->
                d = default_tagged (failure_tag e)
                /\ (is_APIError e = false -> d = default_tagged "unknown_error"))
          /\ (forall c data, o = Returns (Some c) ->
                json_loads (clean_content c) = Ok data ->
                is_dict data = false ->
                d = default_tagged "unknown_error")).
Proof.
  intros Hmc.
  exists (structure_result json_loads self env raw max_chars w).
  split; [apply structure_text_returns; exact Hmc|].
  unfold structure_result.
  split; [intros ->; reflexivity|].
  split; [intros -> ->; reflexivity|].
  intros -> ->. cbv zeta.
  split; [intros ->; reflexivity|].
  split; [intros ->; reflexivity|].
  split.
  { intros e -> Hapi Hna Hnr.
    destruct e; try discriminate; try congruence; reflexivity. }
  split.
  { intros e -> Hapi. destruct e; try discriminate; reflexivity. }
  split; [intros ->; reflexivity|].
  split.
  { intros c -> Hj. simpl. rewrite Hj. reflexivity. }
  split.
  { intros c e -> Hj Hne. simpl. rewrite Hj.
    split; [destruct e; try reflexivity; congruence|].
    intros Hapi. destruct e; try discriminate; try reflexivity. congruence. }
  intros c data -> Hj Hd. simpl. rewrite Hj.
  destruct data; try reflexivity. discriminate.
Qed.

(** The amended C2 on a rate-limited call. *)
Lemma structure_text_never_raises_witness :
  fst (structure_text json_loads_subset configured_processor rate_limited_env
         "Invoice 42" 8000 empty_world)
  = Ok (default_tagged "rate_limit_error").
Proof.
  assert (Hmc : Z.abs 8000 < 2 ^ 1023) by reflexivity.
  destruct (structure_text_never_raises json_loads_subset configured_processor
              rate_limited_env "Invoice 42" 8000 empty_world Hmc)
    as (d & Hd & _ & _ & Hrun).
  destruct (Hrun eq_refl eq_refl) as (_ & Hrate & _).
  rewrite Hd. f_equal. apply Hrate. reflexivity.
Defined.

(** C2 as stated fails outside the range of a double: the products of
    the truncation rule are computed before the [try] block, and for
    [max_chars = -(2^1024)] the conversion of [max_chars] to a double
    raises [OverflowError], which reaches the caller. *)
Lemma structure_text_never_raises_counterexample :
  py_len "Invoice 42" > - 2 ^ 1024
  /\ fst (structure_text json_loads_subset configured_processor rate_limited_env
            "Invoice 42" (- 2 ^ 1024) empty_world)
     = Raise OverflowError
  /\ log (snd (structure_text json_loads_subset configured_processor
                 rate_limited_env "Invoice 42" (- 2 ^ 1024) empty_world)) = [].
Proof. repeat split; vm_compute; reflexivity. Qed.

(** C1, amended.  For every text, every [max_chars] in the range of a
    double and every outcome of the external call and of [json.loads],
    [structure_text] returns a dict that has the six required keys
    and [processing_status].  It is either the default structure with a
    tag, whose six values have the right container types, or the parsed
    reply passed through, whose own values are kept as they came.  And a
    reply that parses to a JSON object is passed through: tagged
    [success] when it has the six keys and otherwise laid over the
    default structure and tagged [partial_success]; every other outcome
    gives a tagged default. *)
Theorem structure_text_schema (json_loads : string -> result json)
    (self : AIProcessor) (env : Env) (raw : string) (max_chars : Z) (w : World) :
  Z.abs max_chars < 2 ^ 1023 ->
  let o := chat_completions_create env (log w) StructurePrompt
             (structure_request raw max_chars) in
  exists d,
    fst (structure_text json_loads self env raw max_chars w) = Ok d
    /\ has_required_keys d = true
    /\ dict_mem "processing_status" d = true
    /\ ((exists tag, d = default_tagged tag /\ container_types_ok d = true)
        \/ reply_passed_through json_loads o d)
    /\ (forall c data,
          not_configured self = false -> is_blank raw = false ->
          o = Returns (Some c) ->
          json_loads (clean_content c) = Ok (JDict data) ->
          reply_passed_through json_loads o d
          /\ (has_required_keys data = true ->
              d = dict_set "processing_status" (JStr "success") data
              /\ tag_of d = JStr "success")
          /\ (has_required_keys data = false ->
              d = dict_set "processing_status" (JStr "partial_success")
                    (dict_update _get_default_structure data)
              /\ tag_of d = JStr "partial_success"))
    /\ (not_configured self = true \/ is_blank raw = true
        \/ (forall c data, o = Returns (Some c) ->
              json_loads (clean_content c) <> Ok (JDict data)) ->
        exists tag, d = default_tagged tag /\ container_types_ok d = true).
Proof.
  intros Hmc o.
  exists (structure_result json_loads self env raw max_chars w).
  split; [apply structure_text_returns; exact Hmc|].
  assert (Hdefault : forall tag,
             has_required_keys (default_tagged tag) = true
             /\ dict_mem "processing_status" (default_tagged tag) = true
             /\ ((exists tag', default_tagged tag = default_tagged tag'
                               /\ container_types_ok (default_tagged tag) = true)
                 \/ reply_passed_through json_loads o (default_tagged tag))).
  { intros tag. destruct (default_tagged_schema tag) as (H1 & H2 & H3 & _).
    split; [exact H1|]. split; [exact H2|].
    left. exists tag. split; [reflexivity | exact H3]. }
  assert (Htag : forall tag,
             exists tag', default_tagged tag = default_tagged tag'
                          /\ container_types_ok (default_tagged tag) = true).
  { intros tag. exists tag. split; reflexivity. }
  assert (Hset : forall v (data : pydict),
             tag_of (dict_set "processing_status" v data) = v).
  { intros v data. unfold tag_of, dict_get. rewrite dict_lookup_set. reflexivity. }
  unfold structure_result. fold o.
  destruct (not_configured self).
  { destruct (Hdefault "no_api_key") as (H1 & H2 & H3).
    repeat (split; [assumption|]). split; [discriminate|]. intros _. apply Htag. }
  destruct (is_blank raw).
  { destruct (Hdefault "empty_text") as (H1 & H2 & H3).
    repeat (split; [assumption|]). split; [discriminate|]. intros _. apply Htag. }
  unfold structure_outcome.
  assert (Hother : forall tag,
             (forall c data, o = Returns (Some c) ->
                json_loads (clean_content c) = Ok (JDict data) -> False) ->
             has_required_keys (default_tagged tag) = true
             /\ dict_mem "processing_status" (default_tagged tag) = true
             /\ ((exists tag', default_tagged tag = default_tagged tag'
                               /\ container_types_ok (default_tagged tag) = true)
                 \/ reply_passed_through json_loads o (default_tagged tag))
             /\ (forall c data,
                   false = false -> false = false ->
                   o = Returns (Some c) ->
                   json_loads (clean_content c) = Ok (JDict data) ->
                   reply_passed_through json_loads o (default_tagged tag)
                   /\ (has_required_keys data = true ->
                       default_tagged tag
                       = dict_set "processing_status" (JStr "success") data
                       /\ tag_of (default_tagged tag) = JStr "success")
                   /\ (has_required_keys data = false ->
                       default_tagged tag
                       = dict_set "processing_status" (JStr "partial_success")
                           (dict_update _get_default_structure data)
                       /\ tag_of (default_tagged tag) = JStr "partial_success"))
             /\ (false = true \/ false = true
                 \/ (forall c data, o = Returns (Some c) ->
                       json_loads (clean_content c) <> Ok (JDict data)) ->
                 exists tag', default_tagged tag = default_tagged tag'
                              /\ container_types_ok (default_tagged tag) = true)).
  { intros tag Hno. destruct (Hdefault tag) as (H1 & H2 & H3).
    repeat (split; [assumption|]). split.
    - intros c data _ _ Ho Hj. exfalso. exact (Hno c data Ho Hj).
    - intros _. apply Htag. }
  destruct o as [[c|]|e] eqn:Ho;
    [| apply Hother; intros; discriminate | apply Hother; intros; discriminate].
  destruct (json_loads (clean_content c)) as [data|e] eqn:Hj.
  2:{ assert (Hno : forall c0 data, Returns (Some c) = Returns (Some c0) ->
                      json_loads (clean_content c0) = Ok (JDict data) -> False).
      { intros c0 data [= <-] Hj0. congruence. }
      destruct e; apply Hother; exact Hno. }
  destruct data as [ | b | z | f | s | l | data ];
    try (apply Hother; intros c0 data0 [= <-] Hj0; congruence).
  change (forallb (fun k => dict_mem k data) required_keys)
    with (has_required_keys data).
  destruct (has_required_keys data) eqn:Hk.
  - assert (Hpass : reply_passed_through json_loads (Returns (Some c))
                      (dict_set "processing_status" (JStr "success") data)).
    { exists c, data. split; [reflexivity|]. split; [exact Hj|].
      left. split; [exact Hk | reflexivity]. }
    split; [apply has_required_keys_set; exact Hk|].
    split; [rewrite dict_mem_set; reflexivity|].
    split; [right; exact Hpass|].
    split.
    + intros c0 data0 _ _ [= <-] Hj0. rewrite Hj in Hj0. injection Hj0 as <-.
      split; [exact Hpass|]. split.
      * intros _. split; [reflexivity | apply Hset].
      * rewrite Hk. discriminate.
    + intros [H | [H | H]]; try discriminate.
      exfalso. exact (H c data eq_refl Hj).
  - assert (Hpass : reply_passed_through json_loads (Returns (Some c))
                      (dict_set "processing_status" (JStr "partial_success")
                         (dict_update _get_default_structure data))).
    { exists c, data. split; [reflexivity|]. split; [exact Hj|].
      right. split; [exact Hk|]. split; [reflexivity|].
      intros k Hmem Hne. rewrite dict_lookup_set.
      destruct (String.eqb k "processing_status") eqn:E.
      + apply String.eqb_eq in E. contradiction.
      + apply dict_lookup_update_absent. exact Hmem. }
    split.
    { apply has_required_keys_set. unfold has_required_keys.
      apply forallb_forall. intros k Hin. apply dict_mem_update_l.
      repeat (destruct Hin as [<-|Hin]; [reflexivity|]). destruct Hin. }
    split; [rewrite dict_mem_set; reflexivity|].
    split; [right; exact Hpass|].
    split.
    + intros c0 data0 _ _ [= <-] Hj0. rewrite Hj in Hj0. injection Hj0 as <-.
      split; [exact Hpass|]. split.
      * rewrite Hk. discriminate.
      * intros _. split; [reflexivity | apply Hset].
    + intros [H | [H | H]]; try discriminate.
      exfalso. exact (H c data eq_refl Hj).
Qed.

(** The amended C1 on a reply that has the six keys: it comes back
    tagged [success]. *)
Lemma structure_text_schema_witness :
  exists d,
    fst (structure_text json_loads_subset configured_processor ill_typed_env
           "Invoice 42" 8000 empty_world) = Ok d
    /\ has_required_keys d = true
    /\ dict_mem "processing_status" d = true
    /\ tag_of d = JStr "success".
Proof.
  assert (Hmc : Z.abs 8000 < 2 ^ 1023) by reflexivity.
  destruct (structure_text_schema json_loads_subset configured_processor
              ill_typed_env "Invoice 42" 8000 empty_world Hmc)
    as (d & Hd & Hk & Hp & _ & Hpass & _).
  exists d. repeat split; try assumption.
  destruct (json_loads_subset (clean_content ill_typed_reply)) as [[ | | | | | |data]|]
    eqn:Hj; try (vm_compute in Hj; discriminate).
  destruct (Hpass ill_typed_reply data eq_refl eq_refl eq_refl Hj) as (_ & Hs & _).
  apply Hs. vm_compute in Hj. injection Hj as <-. reflexivity.
Defined.

(** C1 as stated fails: a reply whose [keywords] is a string and whose
    [key_fields] is a list has the six keys, so it is returned tagged
    [success] with those values, seven keys in all. *)
Lemma structure_text_schema_counterexample :
  exists d,
    fst (structure_text json_loads_subset configured_processor ill_typed_env
           "Invoice 42" 8000 empty_world) = Ok d
    /\ tag_of d = JStr "success"
    /\ container_types_ok d = false
    /\ is_list (dict_get "keywords" JNull d) = false
    /\ is_dict (dict_get "key_fields" JNull d) = false
    /\ length d = 7%nat.
Proof.
  eexists. split; [vm_compute; reflexivity|].
  repeat split.
Qed.

(** ** The document aggregate *)

#[global] Instance page_le_total : Total page_le.
Proof. intros p q. unfold page_le. lia. Qed.

#[global] Instance page_le_trans : Transitive page_le.
Proof. intros p q r. unfold page_le. lia. Qed.

Ltac by_field f :=
  unfold f;
  match goal with
  | |- context [dict_get ?k ?d ?s] => destruct (dict_get k d s)
  end; reflexivity.

Lemma collect_sections_fields (u : UnifiedDoc) (s : pydict) :
  all_measurements (collect_sections u s) = all_measurements u
  /\ all_key_fields (collect_sections u s) = all_key_fields u
  /\ all_tables (collect_sections u s) = all_tables u
  /\ u_pages (collect_sections u s) = u_pages u.
Proof. repeat split; by_field collect_sections. Qed.

Lemma collect_measurements_fields (u : UnifiedDoc) (s : pydict) :
  all_sections (collect_measurements u s) = all_sections u
  /\ all_key_fields (collect_measurements u s) = all_key_fields u
  /\ all_tables (collect_measurements u s) = all_tables u
  /\ u_pages (collect_measurements u s) = u_pages u.
Proof. repeat split; by_field collect_measurements. Qed.

Lemma merge_key_fields_fields (u : UnifiedDoc) (s : pydict) :
  all_sections (merge_key_fields u s) = all_sections u
  /\ all_measurements (merge_key_fields u s) = all_measurements u
  /\ all_tables (merge_key_fields u s) = all_tables u
  /\ u_pages (merge_key_fields u s) = u_pages u.
Proof. repeat split; by_field merge_key_fields. Qed.

Lemma collect_tables_fields (u : UnifiedDoc) (s : pydict) :
  all_sections (collect_tables u s) = all_sections u
  /\ all_measurements (collect_tables u s) = all_measurements u
  /\ all_key_fields (collect_tables u s) = all_key_fields u
  /\ u_pages (collect_tables u s) = u_pages u.
Proof. repeat split; by_field collect_tables. Qed.

(** One turn of the loop, field by field. *)
Lemma merge_page_fields (u : UnifiedDoc) (p : PageRecord) :
  all_sections (merge_page u p) = all_sections u ++ page_list "sections" p
  /\ all_measurements (merge_page u p)
     = all_measurements u ++ page_list "measurements" p
  /\ all_key_fields (merge_page u p)
     = dict_update (all_key_fields u) (page_key_fields p)
  /\ all_tables (merge_page u p) = all_tables u ++ page_list "tables" p
  /\ u_pages (merge_page u p) = u_pages u.
Proof.
  unfold merge_page, page_list, page_key_fields.
  destruct (structured_data p) as [ | b | z | f | str | l | [|kv s] ];
    cbn [is_dict negb]; rewrite ?orb_true_r;
    try (rewrite !app_nil_r; repeat split; reflexivity).
  cbn [truthy is_dict negb orb].
  set (d := kv :: s).
  destruct (collect_tables_fields
              (merge_key_fields (collect_measurements (collect_sections u d) d) d) d)
    as (T1 & T2 & T3 & T4).
  destruct (merge_key_fields_fields (collect_measurements (collect_sections u d) d) d)
    as (K1 & K2 & K3 & K4).
  destruct (collect_measurements_fields (collect_sections u d) d) as (M1 & M2 & M3 & M4).
  destruct (collect_sections_fields u d) as (S1 & S2 & S3 & S4).
  repeat split.
  - rewrite T1, K1, M1. unfold collect_sections.
    destruct (dict_get "sections" (JList []) d); simpl; rewrite ?app_nil_r; reflexivity.
  - rewrite T2, K2. unfold collect_measurements.
    destruct (dict_get "measurements" (JList []) d); simpl;
      rewrite ?app_nil_r; try exact S1. rewrite S1. reflexivity.
  - rewrite T3. unfold merge_key_fields.
    destruct (dict_get "key_fields" (JDict []) d); simpl;
      try (rewrite M2, S2; reflexivity).
  - unfold collect_tables.
    destruct (dict_get "tables" (JList []) d); simpl;
      rewrite ?app_nil_r; try (rewrite K3, M3, S3; reflexivity).
  - rewrite T4, K4, M4, S4. reflexivity.
Qed.

Lemma fold_merge_page_fields (pages : list PageRecord) (u : UnifiedDoc) :
  all_sections (fold_left merge_page pages u)
  = all_sections u ++ concat (map (page_list "sections") pages)
  /\ all_measurements (fold_left merge_page pages u)
     = all_measurements u ++ concat (map (page_list "measurements") pages)
  /\ all_key_fields (fold_left merge_page pages u)
     = fold_left (fun acc p => dict_update acc (page_key_fields p)) pages
         (all_key_fields u)
  /\ all_tables (fold_left merge_page pages u)
     = all_tables u ++ concat (map (page_list "tables") pages)
  /\ u_pages (fold_left merge_page pages u) = u_pages u.
Proof.
  revert u. induction pages as [|p rest IH]; intros u; simpl.
  - rewrite !app_nil_r. repeat split; reflexivity.
  - destruct (IH (merge_page u p)) as (I1 & I2 & I3 & I4 & I5).
    destruct (merge_page_fields u p) as (P1 & P2 & P3 & P4 & P5).
    rewrite I1, I2, I3, I4, I5, P1, P2, P3, P4, P5.
    rewrite <- !app_assoc. repeat split; reflexivity.
Qed.

Lemma dict_lookup_update (k : string) (other d : pydict) :
  NoDup (map fst other) ->
  dict_lookup k (dict_update d other)
  = match dict_lookup k other with
    | Some v => Some v
    | None => dict_lookup k d
    end.
Proof.
  unfold dict_update. revert d.
  induction other as [|[k0 v0] rest IH]; intros d Hnd; simpl; [reflexivity|].
  simpl in Hnd. apply NoDup_cons in Hnd as [Hk0 Hnd].
  rewrite (IH _ Hnd). rewrite dict_lookup_set.
  destruct (String.eqb k k0) eqn:E; [|reflexivity].
  apply String.eqb_eq in E. subst k0.
  destruct (dict_lookup k rest) as [v|] eqn:El; [|reflexivity].
  exfalso. apply Hk0. clear -El.
  induction rest as [|[k1 v1] rest IH]; simpl in *; [discriminate|].
  destruct (String.eqb k k1) eqn:E.
  - apply String.eqb_eq in E. subst k1. apply list_elem_of_here.
  - apply list_elem_of_further, IH, El.
Qed.

Lemma fold_key_fields_absent (k : string) (pages : list PageRecord) (acc : pydict) :
  (forall q, q ∈ pages -> dict_mem k (page_key_fields q) = false) ->
  dict_lookup k (fold_left (fun acc p => dict_update acc (page_key_fields p)) pages acc)
  = dict_lookup k acc.
Proof.
  revert acc. induction pages as [|p rest IH]; intros acc Habs; simpl; [reflexivity|].
  rewrite IH.
  - apply dict_lookup_update_absent, Habs, list_elem_of_here.
  - intros q Hq. apply Habs, list_elem_of_further, Hq.
Qed.

Lemma fold_key_fields_last (k : string) (v : json)
    (before after : list PageRecord) (p : PageRecord) (acc : pydict) :
  NoDup (map fst (page_key_fields p)) ->
  dict_lookup k (page_key_fields p) = Some v ->
  (forall q, q ∈ after -> dict_mem k (page_key_fields q) = false) ->
  dict_lookup k
    (fold_left (fun acc p => dict_update acc (page_key_fields p))
       (before ++ p :: after) acc)
  = Some v.
Proof.
  intros Hnd Hv Habs. rewrite fold_left_app. simpl.
  rewrite fold_key_fields_absent by exact Habs.
  rewrite dict_lookup_update by exact Hnd. rewrite Hv. reflexivity.
Qed.

Lemma page_list_of_record (k : string) (p : PageRecord) (s : pydict) (l : list json) :
  structured_data p = JDict s -> dict_lookup k s = Some (JList l) ->
  page_list k p = l.
Proof.
  intros Hs Hl. unfold page_list. rewrite Hs.
  destruct s as [|kv s]; [discriminate|].
  unfold dict_get. rewrite Hl. reflexivity.
Qed.

Lemma page_key_fields_of_record (p : PageRecord) (s kf : pydict) :
  structured_data p = JDict s -> dict_lookup "key_fields" s = Some (JDict kf) ->
  page_key_fields p = kf.
Proof.
  intros Hs Hl. unfold page_key_fields. rewrite Hs.
  destruct s as [|kv s]; [discriminate|].
  unfold dict_get. rewrite Hl. reflexivity.
Qed.

Lemma not_record_contributes_nothing (k : string) (p : PageRecord) :
  is_record p = false -> page_list k p = [] /\ page_key_fields p = [].
Proof.
  unfold is_record, page_list, page_key_fields.
  destruct (structured_data p) as [ | b | z | f | str | l | [|kv s] ];
    try (split; reflexivity).
  discriminate.
Qed.

(** C5.  When the document is known and the reads succeed,
    [create_document_structure] walks the document's pages in ascending
    [page_num] order.  The aggregate lists are the concatenation, in that
    order and without removing duplicates, of the sections, measurements
    and tables of every page whose [structured_data] is a non-empty dict
    holding a list there; [all_key_fields] holds for each key the value
    of the last page that has it, so page 7 wins over page 3.  A page
    whose [structured_data] is empty or not a dict contributes nothing,
    and nothing is raised. *)
Theorem create_document_structure_aggregates (env : Env) (m : MongoDBManager)
    (d : string) (docs : list DocumentRecord) (all : list PageRecord)
    (doc : DocumentRecord) :
  documents_collection m = Some docs ->
  pages_collection m = Some all ->
  find_raises env = false ->
  find_one_document docs d = Some doc ->
  exists u,
    create_document_structure env m d = Some u
    /\ u_pages u = find_pages all d
    /\ StronglySorted page_le (u_pages u)
    /\ u_pages u ≡ₚ filter (fun p => doc_id p = d) all
    /\ all_sections u = concat (map (page_list "sections") (u_pages u))
    /\ all_measurements u = concat (map (page_list "measurements") (u_pages u))
    /\ all_tables u = concat (map (page_list "tables") (u_pages u))
    /\ (forall k v before p after,
          u_pages u = before ++ p :: after ->
          NoDup (map fst (page_key_fields p)) ->
          dict_lookup k (page_key_fields p) = Some v ->
          (forall q, q ∈ after -> dict_mem k (page_key_fields q) = false) ->
          dict_lookup k (all_key_fields u) = Some v)
    /\ (forall p k, is_record p = false ->
          page_list k p = [] /\ page_key_fields p = [])
    /\ (forall p s k l, structured_data p = JDict s ->
          dict_lookup k s = Some (JList l) -> page_list k p = l)
    /\ (forall p s kf, structured_data p = JDict s ->
          dict_lookup "key_fields" s = Some (JDict kf) -> page_key_fields p = kf).
Proof.
  intros Hdocs Hall Hfind Hdoc.
  unfold create_document_structure, get_document_details.
  rewrite Hdocs, Hall, Hfind, Hdoc.
  set (pages := find_pages all d).
  set (u0 := {| u_doc_id := d; u_filename := filename doc;
                total_pages := Z.of_nat (length pages);
                all_sections := []; all_measurements := [];
                all_key_fields := []; all_tables := [];
                u_pages := pages;
                u_document_summary := document_summary doc;
                document_keywords := doc_keywords doc |}).
  destruct (fold_merge_page_fields pages u0) as (F1 & F2 & F3 & F4 & F5).
  exists (fold_left merge_page pages u0).
  split; [reflexivity|].
  rewrite F5. simpl.
  split; [reflexivity|].
  split; [apply StronglySorted_merge_sort; apply _|].
  split; [apply merge_sort_Permutation|].
  split; [rewrite F1; reflexivity|].
  split; [rewrite F2; reflexivity|].
  split; [rewrite F4; reflexivity|].
  split.
  { intros k v before p after Hp Hnd Hv Habs. rewrite F3. simpl.
    fold pages in Hp. rewrite Hp. apply fold_key_fields_last; assumption. }
  split; [intros p k; apply not_record_contributes_nothing|].
  split; [intros p s k l; apply page_list_of_record|].
  intros p s kf; apply page_key_fields_of_record.
Qed.

(** C5 on a document whose pages 3 and 7 both carry [invoice_date]. *)
Lemma create_document_structure_witness :
  exists u,
    create_document_structure reliable_env invoice_db "doc-1" = Some u
    /\ map page_num (u_pages u) = [3; 5; 7]
    /\ all_sections u = [JStr "s3"; JStr "s7"; JStr "s3"]
    /\ dict_lookup "invoice_date" (all_key_fields u) = Some (JStr "2024-02-01")
    /\ dict_lookup "number" (all_key_fields u) = Some (JInt 42).
Proof.
  destruct (create_document_structure_aggregates reliable_env invoice_db "doc-1"
              _ _ _ eq_refl eq_refl eq_refl eq_refl)
    as (u & Hu & Hpages & _ & _ & Hsec & _ & _ & Hkf & _).
  exists u. split; [exact Hu|].
  assert (Hp : u_pages u = [invoice_page_3; invoice_page_5; invoice_page_7])
    by (rewrite Hpages; vm_compute; reflexivity).
  split; [rewrite Hp; reflexivity|].
  split; [rewrite Hsec, Hp; reflexivity|].
  split.
  - apply (Hkf "invoice_date" (JStr "2024-02-01")
             [invoice_page_3; invoice_page_5] invoice_page_7 []).
    + exact Hp.
    + apply NoDup_singleton.
    + reflexivity.
    + intros q Hq. inversion Hq.
  - apply (Hkf "number" (JInt 42) [] invoice_page_3 [invoice_page_5; invoice_page_7]).
    + exact Hp.
    + vm_compute. apply NoDup_cons. split.
      * intros H. apply list_elem_of_singleton in H. discriminate.
      * apply NoDup_singleton.
    + reflexivity.
    + intros q Hq. apply elem_of_cons in Hq as [->|Hq]; [reflexivity|].
      apply list_elem_of_singleton in Hq. subst q. reflexivity.
Defined.

(** ** The batch loop *)

Section Effects.

Variable Q : Event -> Prop.
Variable Inv : MongoDBManager -> Prop.

Lemma effect_ret {A} (a : A) : effect Q Inv (ret a).
Proof. intros w Hw. exists []. rewrite app_nil_r. auto. Qed.

Lemma effect_raise {A} (e : PyExc) : effect Q Inv (@raise A e).
Proof. intros w Hw. exists []. rewrite app_nil_r. auto. Qed.

Lemma effect_lift {A} (r : result A) : effect Q Inv (lift r).
Proof. intros w Hw. exists []. rewrite app_nil_r. auto. Qed.

Lemma effect_emit (ev : Event) : Q ev -> effect Q Inv (emit ev).
Proof. intros Hev w Hw. exists [ev]. simpl. auto. Qed.

Lemma effect_chat (env : Env) (p : Prompt) (t : string) :
  Q (EvChat p t) -> effect Q Inv (chat env p t).
Proof.
  intros Hev w Hw. exists [EvChat p t]. unfold chat.
  destruct (chat_completions_create env (log w) p t); simpl; auto.
Qed.

Lemma effect_put_db (m : MongoDBManager) : Inv m -> effect Q Inv (put_db m).
Proof. intros Hm w Hw. exists []. simpl. rewrite app_nil_r. auto. Qed.

Lemma effect_bind {A B} (c : M A) (k : A -> M B) :
  effect Q Inv c -> (forall a, effect Q Inv (k a)) -> effect Q Inv (bind c k).
Proof.
  intros Hc Hk w Hw. unfold bind.
  destruct (Hc w Hw) as (n1 & Hl1 & Hq1 & Hi1).
  destruct (c w) as [[a|e] w1]; simpl in *.
  - destruct (Hk a w1 Hi1) as (n2 & Hl2 & Hq2 & Hi2).
    exists (n1 ++ n2). rewrite Hl2, Hl1, app_assoc.
    split; [reflexivity|]. split; [apply Forall_app; auto | exact Hi2].
  - exists n1. auto.
Qed.

Lemma effect_try_except {A} (body : M A) (handler : PyExc -> M A) :
  effect Q Inv body -> (forall e, effect Q Inv (handler e)) ->
  effect Q Inv (try_except body handler).
Proof.
  intros Hb Hh w Hw. unfold try_except.
  destruct (Hb w Hw) as (n1 & Hl1 & Hq1 & Hi1).
  destruct (body w) as [[a|e] w1]; simpl in *.
  - exists n1. auto.
  - destruct (Hh e w1 Hi1) as (n2 & Hl2 & Hq2 & Hi2).
    exists (n1 ++ n2). rewrite Hl2, Hl1, app_assoc.
    split; [reflexivity|]. split; [apply Forall_app; auto | exact Hi2].
Qed.

Lemma effect_get_db {A} (k : MongoDBManager -> M A) :
  (forall m, Inv m -> effect Q Inv (k m)) -> effect Q Inv (bind get_db k).
Proof. intros Hk w Hw. unfold bind, get_db. apply (Hk (db w) Hw w Hw). Qed.

Lemma effect_for_each {A S} (body : S -> A -> M S) (l : list A) (s : S) :
  (forall s x, x ∈ l -> effect Q Inv (body s x)) ->
  effect Q Inv (for_each body l s).
Proof.
  revert s. induction l as [|x rest IH]; intros s Hb; simpl.
  - apply effect_ret.
  - apply effect_bind.
    + apply Hb, list_elem_of_here.
    + intros s'. apply IH. intros s0 y Hy. apply Hb, list_elem_of_further, Hy.
Qed.

End Effects.

Create HintDb effects.
#[global] Hint Resolve effect_ret effect_raise effect_lift : effects.

Lemma effect_weaken {A} (Q Q' : Event -> Prop) (Inv : MongoDBManager -> Prop)
    (c : M A) :
  (forall ev, Q ev -> Q' ev) -> effect Q Inv c -> effect Q' Inv c.
Proof.
  intros HQ Hc w Hw. destruct (Hc w Hw) as (n & Hl & Hq & Hi).
  exists n. split; [exact Hl|]. split; [|exact Hi].
  eapply Forall_impl; eauto.
Qed.

Lemma structure_text_effect (json_loads : string -> result json)
    (self : AIProcessor) (env : Env) (raw : string)
    (Inv : MongoDBManager -> Prop) :
  effect is_chat Inv (structure_text json_loads self env raw 8000).
Proof.
  intros w Hw.
  destruct (not_configured self) eqn:Hc.
  { unfold structure_text. rewrite Hc. exists []. rewrite app_nil_r. simpl. auto. }
  destruct (is_blank raw) eqn:Hb.
  { unfold structure_text. rewrite Hc, Hb. exists []. rewrite app_nil_r. simpl. auto. }
  rewrite structure_text_configured;
    [| exact Hc | exact Hb | apply text_to_process_ok; reflexivity].
  eexists. simpl. split; [reflexivity|]. split; [|exact Hw].
  repeat constructor.
Qed.

Lemma generate_document_summary_effect (py_repr : json -> string)
    (self : AIProcessor) (env : Env) (l : list json)
    (Inv : MongoDBManager -> Prop) :
  effect is_chat Inv (generate_document_summary py_repr self env l).
Proof.
  unfold generate_document_summary.
  destruct l as [|s1 [|s2 rest]]; auto with effects.
  apply effect_try_except; auto with effects.
  destruct (client self); auto with effects.
  apply effect_bind; [apply effect_chat; exact I|].
  intros [c|]; auto with effects.
Qed.

Lemma update_document_metadata_effect (py_repr : json -> string)
    (self : AIProcessor) (env : Env) (d : string) (sums kws : list json)
    (J : option (list PageRecord) -> Prop) :
  effect is_chat (on_pages J)
    (_update_document_metadata py_repr self env d sums kws).
Proof.
  unfold _update_document_metadata.
  apply effect_try_except; [|intros e; apply effect_ret].
  apply effect_bind; [apply generate_document_summary_effect|]. intros doc_summary.
  apply effect_bind; [apply effect_lift|]. intros unique.
  apply effect_get_db. intros m Hm.
  destruct (documents_collection m) as [docs|]; [|apply effect_ret].
  apply effect_bind; [apply effect_lift|]. intros _.
  destruct (documents_update_one_raises env); [apply effect_raise|].
  destruct (update_one _ _ docs) as [docs'|]; [|apply effect_ret].
  apply effect_put_db. exact Hm.
Qed.

Lemma decisions_app (l1 l2 : list Event) :
  decisions (l1 ++ l2) = decisions l1 ++ decisions l2.
Proof.
  induction l1 as [|ev l1 IH]; simpl; [reflexivity|].
  destruct (is_decision ev); simpl; rewrite IH; reflexivity.
Qed.

Lemma update_page_effect (Q : Event -> Prop) (Inv : MongoDBManager -> Prop)
    (env : Env) (d : string) (n : Z) (sd ps kw : json) :
  (forall m, Inv m -> Inv (fst (update_page_data env m d n sd ps kw))) ->
  effect Q Inv (update_page env d n sd ps kw).
Proof.
  intros Hupd. unfold update_page.
  apply effect_get_db. intros m Hm.
  specialize (Hupd m Hm).
  destruct (update_page_data env m d n sd ps kw) as [m' success]. simpl in Hupd.
  apply effect_bind; [apply effect_put_db; exact Hupd|].
  intros _. apply effect_ret.
Qed.

Lemma bind_get_db {A} (k : MongoDBManager -> M A) (w : World) :
  bind get_db k w = k (db w) w.
Proof. reflexivity. Qed.

Lemma bind_emit {A} (ev : Event) (k : M A) (w : World) :
  bind (emit ev) (fun _ => k) w = k {| db := db w; log := log w ++ [ev] |}.
Proof. reflexivity. Qed.

(** One turn of the batch loop: the decision on the page comes first,
    then only requests to the model. *)
Lemma process_page_effect (json_loads : string -> result json)
    (self : AIProcessor) (env : Env) (d : string)
    (Inv : MongoDBManager -> Prop) (st : LoopState) (p : PageRecord) (w : World) :
  (should_skip p = true
   \/ forall m sd ps kw, Inv m ->
        Inv (fst (update_page_data env m d (page_num p) sd ps kw))) ->
  Inv (db w) ->
  exists rest,
    log (snd (process_page json_loads self env d st p w))
    = log w ++ decision p :: rest
    /\ Forall is_chat rest
    /\ Inv (db (snd (process_page json_loads self env d st p w))).
Proof.
  intros Hp Hw. unfold process_page, decision. fold (should_skip p).
  destruct (should_skip p) eqn:Hs.
  - rewrite bind_emit.
    set (w1 := {| db := db w; log := log w ++ [EvSkip p] |}).
    match goal with |- context [snd (?c w1)] =>
      assert (He : effect is_chat Inv c) end.
    { apply effect_bind; [|intros kws; apply effect_ret].
      destruct (truthy (keywords p)); auto with effects. }
    destruct (He w1 Hw) as (n & Hl & Hq & Hi).
    exists n. rewrite Hl. simpl. rewrite <- app_assoc. auto.
  - destruct Hp as [Hp|Hp]; [discriminate|].
    rewrite bind_emit.
    set (w1 := {| db := db w; log := log w ++ [EvStructure p] |}).
    match goal with |- context [snd (?c w1)] =>
      assert (He : effect is_chat Inv c) end.
    { apply effect_bind; [apply structure_text_effect|]. intros structured.
      apply effect_bind.
      { destruct (truthy _); auto with effects. }
      intros _. apply effect_bind.
      { destruct (truthy _); auto with effects. }
      intros _. apply effect_bind.
      { apply update_page_effect. intros m Hm. apply Hp, Hm. }
      intros success. destruct success; simpl.
      - apply effect_bind; [apply effect_lift|]. intros kws. apply effect_ret.
      - apply effect_ret. }
    destruct (He w1 Hw) as (n & Hl & Hq & Hi).
    exists n. rewrite Hl. simpl. rewrite <- app_assoc. auto.
Qed.

(** [truthy] on a summary that is a string. *)
Lemma truthy_str (s : string) : truthy (JStr s) = true <-> s <> "".
Proof.
  simpl. rewrite negb_true_iff. apply String.eqb_neq.
Qed.

Lemma should_skip_spec (p : PageRecord) :
  should_skip p = true
  <-> status p = "structured" /\ truthy (page_summary p) = true.
Proof.
  unfold should_skip. rewrite andb_true_iff, String.eqb_eq. reflexivity.
Qed.

Lemma elem_of_decisions (ev : Event) (l : list Event) :
  ev ∈ l -> is_decision ev = true -> ev ∈ decisions l.
Proof.
  induction l as [|x l IH]; intros Hin Hd; [inversion Hin|].
  apply elem_of_cons in Hin as [->|Hin]; simpl.
  - rewrite Hd. apply list_elem_of_here.
  - destruct (is_decision x); [apply list_elem_of_further|]; apply IH; assumption.
Qed.

Lemma decisions_elem_of (ev : Event) (l : list Event) :
  ev ∈ decisions l -> ev ∈ l.
Proof.
  induction l as [|x l IH]; simpl; intros Hin; [exact Hin|].
  destruct (is_decision x).
  - apply elem_of_cons in Hin as [->|Hin];
      [apply list_elem_of_here | apply list_elem_of_further, IH, Hin].
  - apply list_elem_of_further, IH, Hin.
Qed.

Lemma structure_decision_not_skipped (p q : PageRecord) :
  EvStructure p = decision q -> p = q /\ should_skip p = false.
Proof.
  unfold decision. destruct (should_skip q) eqn:E; intros H; [discriminate|].
  injection H as ->. auto.
Qed.

Lemma skip_decision_skipped (p q : PageRecord) :
  EvSkip p = decision q -> p = q /\ should_skip p = true.
Proof.
  unfold decision. destruct (should_skip q) eqn:E; intros H; [|discriminate].
  injection H as ->. auto.
Qed.

(** A computation that appends nothing to the log. *)
Lemma quiet_log {A} (c : M A) (w : World) :
  effect (fun _ => False) (fun _ => True) c -> log (snd (c w)) = log w.
Proof.
  intros Hc. destruct (Hc w I) as (new & Hl & Hq & _).
  destruct new as [|ev new]; [rewrite Hl; apply app_nil_r|].
  inversion Hq as [|? ? Hev _]. contradiction.
Qed.

(** One turn of the batch loop: the decision on the page is recorded,
    and for a page that is not skipped [structure_text] is called on its
    text, so that the request with that text follows unless the text is
    blank; nothing else is appended, whether the turn returns or raises. *)
Lemma process_page_log (json_loads : string -> result json)
    (self : AIProcessor) (env : Env) (d : string) (st : LoopState)
    (p : PageRecord) (w : World) :
  not_configured self = false ->
  log (snd (process_page json_loads self env d st p w)) = log w ++ page_events p.
Proof.
  intros Hc. unfold process_page, page_events. fold (should_skip p).
  destruct (should_skip p) eqn:Hs.
  - rewrite bind_emit.
    rewrite quiet_log; [reflexivity|].
    apply effect_bind; [|intros kws; apply effect_ret].
    destruct (truthy (keywords p)); auto with effects.
  - rewrite bind_emit.
    set (w1 := {| db := db w; log := log w ++ [EvStructure p] |}).
    assert (Hst : exists sd,
               structure_text json_loads self env (raw_text p) 8000 w1
               = (Ok sd,
                  {| db := db w;
                     log := log w
                            ++ EvStructure p
                               :: (if is_blank (raw_text p) then []
                                   else [EvChat StructurePrompt
                                           (structure_request (raw_text p) 8000)]) |})).
    { destruct (is_blank (raw_text p)) eqn:Hb.
      - exists (default_tagged "empty_text"). unfold structure_text.
        rewrite Hc, Hb. reflexivity.
      - eexists. rewrite structure_text_configured;
          [| exact Hc | exact Hb | apply text_to_process_ok; reflexivity].
        unfold w1. cbn [db log]. rewrite <- app_assoc. reflexivity. }
    destruct Hst as [sd Hst]. unfold bind at 1. rewrite Hst.
    rewrite quiet_log; [reflexivity|].
    apply effect_bind.
    { destruct (truthy _); auto with effects. }
    intros _. apply effect_bind.
    { destruct (truthy _); auto with effects. }
    intros _. apply effect_bind.
    { apply update_page_effect. auto. }
    intros success. destruct success; simpl.
    + apply effect_bind; [apply effect_lift|]. intros kws. apply effect_ret.
    + apply effect_ret.
Qed.

(** The loop: the pages are taken in order, up to the first that raises. *)
Lemma batch_loop_log (json_loads : string -> result json)
    (self : AIProcessor) (env : Env) (d : string) (pages : list PageRecord) :
  not_configured self = false ->
  forall (st : LoopState) (w : World),
    exists decided,
      decided `prefix_of` pages
      /\ (returns (fst (for_each (process_page json_loads self env d) pages st w)) ->
          decided = pages)
      /\ ((exists e, fst (for_each (process_page json_loads self env d) pages st w)
                     = Raise e) ->
          exists before p after st0 w0 e,
            pages = before ++ p :: after /\ decided = before ++ [p]
            /\ fst (process_page json_loads self env d st0 p w0) = Raise e)
      /\ log (snd (for_each (process_page json_loads self env d) pages st w))
         = log w ++ concat (map page_events decided).
Proof.
  intros Hc. induction pages as [|p rest IH]; intros st w.
  - exists []. cbn. rewrite app_nil_r.
    split; [reflexivity|]. split; [auto|]. split; [|reflexivity].
    intros [e He]. discriminate.
  - cbn [for_each]. unfold bind.
    pose proof (process_page_log json_loads self env d st p w Hc) as Hp.
    destruct (process_page json_loads self env d st p w) as [[st1|e] w1] eqn:Hrun;
      cbn [snd] in Hp.
    + destruct (IH st1 w1) as (decided & Hpre & Hret & Hraise & Hl).
      exists (p :: decided). split; [apply prefix_cons, Hpre|].
      split; [intros Hr; rewrite (Hret Hr); reflexivity|].
      split.
      * intros He. destruct (Hraise He) as (b & q & a & st0 & w0 & e & -> & -> & Hq).
        exists (p :: b), q, a, st0, w0, e. auto.
      * rewrite Hl, Hp. cbn [map concat]. rewrite <- app_assoc. reflexivity.
    + exists [p]. split; [apply prefix_cons, prefix_nil|].
      split; [intros [a Ha]; discriminate|].
      split.
      * intros _. exists [], p, rest, st, w, e. rewrite Hrun. auto.
      * cbn [fst snd map concat]. rewrite Hp, app_nil_r. reflexivity.
Qed.

Lemma generate_document_summary_epilogue (py_repr : json -> string)
    (self : AIProcessor) (env : Env) (l : list json)
    (Inv : MongoDBManager -> Prop) :
  effect is_epilogue Inv (generate_document_summary py_repr self env l).
Proof.
  unfold generate_document_summary.
  destruct l as [|s1 [|s2 rest]]; auto with effects.
  apply effect_try_except; auto with effects.
  destruct (client self); auto with effects.
  apply effect_bind; [apply effect_chat; exact I|].
  intros [c|]; auto with effects.
Qed.

Lemma update_document_metadata_epilogue (py_repr : json -> string)
    (self : AIProcessor) (env : Env) (d : string) (sums kws : list json) :
  effect is_epilogue (fun _ => True)
    (_update_document_metadata py_repr self env d sums kws).
Proof.
  unfold _update_document_metadata.
  apply effect_try_except; [|intros e; apply effect_ret].
  apply effect_bind; [apply generate_document_summary_epilogue|]. intros doc_summary.
  apply effect_bind; [apply effect_lift|]. intros unique.
  apply effect_get_db. intros m Hm.
  destruct (documents_collection m) as [docs|]; [|apply effect_ret].
  apply effect_bind; [apply effect_lift|]. intros _.
  destruct (documents_update_one_raises env); [apply effect_raise|].
  destruct (update_one _ _ docs) as [docs'|]; [|apply effect_ret].
  apply effect_put_db. exact I.
Qed.

Lemma update_document_metadata_returns (py_repr : json -> string)
    (self : AIProcessor) (env : Env) (d : string) (sums kws : list json)
    (w : World) :
  exists w', _update_document_metadata py_repr self env d sums kws w = (Ok tt, w').
Proof.
  unfold _update_document_metadata, try_except.
  match goal with |- context [match ?b with _ => _ end] =>
    destruct b as [[[]|e] w1] end; eauto.
Qed.

Lemma epilogue_quiet (l : list Event) :
  Forall is_epilogue l -> decisions l = [] /\ requests StructurePrompt l = [].
Proof.
  induction 1 as [|ev l Hev _ [IH1 IH2]]; [auto|].
  destruct ev as [[|] t| | |]; cbn in *; try contradiction; auto.
Qed.

Lemma decisions_page_events (l : list PageRecord) :
  decisions (concat (map page_events l)) = map decision l.
Proof.
  induction l as [|p l IH]; [reflexivity|].
  cbn [map concat]. rewrite decisions_app, IH. f_equal.
  unfold page_events, decision.
  destruct (should_skip p); [reflexivity|].
  destruct (is_blank (raw_text p)); reflexivity.
Qed.

Lemma requests_app (p : Prompt) (l1 l2 : list Event) :
  requests p (l1 ++ l2) = requests p l1 ++ requests p l2.
Proof.
  induction l1 as [|ev l1 IH]; [reflexivity|].
  destruct ev as [q t| | |]; cbn [app requests]; try exact IH.
  destruct p, q; cbn; rewrite IH; reflexivity.
Qed.

Lemma requests_page_events (l : list PageRecord) :
  requests StructurePrompt (concat (map page_events l))
  = map (fun p => structure_request (raw_text p) 8000) (List.filter is_sent l).
Proof.
  induction l as [|p l IH]; [reflexivity|].
  cbn [map concat List.filter]. rewrite requests_app, IH.
  unfold page_events, is_sent.
  destruct (should_skip p); [reflexivity|].
  destruct (is_blank (raw_text p)); reflexivity.
Qed.

(** The log of a batch run: the turns of the loop over the pages taken,
    then the end of the run. *)
Lemma process_document_log (json_loads : string -> result json)
    (py_repr : json -> string) (self : AIProcessor) (env : Env) (d : string)
    (w : World) :
  not_configured self = false ->
  exists decided tail,
    decided `prefix_of` get_raw_text env (db w) d
    /\ (returns (fst (process_document json_loads py_repr self env d w)) ->
        decided = get_raw_text env (db w) d)
    /\ ((exists e, fst (process_document json_loads py_repr self env d w) = Raise e) ->
        tail = []
        /\ exists before p after st0 w0 e,
             get_raw_text env (db w) d = before ++ p :: after
             /\ decided = before ++ [p]
             /\ fst (process_page json_loads self env d st0 p w0) = Raise e)
    /\ log (snd (process_document json_loads py_repr self env d w))
       = log w ++ concat (map page_events decided) ++ tail
    /\ Forall is_epilogue tail.
Proof.
  intros Hc.
  remember (process_document json_loads py_repr self env d w) as run eqn:Hrun.
  unfold process_document in Hrun. rewrite Hc, bind_get_db in Hrun.
  destruct (get_raw_text env (db w) d) as [|p0 rest].
  { subst run. exists [], []. cbn. rewrite app_nil_r.
    split; [reflexivity|]. split; [auto|]. split; [|auto].
    intros [e He]. discriminate. }
  cbv match in Hrun. set (pages := p0 :: rest) in *.
  destruct (batch_loop_log json_loads self env d pages Hc
              {| all_summaries := []; all_keywords := [];
                 processed_count := 0; failed_count := 0 |} w)
    as (decided & Hpre & Hret & Hraise & Hl).
  unfold bind at 1 in Hrun.
  destruct (for_each (process_page json_loads self env d) pages _ w)
    as [[st|e] w1]; cbn [fst snd] in *.
  - rewrite (Hret (ex_intro _ st eq_refl)) in *.
    match type of Hrun with _ = bind ?c ?k w1 =>
      assert (He : effect is_epilogue (fun _ => True) (bind c k)) end.
    { apply effect_bind; [|intros _; apply effect_ret].
      destruct (all_summaries st); [apply effect_ret|].
      apply effect_bind; [apply effect_emit; exact I|]. intros _.
      apply update_document_metadata_epilogue. }
    destruct (He w1 I) as (tail & Htl & Hq & _). rewrite <- Hrun in Htl.
    exists pages, tail. split; [reflexivity|]. split; [auto|].
    split.
    + intros [e0 He0]. exfalso. revert He0. rewrite Hrun. clear.
      destruct (all_summaries st) as [|s0 sums].
      * discriminate.
      * cbv [bind emit].
        match goal with
        | |- context [_update_document_metadata ?a ?b ?c ?d ?e ?f ?w0] =>
            destruct (update_document_metadata_returns a b c d e f w0) as [w2 E];
            rewrite E
        end.
        discriminate.
    + split; [|exact Hq]. rewrite Htl, Hl, <- app_assoc. reflexivity.
  - subst run. exists decided, []. rewrite app_nil_r.
    split; [exact Hpre|]. split; [intros [a Ha]; discriminate|].
    split; [|auto]. intros _. split; [reflexivity|]. apply Hraise. eauto.
Qed.

(** C4, amended.  In a batch run (a credential is configured) the pages
    are taken in page order, up to the end, or up to the first page on
    which the loop raises: a run that returns has taken every page, and
    a run that raises has stopped at a page and taken none after it.  A
    page taken is skipped if its status is [structured] and its summary
    is non-empty, and otherwise [structure_text] is called on its text:
    the log of the run is the decision on each page taken, followed for
    a page that is not skipped by the request that carries its text
    (unless the text is blank, for which [structure_text] sends
    nothing), and then the end of the run.  So the requests sent are
    exactly those of the pages taken that are not skipped; a page taken
    is skipped if and only if it is [structured] with a non-empty
    summary; a [structured] page with an empty summary is submitted
    again whenever the run reaches it, and a [structured] page with a
    summary never. *)
Theorem process_document_skip_rule (json_loads : string -> result json)
    (py_repr : json -> string) (self : AIProcessor) (env : Env) (d : string)
    (w : World) :
  not_configured self = false ->
  let pages := get_raw_text env (db w) d in
  let r := process_document json_loads py_repr self env d w in
  exists decided tail new,
    log (snd r) = log w ++ new
    /\ new = concat (map page_events decided) ++ tail
    /\ Forall is_epilogue tail
    /\ decided `prefix_of` pages
    /\ (returns (fst r) -> decided = pages)
    /\ ((exists e, fst r = Raise e) ->
        exists before p after st0 w0 e,
          pages = before ++ p :: after /\ decided = before ++ [p]
          /\ fst (process_page json_loads self env d st0 p w0) = Raise e)
    /\ decisions new = map decision decided
    /\ requests StructurePrompt new
       = map (fun p => structure_request (raw_text p) 8000)
           (List.filter is_sent decided)
    /\ (forall p, EvSkip p ∈ new <->
          p ∈ decided /\ status p = "structured" /\ truthy (page_summary p) = true)
    /\ (forall p, EvStructure p ∈ new <->
          p ∈ decided
          /\ ~ (status p = "structured" /\ truthy (page_summary p) = true))
    /\ (forall p, p ∈ decided -> is_blank (raw_text p) = false ->
          ~ (status p = "structured" /\ truthy (page_summary p) = true) ->
          EvChat StructurePrompt (structure_request (raw_text p) 8000) ∈ new)
    /\ (forall s, truthy (JStr s) = true <-> s <> "").
Proof.
  intros Hc pages r. subst pages r.
  destruct (process_document_log json_loads py_repr self env d w Hc)
    as (decided & tail & Hpre & Hret & Hraise & Hl & Htail).
  destruct (epilogue_quiet tail Htail) as [Hd0 Hr0].
  exists decided, tail, (concat (map page_events decided) ++ tail).
  assert (Hdec : decisions (concat (map page_events decided) ++ tail)
                 = map decision decided).
  { rewrite decisions_app, decisions_page_events, Hd0. apply app_nil_r. }
  split; [exact Hl|]. split; [reflexivity|]. split; [exact Htail|].
  split; [exact Hpre|]. split; [exact Hret|].
  split; [intros He; apply (Hraise He)|].
  split; [exact Hdec|].
  split.
  { rewrite requests_app, requests_page_events, Hr0. apply app_nil_r. }
  split.
  { intros p. split.
    - intros Hin. apply elem_of_decisions in Hin; [|reflexivity].
      rewrite Hdec in Hin. apply list_elem_of_fmap in Hin as (q & Hq & Hqin).
      apply skip_decision_skipped in Hq as [-> Hs].
      split; [exact Hqin|]. apply should_skip_spec, Hs.
    - intros (Hin & Hcond). apply should_skip_spec in Hcond.
      apply decisions_elem_of. rewrite Hdec. apply list_elem_of_fmap.
      exists p. split; [|exact Hin]. unfold decision. rewrite Hcond. reflexivity. }
  split.
  { intros p. split.
    - intros Hin. apply elem_of_decisions in Hin; [|reflexivity].
      rewrite Hdec in Hin. apply list_elem_of_fmap in Hin as (q & Hq & Hqin).
      apply structure_decision_not_skipped in Hq as [-> Hs].
      split; [exact Hqin|]. intros Hcond. apply should_skip_spec in Hcond. congruence.
    - intros (Hin & Hcond).
      assert (Hs : should_skip p = false).
      { destruct (should_skip p) eqn:E; [|reflexivity].
        exfalso. apply Hcond, should_skip_spec, E. }
      apply decisions_elem_of. rewrite Hdec. apply list_elem_of_fmap.
      exists p. split; [|exact Hin]. unfold decision. rewrite Hs. reflexivity. }
  split; [|apply truthy_str].
  intros p Hin Hb Hcond.
  assert (Hs : should_skip p = false).
  { destruct (should_skip p) eqn:E; [|reflexivity].
    exfalso. apply Hcond, should_skip_spec, E. }
  apply elem_of_app. left. apply list_elem_of_In, in_concat.
  exists (page_events p). split.
  - apply in_map, list_elem_of_In, Hin.
  - unfold page_events. rewrite Hs, Hb. right. left. reflexivity.
Qed.

Lemma update_one_elem {A} (g : A -> bool) (f : A -> A) (l l' : list A) (y : A) :
  update_one g f l = Some l' -> y ∈ l' ->
  y ∈ l \/ exists x, x ∈ l /\ g x = true /\ y = f x.
Proof.
  revert l'. induction l as [|x rest IH]; intros l' Hu Hy; simpl in Hu; [discriminate|].
  destruct (g x) eqn:Hg.
  - injection Hu as <-. apply elem_of_cons in Hy as [->|Hy].
    + right. exists x. split; [apply list_elem_of_here | auto].
    + left. apply list_elem_of_further, Hy.
  - destruct (update_one g f rest) as [rest'|]; [|discriminate].
    injection Hu as <-. apply elem_of_cons in Hy as [->|Hy].
    + left. apply list_elem_of_here.
    + destruct (IH rest' eq_refl Hy) as [Hin | (x0 & Hin & Hg0 & ->)].
      * left. apply list_elem_of_further, Hin.
      * right. exists x0. split; [apply list_elem_of_further, Hin | auto].
Qed.

Lemma update_page_data_keeps_done (d0 : string) (env : Env) (m : MongoDBManager)
    (d : string) (n : Z) (sd ps kw : json) :
  d <> d0 \/ truthy ps = true ->
  done_pages d0 m -> done_pages d0 (fst (update_page_data env m d n sd ps kw)).
Proof.
  intros Hcase Hm. unfold update_page_data.
  destruct (pages_collection m) as [pages|] eqn:Hpc; [|exact Hm].
  destruct (pages_update_one_raises env n); [exact Hm|].
  destruct (update_one _ _ pages) as [pages'|] eqn:Hu; [|exact Hm].
  unfold done_pages, on_pages, all_done in *. simpl.
  intros pages0 p Heq Hp Hd. injection Heq as <-.
  destruct (update_one_elem _ _ _ _ p Hu Hp) as [Hin | (x & Hin & Hg & ->)].
  - apply (Hm pages p); auto.
  - unfold page_matches in Hg. apply andb_true_iff in Hg as [Hg _].
    apply String.eqb_eq in Hg. simpl in Hd.
    destruct Hcase as [Hne | Hps]; [congruence|].
    unfold should_skip. simpl.
    destruct ps; try discriminate; exact Hps.
Qed.

Lemma get_raw_text_elem (env : Env) (m : MongoDBManager) (d : string)
    (p : PageRecord) :
  p ∈ get_raw_text env m d ->
  doc_id p = d /\ exists pages, pages_collection m = Some pages /\ p ∈ pages.
Proof.
  unfold get_raw_text. destruct (pages_collection m) as [pages|]; [|inversion 1].
  destruct (find_raises env); [inversion 1|].
  unfold find_pages. rewrite merge_sort_Permutation.
  rewrite list_elem_of_filter. intros [Hd Hin]. eauto.
Qed.

Lemma process_page_quiet (json_loads : string -> result json)
    (self : AIProcessor) (env : Env) (d d0 : string) (st : LoopState)
    (p : PageRecord) :
  doc_id p = d ->
  should_skip p = true \/ d <> d0 ->
  effect (fun ev => ~ structures_doc d0 ev) (done_pages d0)
    (process_page json_loads self env d st p).
Proof.
  intros Hd Hp w Hw.
  destruct (process_page_effect json_loads self env d (done_pages d0) st p w)
    as (rest & Hl & Hq & Hi).
  { destruct Hp as [Hs|Hne]; [left; exact Hs|].
    right. intros m sd ps kw. apply update_page_data_keeps_done. left. exact Hne. }
  { exact Hw. }
  exists (decision p :: rest). split; [exact Hl|]. split; [|exact Hi].
  constructor.
  - unfold decision. destruct (should_skip p) eqn:Hs; simpl; [tauto|].
    destruct Hp as [Hp|Hp]; congruence.
  - eapply Forall_impl; [exact Hq|]. intros [] Hev; simpl in *; tauto.
Qed.

(** Any invocation keeps the pages of a finished document finished and
    submits none of them. *)
Lemma process_document_keeps_done (json_loads : string -> result json)
    (py_repr : json -> string) (self : AIProcessor) (env : Env) (d d0 : string) :
  effect (fun ev => ~ structures_doc d0 ev) (done_pages d0)
    (process_document json_loads py_repr self env d).
Proof.
  unfold process_document.
  destruct (not_configured self).
  - apply effect_get_db. intros m Hm.
    apply effect_bind; [|intros _; apply effect_ret].
    apply effect_for_each. intros [] p Hp.
    apply effect_bind; [|intros _; apply effect_ret].
    apply update_page_effect. intros m' Hm'.
    apply update_page_data_keeps_done; [right; reflexivity | exact Hm'].
  - apply effect_get_db. intros m Hm.
    assert (Hpages : forall p, p ∈ get_raw_text env m d ->
                       doc_id p = d /\ (should_skip p = true \/ d <> d0)).
    { intros p Hp. apply get_raw_text_elem in Hp as (Hd & pages & Hpc & Hin).
      split; [exact Hd|].
      destruct (String.eqb d d0) eqn:E.
      - apply String.eqb_eq in E. left. apply (Hm pages p); congruence.
      - apply String.eqb_neq in E. right. exact E. }
    destruct (get_raw_text env m d) as [|p0 rest]; [apply effect_ret|].
    apply effect_bind.
    { apply effect_for_each. intros st p Hp.
      destruct (Hpages p Hp) as [Hd Hcase].
      apply process_page_quiet; assumption. }
    intros st. apply effect_bind; [|intros _; apply effect_ret].
    destruct (all_summaries st); [apply effect_ret|].
    apply effect_bind; [apply effect_emit; simpl; tauto|]. intros _.
    apply (effect_weaken is_chat).
    + intros [] Hev; simpl in *; tauto.
    + apply update_document_metadata_effect.
Qed.

Lemma run_all_keeps_done (json_loads : string -> result json)
    (py_repr : json -> string) (d0 : string) (runs : list Run) (w : World) :
  done_pages d0 (db w) ->
  exists new,
    log (run_all json_loads py_repr runs w) = log w ++ new
    /\ Forall (fun ev => ~ structures_doc d0 ev) new
    /\ done_pages d0 (db (run_all json_loads py_repr runs w)).
Proof.
  revert w. induction runs as [|[[self env] d] rest IH]; intros w Hw; simpl.
  - exists []. rewrite app_nil_r. auto.
  - destruct (process_document_keeps_done json_loads py_repr self env d d0 w Hw)
      as (n1 & Hl1 & Hq1 & Hi1).
    destruct (IH _ Hi1) as (n2 & Hl2 & Hq2 & Hi2).
    exists (n1 ++ n2). rewrite Hl2, Hl1, <- app_assoc.
    split; [reflexivity|]. split; [apply Forall_app; auto | exact Hi2].
Qed.

(** ** The run without a credential *)

Lemma update_one_unique {A} (g : A -> bool) (f : A -> A) (l : list A) :
  length (filter (fun x => g x = true) l) = 1%nat ->
  update_one g f l = Some (map (fun x => if g x then f x else x) l).
Proof.
  induction l as [|x rest IH]; simpl; [discriminate|].
  rewrite filter_cons. destruct (decide (g x = true)) as [Hg|Hg].
  - rewrite Hg. simpl. intros Hlen. f_equal. f_equal.
    assert (Hnil : filter (fun x => g x = true) rest = [])
      by (destruct (filter _ rest); [reflexivity | simpl in Hlen; lia]).
    clear -Hnil. induction rest as [|y rest IH]; simpl; [reflexivity|].
    rewrite filter_cons in Hnil. destruct (decide (g y = true)); [discriminate|].
    destruct (g y); [congruence|]. f_equal. apply IH, Hnil.
  - destruct (g x); [congruence|]. intros Hlen. rewrite (IH Hlen). reflexivity.
Qed.

Lemma page_matches_spec (d : string) (n : Z) (q : PageRecord) :
  page_matches d n q = true <-> doc_id q = d /\ page_num q = n.
Proof.
  unfold page_matches. rewrite andb_true_iff, String.eqb_eq, Z.eqb_eq. reflexivity.
Qed.

Lemma one_page_matches (d : string) (all : list PageRecord) (p : PageRecord) :
  NoDup (map page_num (filter (fun q => doc_id q = d) all)) ->
  p ∈ all -> doc_id p = d ->
  length (filter (fun q => page_matches d (page_num p) q = true) all) = 1%nat.
Proof.
  intros Hnd Hp Hd.
  induction all as [|x rest IH]; [inversion Hp|].
  rewrite filter_cons in Hnd. rewrite filter_cons.
  assert (Hnone : page_num p ∉ map page_num (filter (fun q => doc_id q = d) rest) ->
                  filter (fun q => page_matches d (page_num p) q = true) rest = []).
  { intros Hnot. clear -Hnot. induction rest as [|y rest IH]; [reflexivity|].
    rewrite filter_cons in Hnot. rewrite filter_cons.
    destruct (decide (page_matches d (page_num p) y = true)) as [Hy|Hy].
    - apply page_matches_spec in Hy as [Hyd Hyn].
      destruct (decide (doc_id y = d)); [|contradiction].
      exfalso. apply Hnot. simpl. rewrite Hyn. apply list_elem_of_here.
    - apply IH. destruct (decide (doc_id y = d)); [|exact Hnot].
      intros Hin. apply Hnot. simpl. apply list_elem_of_further, Hin. }
  destruct (decide (page_matches d (page_num p) x = true)) as [Hx|Hx].
  - apply page_matches_spec in Hx as [Hxd Hxn].
    destruct (decide (doc_id x = d)); [|contradiction].
    simpl in Hnd. apply NoDup_cons in Hnd as [Hnot _].
    rewrite Hxn in Hnot. rewrite (Hnone Hnot). reflexivity.
  - apply elem_of_cons in Hp as [->|Hp].
    + exfalso. apply Hx, page_matches_spec. auto.
    + apply IH; [|exact Hp].
      destruct (decide (doc_id x = d)); [|exact Hnd].
      simpl in Hnd. apply NoDup_cons in Hnd as [_ Hnd]. exact Hnd.
Qed.

Lemma length_filter_map_mark (env : Env) (d : string) (n : Z) (nums : list Z)
    (all : list PageRecord) :
  length (filter (fun q => page_matches d n q = true) (map (mark_in env d nums) all))
  = length (filter (fun q => page_matches d n q = true) all).
Proof.
  induction all as [|x rest IH]; [reflexivity|].
  cbn [map]. rewrite !filter_cons.
  assert (Hsame : page_matches d n (mark_in env d nums x) = page_matches d n x).
  { unfold mark_in. destruct (_ && _); reflexivity. }
  rewrite Hsame.
  destruct (decide (page_matches d n x = true)); simpl; rewrite IH; reflexivity.
Qed.

(** One write of the run without a credential. *)
Lemma no_key_step (env : Env) (d : string) (all : list PageRecord)
    (nums : list Z) (p : PageRecord) :
  NoDup (map page_num (filter (fun q => doc_id q = d) all)) ->
  p ∈ all -> doc_id p = d -> page_num p ∉ nums ->
  update_one (page_matches d (page_num p))
    (set_page_fields (utcnow env (page_num p)) (JDict _get_default_structure)
       (JStr sentinel_summary) (JList []))
    (map (mark_in env d nums) all)
  = Some (map (mark_in env d (nums ++ [page_num p])) all).
Proof.
  intros Hnd Hp Hd Hnot.
  rewrite update_one_unique.
  2:{ rewrite length_filter_map_mark. apply one_page_matches; assumption. }
  f_equal. rewrite map_map. apply map_ext. intros q.
  assert (Hsame : page_matches d (page_num p) (mark_in env d nums q)
                  = page_matches d (page_num p) q).
  { unfold mark_in. destruct (_ && _); reflexivity. }
  rewrite Hsame. unfold mark_in.
  destruct (page_matches d (page_num p) q) eqn:Hm.
  - apply page_matches_spec in Hm as [Hqd Hqn].
    rewrite Hqd, String.eqb_refl. simpl.
    rewrite (bool_decide_eq_false_2 (page_num q ∈ nums)) by congruence.
    rewrite (bool_decide_eq_true_2 (page_num q ∈ nums ++ [page_num p])).
    + unfold no_key_page. rewrite Hqn. reflexivity.
    + apply elem_of_app. right. rewrite Hqn. apply list_elem_of_here.
  - destruct (String.eqb (doc_id q) d) eqn:Hqd; [|reflexivity]. simpl.
    apply String.eqb_eq in Hqd.
    assert (Hne : page_num q <> page_num p).
    { intros Heq. assert (page_matches d (page_num p) q = true)
        by (apply page_matches_spec; auto). congruence. }
    assert (Hiff : bool_decide (page_num q ∈ nums ++ [page_num p])
                   = bool_decide (page_num q ∈ nums)).
    { apply bool_decide_ext. rewrite elem_of_app, list_elem_of_singleton. tauto. }
    rewrite Hiff. reflexivity.
Qed.

(** The loop of the run without a credential over the pages [todo]. *)
Lemma no_key_loop (env : Env) (d : string) (all : list PageRecord)
    (docs : option (list DocumentRecord)) (files : option (list GridFile))
    (todo : list PageRecord) :
  (forall n, pages_update_one_raises env n = false) ->
  NoDup (map page_num (filter (fun q => doc_id q = d) all)) ->
  forall (nums : list Z) (lg : list Event),
    NoDup (nums ++ map page_num todo) ->
    (forall p, p ∈ todo -> p ∈ all /\ doc_id p = d) ->
    for_each
      (fun (_ : unit) page =>
         _ <- update_page env d (page_num page) (JDict _get_default_structure)
                (JStr sentinel_summary) (JList []) ;;
         ret tt)
      todo tt
      {| db := {| documents_collection := docs;
                  pages_collection := Some (map (mark_in env d nums) all);
                  fs := files |};
         log := lg |}
    = (Ok tt,
       {| db := {| documents_collection := docs;
                   pages_collection :=
                     Some (map (mark_in env d (nums ++ map page_num todo)) all);
                   fs := files |};
          log := lg |}).
Proof.
  intros Hok Hnd. induction todo as [|p rest IH]; intros nums lg Hnums Htodo.
  - simpl. rewrite app_nil_r. reflexivity.
  - cbn [for_each map].
    destruct (Htodo p (list_elem_of_here _ _)) as [Hp Hd].
    assert (Hnot : page_num p ∉ nums).
    { apply NoDup_app in Hnums as (_ & Hdisj & _). intros Hin.
      apply (Hdisj _ Hin). simpl. apply list_elem_of_here. }
    unfold bind at 1. unfold bind at 1. unfold update_page at 1.
    rewrite bind_get_db. cbn [db].
    unfold update_page_data. cbn [pages_collection documents_collection fs].
    rewrite Hok. rewrite (no_key_step env d all nums p Hnd Hp Hd Hnot).
    cbn [bind put_db ret db log].
    rewrite IH.
    + rewrite <- app_assoc. reflexivity.
    + rewrite <- app_assoc. exact Hnums.
    + intros q Hq. apply Htodo, list_elem_of_further, Hq.
Qed.

Lemma map_mark_in_nil (env : Env) (d : string) (all : list PageRecord) :
  map (mark_in env d []) all = all.
Proof.
  rewrite <- (map_id all) at 2. apply map_ext. intros q. unfold mark_in.
  rewrite andb_false_r. reflexivity.
Qed.

Lemma find_pages_elem (all : list PageRecord) (d : string) (p : PageRecord) :
  p ∈ find_pages all d <-> p ∈ all /\ doc_id p = d.
Proof.
  unfold find_pages. rewrite merge_sort_Permutation, list_elem_of_filter. tauto.
Qed.

Lemma no_key_page_done (now : Z) (q : PageRecord) :
  status (no_key_page now q) = "structured"
  /\ structured_data (no_key_page now q) = JDict _get_default_structure
  /\ page_summary (no_key_page now q) = JStr sentinel_summary
  /\ keywords (no_key_page now q) = JList []
  /\ doc_id (no_key_page now q) = doc_id q
  /\ page_num (no_key_page now q) = page_num q
  /\ raw_text (no_key_page now q) = raw_text q
  /\ should_skip (no_key_page now q) = true.
Proof. repeat split. Qed.

(** The run without a credential, when storage works and page numbers
    are unique within the document. *)
Lemma no_key_run (json_loads : string -> result json) (py_repr : json -> string)
    (self : AIProcessor) (env : Env) (d : string) (w : World)
    (all : list PageRecord) :
  not_configured self = true ->
  pages_collection (db w) = Some all ->
  find_raises env = false ->
  (forall n, pages_update_one_raises env n = false) ->
  NoDup (map page_num (filter (fun q => doc_id q = d) all)) ->
  process_document json_loads py_repr self env d w
  = (Ok None,
     {| db := {| documents_collection := documents_collection (db w);
                 pages_collection := Some (map (mark env d) all);
                 fs := fs (db w) |};
        log := log w |}).
Proof.
  intros Hc Hall Hfind Hok Hnd.
  unfold process_document. rewrite Hc, bind_get_db.
  unfold get_raw_text. rewrite Hall, Hfind.
  destruct w as [[docs pc files] lg]. simpl in Hall. subst pc.
  cbn [db log documents_collection fs].
  rewrite <- (map_mark_in_nil env d all) at 2.
  unfold bind at 1.
  rewrite (no_key_loop env d all docs files (find_pages all d) Hok Hnd [] lg).
  - cbn [app ret]. f_equal. f_equal. f_equal. f_equal.
    apply map_ext_in. intros q Hq. unfold mark_in, mark.
    destruct (String.eqb (doc_id q) d) eqn:Hqd; [|reflexivity]. simpl.
    apply String.eqb_eq in Hqd.
    rewrite bool_decide_eq_true_2; [reflexivity|].
    apply list_elem_of_fmap. exists q. split; [reflexivity|].
    apply find_pages_elem. split; [apply list_elem_of_In, Hq | exact Hqd].
  - cbn [app]. unfold find_pages.
    rewrite (merge_sort_Permutation page_le). exact Hnd.
  - intros p Hp. apply find_pages_elem, Hp.
Qed.

(** C10.  A run without a credential, on storage that works and a
    document whose page numbers are unique, returns at once, sends
    nothing, and leaves every page of the document with status
    [structured], the default structure (whose [processing_status] is
    [failed]), the sentinel summary and no keywords.  After it, whatever
    invocations follow (any processor, configured or not, any behaviour
    of the model and of storage, any document), no page of the document
    is submitted to [structure_text] again, and every page of the
    document stays one the skip rule skips. *)
Theorem no_key_run_blocks_reprocessing (json_loads : string -> result json)
    (py_repr : json -> string) (self : AIProcessor) (env : Env) (d : string)
    (w : World) (all : list PageRecord) :
  not_configured self = true ->
  pages_collection (db w) = Some all ->
  find_raises env = false ->
  (forall n, pages_update_one_raises env n = false) ->
  NoDup (map page_num (filter (fun q => doc_id q = d) all)) ->
  let w1 := snd (process_document json_loads py_repr self env d w) in
  fst (process_document json_loads py_repr self env d w) = Ok None
  /\ log w1 = log w
  /\ pages_collection (db w1) = Some (map (mark env d) all)
  /\ (forall p, p ∈ all -> doc_id p = d ->
        status (mark env d p) = "structured"
        /\ structured_data (mark env d p) = JDict _get_default_structure
        /\ page_summary (mark env d p) = JStr sentinel_summary
        /\ keywords (mark env d p) = JList []
        /\ page_num (mark env d p) = page_num p
        /\ should_skip (mark env d p) = true)
  /\ dict_lookup "processing_status" _get_default_structure = Some (JStr "failed")
  /\ (forall runs,
        exists new,
          log (run_all json_loads py_repr runs w1) = log w1 ++ new
          /\ (forall p, doc_id p = d -> EvStructure p ∉ new)
          /\ (forall env' p,
                p ∈ get_raw_text env' (db (run_all json_loads py_repr runs w1)) d ->
                should_skip p = true)).
Proof.
  intros Hc Hall Hfind Hok Hnd w1. unfold w1.
  rewrite (no_key_run json_loads py_repr self env d w all Hc Hall Hfind Hok Hnd).
  cbn [fst snd db log pages_collection].
  split; [reflexivity|]. split; [reflexivity|]. split; [reflexivity|].
  split.
  { intros p Hp Hd. unfold mark. rewrite Hd, String.eqb_refl.
    destruct (no_key_page_done (utcnow env (page_num p)) p)
      as (H1 & H2 & H3 & H4 & _ & H6 & _ & H8).
    repeat split; assumption. }
  split; [reflexivity|].
  intros runs.
  set (w1' := {| db := {| documents_collection := documents_collection (db w);
                          pages_collection := Some (map (mark env d) all);
                          fs := fs (db w) |};
                 log := log w |}).
  assert (Hdone : done_pages d (db w1')).
  { unfold done_pages, on_pages, all_done. simpl.
    intros pages p Heq Hp Hd. injection Heq as <-.
    apply list_elem_of_fmap in Hp as (q & -> & Hq).
    unfold mark in *. destruct (String.eqb (doc_id q) d) eqn:E.
    - reflexivity.
    - apply String.eqb_neq in E. contradiction. }
  destruct (run_all_keeps_done json_loads py_repr d runs w1' Hdone)
    as (new & Hl & Hq & Hi).
  exists new. split; [exact Hl|]. split.
  - intros p Hd Hin. rewrite Forall_forall in Hq. apply (Hq _ Hin). exact Hd.
  - intros env' p Hp. apply get_raw_text_elem in Hp as (Hd & pages & Hpc & Hin).
    apply (Hi pages p Hpc Hin Hd).
Qed.

(** ** A document of two pages *)

(** C3 fails on the code.  Page one is structured with summary S1 and
    page two is rate-limited: the metadata build is called with both
    summaries, the empty one included, and the summarisation request
    carries an empty "Page 2".  With a single page whose call fails, the
    metadata build is still called, with one empty summary. *)
Lemma failed_page_summary_reaches_synthesis :
  metadata_calls (log after_first_run)
  = [([JStr "S1"; JStr ""], [JStr "a"; JStr "b"; JStr "a"])]
  /\ requests SummaryPrompt (log after_first_run)
     = ["Here are the summaries of the document pages:" +:+ nl +:+ nl
        +:+ "Page 1: S1" +:+ nl +:+ nl +:+ "Page 2: "]
  /\ map (fun p => (page_num p, status p, page_summary p))
       (get_raw_text two_page_env (db after_first_run) "doc-1")
     = [(1, "structured", JStr "S1"); (2, "structured", JStr "")]
  /\ metadata_calls
       (log (snd (process_document json_loads_subset no_repr configured_processor
                    two_page_env "doc-1" one_page_world)))
     = [([JStr ""], [])].
Proof.
  repeat split; vm_compute; reflexivity.
Qed.

(** The amended C4 on the second run over the two pages: page one,
    structured with summary S1, is skipped; page two, structured with an
    empty summary, is submitted again, and its text is sent. *)
Lemma process_document_skip_rule_witness :
  exists new,
    log (snd (process_document json_loads_subset no_repr configured_processor
                two_page_env "doc-1" after_first_run))
    = log after_first_run ++ new
    /\ decisions new
       = [EvSkip {| doc_id := "doc-1"; page_num := 1;
                    raw_text := "page one: invoice 42"; status := "structured";
                    page_summary := JStr "S1";
                    keywords := JList [JStr "a"; JStr "b"; JStr "a"];
                    structured_data :=
                      JDict [("summary", JStr "S1");
                             ("keywords", JList [JStr "a"; JStr "b"; JStr "a"]);
                             ("sections", JList []); ("measurements", JList []);
                             ("key_fields", JDict []); ("tables", JList []);
                             ("processing_status", JStr "success")];
                    updated_at := Some 1718000000000 |};
          EvStructure {| doc_id := "doc-1"; page_num := 2;
                         raw_text := "page two: terms"; status := "structured";
                         page_summary := JStr ""; keywords := JList [];
                         structured_data :=
                           JDict (default_tagged "rate_limit_error");
                         updated_at := Some 1718000000000 |}]
    /\ requests StructurePrompt new
       = ["Text to structure:" +:+ nl +:+ nl +:+ "page two: terms"].
Proof.
  destruct (process_document_skip_rule json_loads_subset no_repr
              configured_processor two_page_env "doc-1" after_first_run eq_refl)
    as (decided & tail & new & Hl & _ & _ & _ & Hret & _ & Hdec & Hreq & _).
  assert (Hall : decided = get_raw_text two_page_env (db after_first_run) "doc-1").
  { apply Hret. eexists. vm_compute. reflexivity. }
  exists new. split; [exact Hl|].
  rewrite Hdec, Hreq, Hall. split; vm_compute; reflexivity.
Defined.

(** C4 as stated fails when the loop raises.  Page one gets a reply whose
    keywords hold a number, and the log line that joins the keywords
    raises [TypeError], which nothing in the loop catches; page two,
    [structured] with an empty summary, is never reached: it is not
    submitted and no request carries its text, in this run and in every
    later one, since nothing has been written. *)
Lemma process_document_skip_rule_counterexample :
  get_raw_text bad_keyword_env (db retry_world) "doc-1" = [page_one; retry_page]
  /\ status retry_page = "structured" /\ page_summary retry_page = JStr ""
  /\ should_skip retry_page = false
  /\ fst (process_document json_loads_subset no_repr configured_processor
            bad_keyword_env "doc-1" retry_world) = Raise TypeError
  /\ decisions (log (snd (process_document json_loads_subset no_repr
                            configured_processor bad_keyword_env "doc-1"
                            retry_world)))
     = [EvStructure page_one]
  /\ requests StructurePrompt
       (log (snd (process_document json_loads_subset no_repr
                    configured_processor bad_keyword_env "doc-1" retry_world)))
     = ["Text to structure:" +:+ nl +:+ nl +:+ "page one: invoice 42"]
  /\ db (snd (process_document json_loads_subset no_repr configured_processor
                bad_keyword_env "doc-1" retry_world))
     = db retry_world.
Proof. repeat split; vm_compute; reflexivity. Qed.

(** C10 on the two pages: a run without a credential, then two runs with
    one. *)
Lemma no_key_run_witness :
  exists new,
    log (run_all json_loads_subset no_repr
           [(configured_processor, two_page_env, "doc-1");
            (configured_processor, two_page_env, "doc-1")]
           (snd (process_document json_loads_subset no_repr unconfigured_processor
                   two_page_env "doc-1" two_page_world)))
    = new
    /\ (forall p, doc_id p = "doc-1" -> EvStructure p ∉ new)
    /\ requests StructurePrompt new = [].
Proof.
  assert (Hnd : NoDup (map page_num
                         (filter (fun q => doc_id q = "doc-1") [page_two; page_one]))).
  { vm_compute. apply NoDup_cons. split.
    - intros H. apply list_elem_of_singleton in H. discriminate.
    - apply NoDup_singleton. }
  destruct (no_key_run_blocks_reprocessing json_loads_subset no_repr
              unconfigured_processor two_page_env "doc-1" two_page_world
              [page_two; page_one] eq_refl eq_refl eq_refl (fun _ => eq_refl) Hnd)
    as (_ & Hlog & _ & _ & _ & Hruns).
  destruct (Hruns [(configured_processor, two_page_env, "doc-1");
                   (configured_processor, two_page_env, "doc-1")])
    as (new & Hl & Hnone & _).
  exists new. rewrite Hl, Hlog. split; [reflexivity|]. split; [exact Hnone|].
  assert (Hnew : log (run_all json_loads_subset no_repr
           [(configured_processor, two_page_env, "doc-1");
            (configured_processor, two_page_env, "doc-1")]
           (snd (process_document json_loads_subset no_repr unconfigured_processor
                   two_page_env "doc-1" two_page_world))) = new).
  { rewrite Hl, Hlog. reflexivity. }
  rewrite <- Hnew. vm_compute. reflexivity.
Defined.

(** ** More concrete runs *)

(** C9 on four files: a short second page, a short fourth page, a page
    that cannot be read, and a page of 60 blanks. *)
Lemma needs_ocr_gate_witness :
  _needs_ocr (Some [long_page; short_page; long_page]) = true
  /\ _needs_ocr (Some [long_page; long_page; long_page; short_page]) = false
  /\ _needs_ocr (Some [long_page; GetTextRaises]) = true
  /\ _needs_ocr (Some [blank_page]) = true
  /\ is_text_scannable 49 default_threshold = true
  /\ is_text_scannable 50 default_threshold = false.
Proof.
  destruct (needs_ocr_gate [long_page; short_page; long_page])
    as (_ & _ & Hshort & _).
  destruct (needs_ocr_gate [long_page; long_page; long_page; short_page])
    as (_ & Hsample & _).
  destruct (needs_ocr_gate [long_page; GetTextRaises])
    as (_ & _ & _ & _ & Hraise & _ & Hscan & _).
  destruct (needs_ocr_gate [blank_page]) as (_ & _ & _ & Hblank & _).
  split; [apply (Hshort 1%nat "Scan."); [lia | reflexivity | reflexivity]|].
  split; [rewrite Hsample; reflexivity|].
  split; [apply (Hraise 1%nat); [lia | reflexivity]|].
  split; [apply (Hblank 0%nat (str_repeat " " 60)); [lia | reflexivity | reflexivity]|].
  split; [apply Hscan; reflexivity|].
  destruct (is_text_scannable 50 default_threshold) eqn:E; [|reflexivity].
  apply Hscan in E. unfold default_threshold in E. lia.
Defined.

(** C8 on three summaries and a rate-limited summarisation call. *)
Lemma generate_document_summary_witness :
  fst (generate_document_summary no_repr configured_processor rate_limited_env
         [JStr "S1"; JStr "S2"; JStr "S3"] empty_world)
  = Ok (JStr "Document with 3 pages. S1")
  /\ generate_document_summary no_repr configured_processor rate_limited_env
       [JStr "only summary"] empty_world
     = (Ok (JStr "only summary"), empty_world).
Proof.
  destruct (generate_document_summary_cases no_repr configured_processor
              rate_limited_env empty_world) as (_ & Hone & Hfail).
  split; [|apply Hone].
  apply (Hfail "S1" (JStr "S2") [JStr "S3"]).
  right. left. exists RateLimitError. reflexivity.
Defined.

(** C6 on the two-page document: page one contributes a, b, a, and the
    document ends up with a, b. *)
Lemma unique_keywords_witness :
  unique_keywords (map JStr ["a"; "b"; "a"]) = Ok (map JStr ["a"; "b"])
  /\ map doc_keywords
       (default [] (documents_collection (db after_first_run)))
     = [JList [JStr "a"; JStr "b"]].
Proof.
  destruct (unique_keywords_first_occurrence ["a"; "b"; "a"])
    as (full & Hfull & Huniq & _).
  split; [|vm_compute; reflexivity].
  rewrite Huniq.
  change (dict_fromkeys [] (map JStr ["a"; "b"; "a"]))
    with (Ok [JStr "a"; JStr "b"]) in Hfull.
  injection Hfull as Hfull.
  destruct full as [|x [|y [|z rest]]]; simpl in Hfull; try discriminate.
  injection Hfull as <- <-. reflexivity.
Defined.

(** * Beyond the claims *)

(** ** Reading and writing pages *)

Lemma strictly_sorted (l : list PageRecord) :
  StronglySorted page_le l -> NoDup (map page_num l) ->
  StronglySorted (fun p q => page_num p < page_num q) l.
Proof.
  induction 1 as [|p l Hs IH Hall]; intros Hnd; [constructor|].
  cbn [map] in Hnd. apply NoDup_cons in Hnd as [Hnot Hnd].
  constructor; [apply IH, Hnd|].
  rewrite Forall_forall in Hall |- *. intros q Hq.
  specialize (Hall q Hq). unfold page_le in Hall.
  assert (page_num q <> page_num p).
  { intros Heq. apply Hnot. rewrite <- Heq. apply list_elem_of_fmap. eauto. }
  lia.
Qed.

(** X1.  [get_raw_text] returns pages of the document only, in ascending
    [page_num] order; nothing when the collection is not connected or
    the read raises; otherwise every stored page of the document exactly
    once, in strictly ascending order when the page numbers of the
    document are distinct. *)
Theorem get_raw_text_sorted (env : Env) (m : MongoDBManager) (d : string) :
  StronglySorted page_le (get_raw_text env m d)
  /\ (forall p, p ∈ get_raw_text env m d -> doc_id p = d)
  /\ (pages_collection m = None \/ find_raises env = true ->
      get_raw_text env m d = [])
  /\ (forall pages, pages_collection m = Some pages -> find_raises env = false ->
        get_raw_text env m d ≡ₚ filter (fun p => doc_id p = d) pages
        /\ (NoDup (map page_num (filter (fun p => doc_id p = d) pages)) ->
            StronglySorted (fun p q => page_num p < page_num q)
              (get_raw_text env m d))).
Proof.
  split.
  { unfold get_raw_text. destruct (pages_collection m); [|constructor].
    destruct (find_raises env); [constructor|].
    apply StronglySorted_merge_sort; apply _. }
  split.
  { intros p Hp. apply get_raw_text_elem in Hp. tauto. }
  split.
  { unfold get_raw_text. intros [-> | ->]; [reflexivity|].
    destruct (pages_collection m); reflexivity. }
  intros pages Hpc Hf. unfold get_raw_text. rewrite Hpc, Hf.
  split; [apply merge_sort_Permutation|].
  intros Hnd. apply strictly_sorted.
  - apply StronglySorted_merge_sort; apply _.
  - unfold find_pages. rewrite (merge_sort_Permutation page_le). exact Hnd.
Qed.

Lemma update_one_None {A} (g : A -> bool) (f : A -> A) (l : list A) :
  update_one g f l = None <-> Forall (fun y => g y = false) l.
Proof.
  induction l as [|x rest IH]; simpl.
  - split; [constructor | reflexivity].
  - destruct (g x) eqn:Hg.
    + split; [discriminate|]. intros H. inversion H; congruence.
    + destruct (update_one g f rest) as [rest'|].
      * split; [discriminate|]. intros H. inversion H as [|? ? _ Hr]; subst.
        apply IH in Hr. discriminate.
      * split; [|reflexivity]. intros _. constructor; [exact Hg|]. apply IH. reflexivity.
Qed.

Lemma update_one_Some {A} (g : A -> bool) (f : A -> A) (l l' : list A) :
  update_one g f l = Some l' <->
  exists before x after,
    l = before ++ x :: after
    /\ Forall (fun y => g y = false) before
    /\ g x = true
    /\ l' = before ++ f x :: after.
Proof.
  revert l'. induction l as [|x rest IH]; intros l'; simpl.
  - split; [discriminate|]. intros (b & x & a & H & _). destruct b; discriminate.
  - destruct (g x) eqn:Hg.
    + split.
      * intros [= <-]. exists [], x, rest. repeat split; auto.
      * intros (b & y & a & Hl & Hb & Hy & ->).
        destruct b as [|z b]; simpl in Hl; injection Hl as -> ->; [reflexivity|].
        inversion Hb; congruence.
    + split.
      * destruct (update_one g f rest) as [rest'|]; [|discriminate].
        intros [= <-]. destruct (proj1 (IH rest') eq_refl) as (b & y & a & -> & Hb & Hy & ->).
        exists (x :: b), y, a. repeat split; auto.
      * intros (b & y & a & Hl & Hb & Hy & ->).
        destruct b as [|z b]; simpl in Hl; injection Hl as -> ->; [congruence|].
        inversion Hb as [|? ? _ Hb']; subst.
        rewrite (proj2 (IH (b ++ f y :: a))); [reflexivity|].
        exists b, y, a. auto.
Qed.

(** [None] leaves a field as it was. *)
Lemma set_page_fields_spec (now : Z) (sd ps kw : json) (p : PageRecord) :
  let p' := set_page_fields now sd ps kw p in
  doc_id p' = doc_id p /\ page_num p' = page_num p /\ raw_text p' = raw_text p
  /\ status p' = "structured"
  /\ (sd = JNull -> structured_data p' = structured_data p)
  /\ (sd <> JNull -> structured_data p' = sd)
  /\ (ps = JNull -> page_summary p' = page_summary p)
  /\ (ps <> JNull -> page_summary p' = ps)
  /\ (kw = JNull -> keywords p' = keywords p)
  /\ (kw <> JNull -> keywords p' = kw).
Proof.
  simpl. repeat split; try (intros ->; reflexivity).
  - destruct sd; intros H; congruence.
  - destruct ps; intros H; congruence.
  - destruct kw; intros H; congruence.
Qed.

(** A write leaves a record as it was exactly when the record already
    holds every value written. *)
Lemma set_page_fields_unchanged (now : Z) (sd ps kw : json) (p : PageRecord) :
  set_page_fields now sd ps kw p = p
  <-> status p = "structured" /\ updated_at p = Some now
      /\ (sd <> JNull -> structured_data p = sd)
      /\ (ps <> JNull -> page_summary p = ps)
      /\ (kw <> JNull -> keywords p = kw).
Proof.
  destruct p as [pd pn pr pst pps pkw psd pu]. unfold set_page_fields. simpl.
  split.
  - intros [= Hst Hps Hkw Hsd Hu]. subst pst pu.
    split; [reflexivity|]. split; [reflexivity|].
    split; [|split]; intros Hne.
    + destruct sd; congruence.
    + destruct ps; congruence.
    + destruct kw; congruence.
  - intros (-> & -> & Hsd & Hps & Hkw). f_equal.
    + destruct ps; try reflexivity; symmetry; apply Hps; discriminate.
    + destruct kw; try reflexivity; symmetry; apply Hkw; discriminate.
    + destruct sd; try reflexivity; symmetry; apply Hsd; discriminate.
Qed.

(** The two ways [update_page_data] ends: nothing is written and the
    answer is [False], or the first record that matches is rewritten and
    the answer says whether that changed it. *)
Lemma update_page_data_cases (env : Env) (m : MongoDBManager) (d : string)
    (n : Z) (sd ps kw : json) :
  (update_page_data env m d n sd ps kw = (m, false)
   /\ (pages_collection m = None
       \/ pages_update_one_raises env n = true
       \/ exists pages, pages_collection m = Some pages
            /\ Forall (fun y => page_matches d n y = false) pages))
  \/ exists before x after,
       pages_collection m = Some (before ++ x :: after)
       /\ pages_update_one_raises env n = false
       /\ Forall (fun y => page_matches d n y = false) before
       /\ doc_id x = d /\ page_num x = n
       /\ update_page_data env m d n sd ps kw
          = ({| documents_collection := documents_collection m;
                pages_collection :=
                  Some (before ++ set_page_fields (utcnow env n) sd ps kw x :: after);
                fs := fs m |},
             bool_decide (set_page_fields (utcnow env n) sd ps kw x <> x)).
Proof.
  unfold update_page_data.
  destruct (pages_collection m) as [pages|] eqn:Hpc; [|left; auto].
  destruct (pages_update_one_raises env n) eqn:Hr; [left; auto|].
  destruct (update_one (page_matches d n) (set_page_fields (utcnow env n) sd ps kw)
              pages) as [pages'|] eqn:Hu.
  - right. apply update_one_Some in Hu as (b & x & a & -> & Hb & Hx & ->).
    apply page_matches_spec in Hx as [Hxd Hxn].
    exists b, x, a. repeat (split; [auto; fail|]).
    f_equal.
    destruct (decide (b ++ set_page_fields (utcnow env n) sd ps kw x :: a
                      = b ++ x :: a)) as [Heq|Hne].
    + apply app_inv_head in Heq. injection Heq as Heq.
      rewrite bool_decide_eq_false_2; [reflexivity|]. intros H. exact (H Heq).
    + rewrite bool_decide_eq_true_2; [reflexivity|].
      intros Heq. apply Hne. rewrite Heq. reflexivity.
  - left. split; [reflexivity|]. right. right. exists pages.
    split; [reflexivity|]. apply update_one_None in Hu. exact Hu.
Qed.

Lemma manager_eta (m : MongoDBManager) :
  {| documents_collection := documents_collection m;
     pages_collection := pages_collection m;
     fs := fs m |} = m.
Proof. destruct m; reflexivity. Qed.

(** X2.  [update_page_data] answers [False] exactly when the collection is
    not connected, the write raises, no stored record has that [doc_id]
    and [page_num], or the first such record already holds every value
    written, the time included, so that [modified_count] is 0; and in
    each case the database is left as it was.  A record already holds
    what is written exactly when its status is [structured], its
    [updated_at] is the time of the write and each field whose argument
    is not [None] holds the argument. *)
Theorem update_page_data_failure (env : Env) (m : MongoDBManager) (d : string)
    (n : Z) (sd ps kw : json) :
  (snd (update_page_data env m d n sd ps kw) = false <->
     pages_collection m = None
     \/ pages_update_one_raises env n = true
     \/ (exists pages, pages_collection m = Some pages
           /\ forall p, p ∈ pages -> ~ (doc_id p = d /\ page_num p = n))
     \/ (pages_update_one_raises env n = false
         /\ exists before p after,
              pages_collection m = Some (before ++ p :: after)
              /\ (forall q, q ∈ before -> ~ (doc_id q = d /\ page_num q = n))
              /\ doc_id p = d /\ page_num p = n
              /\ set_page_fields (utcnow env n) sd ps kw p = p))
  /\ (snd (update_page_data env m d n sd ps kw) = false ->
      fst (update_page_data env m d n sd ps kw) = m)
  /\ (forall p,
        set_page_fields (utcnow env n) sd ps kw p = p
        <-> status p = "structured" /\ updated_at p = Some (utcnow env n)
            /\ (sd <> JNull -> structured_data p = sd)
            /\ (ps <> JNull -> page_summary p = ps)
            /\ (kw <> JNull -> keywords p = kw)).
Proof.
  split; [|split; [|intros p; apply set_page_fields_unchanged]].
  - destruct (update_page_data_cases env m d n sd ps kw)
      as [[-> Hcase] | (b & x & a & Hpc & Hr & Hb & Hxd & Hxn & ->)];
      cbn [snd].
    + split; [|reflexivity]. intros _.
      destruct Hcase as [H | [H | (pages & Hpc & Hall)]]; [tauto | tauto |].
      right. right. left. exists pages. split; [exact Hpc|].
      intros p Hp Hm. rewrite Forall_forall in Hall.
      apply page_matches_spec in Hm. specialize (Hall p Hp). congruence.
    + rewrite bool_decide_eq_false. split.
      * intros Hsame. right. right. right. split; [exact Hr|].
        exists b, x, a. split; [exact Hpc|]. split.
        { intros q Hq Hm. rewrite Forall_forall in Hb. specialize (Hb q Hq).
          apply page_matches_spec in Hm. congruence. }
        split; [exact Hxd|]. split; [exact Hxn|].
        destruct (decide (set_page_fields (utcnow env n) sd ps kw x = x));
          [assumption | contradiction].
      * intros [H | [H | [(pages & Hpc' & Hno) | (_ & b' & x' & a' & Hpc' & Hb' & Hd' & Hn' & Hsame)]]].
        { congruence. }
        { congruence. }
        { exfalso. rewrite Hpc in Hpc'. injection Hpc' as <-.
          apply (Hno x); [|auto]. apply elem_of_app. right. apply list_elem_of_here. }
        { rewrite Hpc in Hpc'. injection Hpc' as Heq.
          assert (Hx : b = b' /\ x = x').
          { clear -Heq Hb Hb' Hxd Hxn Hd' Hn'. revert b' Heq Hb'.
            induction b as [|y b IH]; intros [|y' b'] Heq Hb'; simpl in Heq.
            - injection Heq as -> _. auto.
            - injection Heq as -> _. exfalso. apply (Hb' y'); [apply list_elem_of_here|auto].
            - injection Heq as -> _. inversion Hb as [|? ? Hy _]; subst.
              assert (page_matches (doc_id x') (page_num x') x' = true)
                by (apply page_matches_spec; auto).
              congruence.
            - injection Heq as -> Heq. inversion Hb as [|? ? _ Hb0]; subst.
              destruct (IH Hb0 b' Heq) as [-> ->]; [|auto].
              intros q Hq. apply Hb'. apply list_elem_of_further, Hq. }
          destruct Hx as [_ <-]. intros Hne. exact (Hne Hsame). }
  - destruct (update_page_data_cases env m d n sd ps kw)
      as [[-> _] | (b & x & a & Hpc & Hr & Hb & Hxd & Hxn & ->)];
      cbn [fst snd]; [reflexivity|].
    rewrite bool_decide_eq_false. intros Hsame.
    destruct (decide (set_page_fields (utcnow env n) sd ps kw x = x)) as [->|Hne];
      [|contradiction].
    rewrite <- Hpc. apply manager_eta.
Qed.

(** X3.  When [update_page_data] answers [True], it has rewritten the
    first record with that [doc_id] and [page_num] and nothing else: the
    record keeps its place, its identity and its text, its status is
    [structured], each of the three fields whose argument is not [None]
    holds the argument, and a field whose argument is [None] keeps its
    value; the record is stamped with the time of the write and is not
    what it was before.  The documents collection and the files are
    untouched. *)
Theorem update_page_data_success (env : Env) (m : MongoDBManager) (d : string)
    (n : Z) (sd ps kw : json) :
  snd (update_page_data env m d n sd ps kw) = true ->
  exists before p after,
    pages_collection m = Some (before ++ p :: after)
    /\ (forall q, q ∈ before -> ~ (doc_id q = d /\ page_num q = n))
    /\ doc_id p = d /\ page_num p = n
    /\ fst (update_page_data env m d n sd ps kw)
       = {| documents_collection := documents_collection m;
            pages_collection :=
              Some (before ++ set_page_fields (utcnow env n) sd ps kw p :: after);
            fs := fs m |}
    /\ doc_id (set_page_fields (utcnow env n) sd ps kw p) = d
    /\ page_num (set_page_fields (utcnow env n) sd ps kw p) = n
    /\ raw_text (set_page_fields (utcnow env n) sd ps kw p) = raw_text p
    /\ status (set_page_fields (utcnow env n) sd ps kw p) = "structured"
    /\ (sd = JNull ->
        structured_data (set_page_fields (utcnow env n) sd ps kw p)
        = structured_data p)
    /\ (sd <> JNull ->
        structured_data (set_page_fields (utcnow env n) sd ps kw p) = sd)
    /\ (ps = JNull ->
        page_summary (set_page_fields (utcnow env n) sd ps kw p) = page_summary p)
    /\ (ps <> JNull ->
        page_summary (set_page_fields (utcnow env n) sd ps kw p) = ps)
    /\ (kw = JNull ->
        keywords (set_page_fields (utcnow env n) sd ps kw p) = keywords p)
    /\ (kw <> JNull -> keywords (set_page_fields (utcnow env n) sd ps kw p) = kw)
    /\ updated_at (set_page_fields (utcnow env n) sd ps kw p) = Some (utcnow env n)
    /\ set_page_fields (utcnow env n) sd ps kw p <> p.
Proof.
  destruct (update_page_data_cases env m d n sd ps kw)
    as [[-> _] | (b & x & a & Hpc & Hr & Hb & Hxd & Hxn & ->)];
    cbn [fst snd]; [discriminate|].
  rewrite bool_decide_eq_true. intros Hne.
  exists b, x, a. split; [exact Hpc|].
  split.
  { intros q Hq Hm. rewrite Forall_forall in Hb. specialize (Hb q Hq).
    apply page_matches_spec in Hm. congruence. }
  split; [exact Hxd|]. split; [exact Hxn|]. split; [reflexivity|].
  destruct (set_page_fields_spec (utcnow env n) sd ps kw x)
    as (H1 & H2 & H3 & H4 & H5 & H6 & H7 & H8 & H9 & H10).
  rewrite H1, H2. repeat split; assumption.
Qed.

(** X4.  The legacy [update_structured_text] stores the structure and sets
    the status to [structured], and leaves the summary and the keywords
    of the page as they were.  So the page is one the skip rule of the
    batch loop skips exactly when it already had a non-empty summary. *)
Theorem update_structured_text_keeps_summary (env : Env) (m : MongoDBManager)
    (d : string) (n : Z) (sd : json) :
  snd (update_structured_text env m d n sd) = true ->
  exists before p p' after,
    pages_collection m = Some (before ++ p :: after)
    /\ doc_id p = d /\ page_num p = n
    /\ pages_collection (fst (update_structured_text env m d n sd))
       = Some (before ++ p' :: after)
    /\ status p' = "structured"
    /\ page_summary p' = page_summary p
    /\ keywords p' = keywords p
    /\ (sd <> JNull -> structured_data p' = sd)
    /\ should_skip p' = truthy (page_summary p).
Proof.
  unfold update_structured_text.
  destruct (update_page_data_cases env m d n sd JNull JNull)
    as [[-> _] | (b & x & a & Hpc & Hr & Hb & Hxd & Hxn & ->)];
    cbn [fst snd]; [discriminate|].
  intros _.
  exists b, x, (set_page_fields (utcnow env n) sd JNull JNull x), a.
  destruct (set_page_fields_spec (utcnow env n) sd JNull JNull x)
    as (_ & _ & _ & H4 & _ & H6 & H7 & _ & H9 & _).
  repeat split; auto.
Qed.

(** ** The status of a document *)

Section Counting.

Context {A : Type} (P Q : A -> Prop).
Context `{forall x, Decision (P x)} `{forall x, Decision (Q x)}.

Lemma length_filter_and (l : list A) :
  (length (filter (fun x => P x /\ Q x) l) <= length (filter P l))%nat.
Proof.
  induction l as [|x l IH]; [reflexivity|].
  rewrite !filter_cons.
  destruct (decide (P x /\ Q x)) as [[Hp Hq]|Hn].
  - destruct (decide (P x)); [simpl; lia | contradiction].
  - destruct (decide (P x)); simpl; lia.
Qed.

Lemma length_filter_and_eq (l : list A) :
  length (filter (fun x => P x /\ Q x) l) = length (filter P l)
  <-> forall x, x ∈ l -> P x -> Q x.
Proof.
  induction l as [|x l IH].
  - split; [intros _ x Hx; inversion Hx | reflexivity].
  - rewrite !filter_cons. pose proof (length_filter_and l) as Hle.
    destruct (decide (P x /\ Q x)) as [[Hp Hq]|Hn].
    + destruct (decide (P x)); [|contradiction]. simpl. split.
      * intros Hlen y Hy Hpy. apply elem_of_cons in Hy as [->|Hy]; [exact Hq|].
        apply IH; [lia | exact Hy | exact Hpy].
      * intros Hall. f_equal. apply IH. intros y Hy. apply Hall.
        apply list_elem_of_further, Hy.
    + destruct (decide (P x)) as [Hp|Hp]; simpl.
      * split; [lia|]. intros Hall. exfalso. apply Hn. split; [exact Hp|].
        apply Hall; [apply list_elem_of_here | exact Hp].
      * split.
        -- intros Hlen y Hy Hpy. apply elem_of_cons in Hy as [->|Hy]; [contradiction|].
           apply IH; assumption.
        -- intros Hall. apply IH. intros y Hy. apply Hall.
           apply list_elem_of_further, Hy.
Qed.

Lemma length_filter_pos (l : list A) :
  (0 < length (filter P l))%nat <-> exists x, x ∈ l /\ P x.
Proof.
  split.
  - destruct (filter P l) as [|x r] eqn:E; [simpl; lia|]. intros _.
    exists x. assert (Hin : x ∈ filter P l) by (rewrite E; apply list_elem_of_here).
    apply list_elem_of_filter in Hin. tauto.
  - intros (x & Hx & Hp).
    assert (Hin : x ∈ filter P l) by (apply list_elem_of_filter; auto).
    destruct (filter P l); [inversion Hin | simpl; lia].
Qed.

End Counting.

Lemma find_one_document_None (docs : list DocumentRecord) (d : string) :
  find_one_document docs d = None <-> forall r, r ∈ docs -> doc_doc_id r <> d.
Proof.
  unfold find_one_document. induction docs as [|r docs IH]; simpl.
  - split; [intros _ r Hr; inversion Hr | reflexivity].
  - destruct (String.eqb (doc_doc_id r) d) eqn:E.
    + apply String.eqb_eq in E. split; [discriminate|].
      intros H. exfalso. apply (H r); [apply list_elem_of_here | exact E].
    + apply String.eqb_neq in E. rewrite IH. split.
      * intros H x Hx. apply elem_of_cons in Hx as [->|Hx]; auto.
      * intros H x Hx. apply H, list_elem_of_further, Hx.
Qed.

Lemma find_one_document_Some (docs : list DocumentRecord) (d : string)
    (doc : DocumentRecord) :
  find_one_document docs d = Some doc ->
  exists before after,
    docs = before ++ doc :: after /\ doc_doc_id doc = d
    /\ forall r, r ∈ before -> doc_doc_id r <> d.
Proof.
  unfold find_one_document. induction docs as [|r docs IH]; simpl; [discriminate|].
  destruct (String.eqb (doc_doc_id r) d) eqn:E.
  - apply String.eqb_eq in E. intros [= <-]. exists [], docs.
    repeat split; auto. intros x Hx. inversion Hx.
  - apply String.eqb_neq in E. intros Hf.
    destruct (IH Hf) as (b & a & -> & Hd & Hb).
    exists (r :: b), a. repeat split; auto.
    intros x Hx. apply elem_of_cons in Hx as [->|Hx]; auto.
Qed.

Lemma length_find_pages (pages : list PageRecord) (d : string) :
  length (find_pages pages d) = length (filter (fun p => doc_id p = d) pages).
Proof.
  unfold find_pages. apply Permutation_length, merge_sort_Permutation.
Qed.

Lemma get_document_status_Some (env : Env) (m : MongoDBManager) (d : string)
    (s : DocumentStatus) (pages : list PageRecord) :
  get_document_status env m d = Some s ->
  pages_collection m = Some pages ->
  st_doc_id s = d
  /\ st_total_pages s = Z.of_nat (length (get_raw_text env m d))
  /\ 0 <= processed_pages s <= st_total_pages s
  /\ (processed_pages s = st_total_pages s <->
      forall p, p ∈ pages -> doc_id p = d -> status p = "structured")
  /\ (is_complete s = true <->
      (exists p, p ∈ pages /\ doc_id p = d)
      /\ forall p, p ∈ pages -> doc_id p = d -> status p = "structured").
Proof.
  unfold get_document_status, get_raw_text.
  destruct (documents_collection m) as [docs|]; [|discriminate].
  destruct (pages_collection m) as [pages0|]; [|discriminate].
  destruct (find_raises env); [discriminate|].
  destruct (find_one_document docs d) as [doc|]; [|discriminate].
  intros [= <-] [= <-].
  cbn [st_doc_id st_total_pages processed_pages is_complete].
  unfold count_documents.
  pose proof (length_filter_and (fun p => doc_id p = d)
                (fun p => status p = "structured") pages0) as Hle.
  pose proof (length_filter_and_eq (fun p => doc_id p = d)
                (fun p => status p = "structured") pages0) as Heq.
  pose proof (length_filter_pos (fun p => doc_id p = d) pages0) as Hpos.
  cbv beta in Hle, Heq, Hpos.
  split; [reflexivity|].
  split; [rewrite length_find_pages; reflexivity|].
  split; [lia|].
  split.
  { rewrite <- Heq. lia. }
  rewrite andb_true_iff, Z.eqb_eq, <- Heq, <- Hpos.
  rewrite Z.gtb_ltb, Z.ltb_lt. lia.
Qed.

Lemma get_document_status_None (env : Env) (m : MongoDBManager) (d : string) :
  get_document_status env m d = None <->
  documents_collection m = None \/ pages_collection m = None
  \/ find_raises env = true
  \/ exists docs, documents_collection m = Some docs
       /\ forall r, r ∈ docs -> doc_doc_id r <> d.
Proof.
  unfold get_document_status.
  destruct (documents_collection m) as [docs|]; [|tauto].
  destruct (pages_collection m) as [pages|]; [|tauto].
  destruct (find_raises env); [tauto|].
  destruct (find_one_document docs d) as [doc|] eqn:Hdoc.
  - split; [discriminate|].
    intros [H | [H | [H | (docs0 & [= <-] & Hno)]]]; try discriminate.
    apply find_one_document_None in Hno. congruence.
  - split; [|reflexivity]. intros _.
    right. right. right. exists docs. split; [reflexivity|].
    apply find_one_document_None, Hdoc.
Qed.

(** X5.  [get_document_status] gives [None] exactly when a collection is
    not connected, a read raises, or no document record has the
    identifier.  Otherwise [total_pages] is the number of pages
    [get_raw_text] returns, [processed_pages] lies between 0 and it, the
    two are equal exactly when every page of the document has status
    [structured], and [is_complete] holds exactly when in addition the
    document has at least one page. *)
Theorem get_document_status_counts (env : Env) (m : MongoDBManager) (d : string) :
  (get_document_status env m d = None <->
     documents_collection m = None \/ pages_collection m = None
     \/ find_raises env = true
     \/ exists docs, documents_collection m = Some docs
          /\ forall r, r ∈ docs -> doc_doc_id r <> d)
  /\ (forall s pages,
        get_document_status env m d = Some s ->
        pages_collection m = Some pages ->
        st_doc_id s = d
        /\ st_total_pages s = Z.of_nat (length (get_raw_text env m d))
        /\ 0 <= processed_pages s <= st_total_pages s
        /\ (processed_pages s = st_total_pages s <->
            forall p, p ∈ pages -> doc_id p = d -> status p = "structured")
        /\ (is_complete s = true <->
            (exists p, p ∈ pages /\ doc_id p = d)
            /\ forall p, p ∈ pages -> doc_id p = d -> status p = "structured")).
Proof.
  split; [apply get_document_status_None|].
  intros s pages. apply get_document_status_Some.
Qed.

(** X6.  After a run without a credential (storage working, page numbers
    unique, the document known and with at least one page)
    [get_document_status] reports the document complete, with all its
    pages processed, although every page holds the default structure,
    whose [processing_status] is [failed]; the document records are as
    before the run. *)
Theorem no_key_run_reports_complete (json_loads : string -> result json)
    (py_repr : json -> string) (self : AIProcessor) (env : Env) (d : string)
    (w : World) (docs : list DocumentRecord) (all : list PageRecord)
    (doc : DocumentRecord) :
  not_configured self = true ->
  documents_collection (db w) = Some docs ->
  pages_collection (db w) = Some all ->
  find_raises env = false ->
  (forall n, pages_update_one_raises env n = false) ->
  NoDup (map page_num (filter (fun q => doc_id q = d) all)) ->
  find_one_document docs d = Some doc ->
  (exists p, p ∈ all /\ doc_id p = d) ->
  let w1 := snd (process_document json_loads py_repr self env d w) in
  documents_collection (db w1) = Some docs
  /\ exists s,
       get_document_status env (db w1) d = Some s
       /\ is_complete s = true
       /\ processed_pages s = st_total_pages s
       /\ st_total_pages s
          = Z.of_nat (length (filter (fun q => doc_id q = d) all))
       /\ (forall p, p ∈ get_raw_text env (db w1) d ->
             structured_data p = JDict _get_default_structure)
       /\ tag_of _get_default_structure = JStr "failed".
Proof.
  intros Hc Hdocs Hall Hfind Hok Hnd Hdoc [p0 [Hp0 Hd0]] w1. unfold w1.
  rewrite (no_key_run json_loads py_repr self env d w all Hc Hall Hfind Hok Hnd).
  cbn [snd db documents_collection]. split; [exact Hdocs|].
  set (m1 := {| documents_collection := documents_collection (db w);
                pages_collection := Some (map (mark env d) all);
                fs := fs (db w) |}).
  destruct (get_document_status env m1 d) as [s|] eqn:Hs.
  2:{ exfalso. unfold get_document_status, m1 in Hs.
      cbn [documents_collection pages_collection] in Hs.
      rewrite Hdocs, Hfind, Hdoc in Hs. discriminate. }
  destruct (get_document_status_Some env m1 d s (map (mark env d) all) Hs eq_refl)
    as (_ & Htot & _ & Hproc & Hcomp).
  assert (Hstruct : forall p, p ∈ map (mark env d) all -> doc_id p = d ->
                      status p = "structured").
  { intros p Hp Hd. apply list_elem_of_fmap in Hp as (q & -> & Hq).
    unfold mark in *. destruct (String.eqb (doc_id q) d) eqn:E; [reflexivity|].
    apply String.eqb_neq in E. contradiction. }
  exists s. split; [reflexivity|].
  split.
  { apply Hcomp. split; [|exact Hstruct].
    exists (mark env d p0). split; [apply list_elem_of_fmap; eauto|].
    unfold mark. rewrite Hd0, String.eqb_refl. exact Hd0. }
  split; [apply Hproc, Hstruct|].
  split.
  { rewrite Htot. unfold get_raw_text, m1. cbn [pages_collection].
    rewrite Hfind, length_find_pages. f_equal.
    clear. induction all as [|q all IH]; [reflexivity|].
    cbn [map]. rewrite !filter_cons.
    assert (Hsame : doc_id (mark env d q) = doc_id q)
      by (unfold mark; destruct (String.eqb (doc_id q) d); reflexivity).
    rewrite Hsame. destruct (decide (doc_id q = d)); simpl; rewrite IH; reflexivity. }
  split; [|reflexivity].
  intros p Hp. apply get_raw_text_elem in Hp as (Hd & pages & Hpc & Hin).
  unfold m1 in Hpc. cbn [pages_collection] in Hpc. injection Hpc as <-.
  apply list_elem_of_fmap in Hin as (q & -> & Hq).
  unfold mark in *. destruct (String.eqb (doc_id q) d) eqn:E; [reflexivity|].
  apply String.eqb_neq in E. contradiction.
Qed.

(** ** Reading a document back *)

Lemma fold_merge_page_total (pages : list PageRecord) (u : UnifiedDoc) :
  let r := fold_left merge_page pages u in
  u_doc_id r = u_doc_id u /\ u_filename r = u_filename u
  /\ total_pages r = total_pages u
  /\ u_document_summary r = u_document_summary u
  /\ document_keywords r = document_keywords u.
Proof.
  revert u. induction pages as [|p pages IH]; intros u; simpl; [auto|].
  destruct (IH (merge_page u p)) as (H1 & H2 & H3 & H4 & H5).
  rewrite H1, H2, H3, H4, H5. clear.
  unfold merge_page.
  destruct (negb (truthy (structured_data p)) || negb (is_dict (structured_data p)));
    [auto|].
  destruct (structured_data p) as [ | | | | | |sd]; auto.
  unfold collect_tables, merge_key_fields, collect_measurements, collect_sections.
  destruct (dict_get "sections" (JList []) sd);
    destruct (dict_get "measurements" (JList []) sd);
    destruct (dict_get "key_fields" (JDict []) sd);
    destruct (dict_get "tables" (JList []) sd); auto.
Qed.

(** X7.  [create_document_structure] gives [None] exactly when
    [get_document_details] does, which is exactly when a collection is
    not connected, a read raises or the document is unknown.  Otherwise
    the aggregate carries the identifier asked for, the file name,
    summary and keywords of the first record with that identifier, and
    [total_pages] is the number of pages [get_raw_text] returns. *)
Theorem create_document_structure_found (env : Env) (m : MongoDBManager)
    (d : string) :
  (create_document_structure env m d = None <->
     get_document_details env m d = None)
  /\ (get_document_details env m d = None <->
        documents_collection m = None \/ pages_collection m = None
        \/ find_raises env = true
        \/ exists docs, documents_collection m = Some docs
             /\ forall r, r ∈ docs -> doc_doc_id r <> d)
  /\ (forall u, create_document_structure env m d = Some u ->
        exists doc pages,
          get_document_details env m d = Some (doc, pages)
          /\ doc_doc_id doc = d
          /\ pages = get_raw_text env m d
          /\ u_doc_id u = d
          /\ u_filename u = filename doc
          /\ total_pages u = Z.of_nat (length pages)
          /\ u_document_summary u = document_summary doc
          /\ document_keywords u = doc_keywords doc).
Proof.
  unfold create_document_structure.
  split.
  { destruct (get_document_details env m d) as [[doc pages]|];
      split; intros H; try discriminate; reflexivity. }
  split.
  { unfold get_document_details.
    destruct (documents_collection m) as [docs|]; [|tauto].
    destruct (pages_collection m) as [pages|]; [|tauto].
    destruct (find_raises env); [tauto|].
    destruct (find_one_document docs d) as [doc|] eqn:Hdoc.
    - split; [discriminate|].
      intros [H | [H | [H | (docs0 & [= <-] & Hno)]]]; try discriminate.
      apply find_one_document_None in Hno. congruence.
    - split; [|reflexivity]. intros _.
      right. right. right. exists docs. split; [reflexivity|].
      apply find_one_document_None, Hdoc. }
  intros u.
  destruct (get_document_details env m d) as [[doc pages]|] eqn:Hdet; [|discriminate].
  intros [= <-]. exists doc, pages.
  match goal with |- context [fold_left merge_page pages ?u0] =>
    destruct (fold_merge_page_total pages u0) as (H1 & H2 & H3 & H4 & H5) end.
  rewrite H1, H2, H3, H4, H5. cbn.
  unfold get_document_details, get_raw_text in *.
  destruct (documents_collection m) as [docs|]; [|discriminate].
  destruct (pages_collection m) as [all|]; [|discriminate].
  destruct (find_raises env); [discriminate|].
  destruct (find_one_document docs d) as [doc0|] eqn:Hdoc; [|discriminate].
  injection Hdet as <- <-.
  apply find_one_document_Some in Hdoc as (b & a & _ & Hd & _).
  repeat split; auto.
Qed.

(** ** Saving a document *)

Lemma filter_page_records_same (d : string) (l : list ExtractedPage) :
  filter (fun p => doc_id p = d) (map (page_record d) l) = map (page_record d) l.
Proof.
  induction l as [|x l IH]; [reflexivity|].
  cbn [map]. rewrite filter_cons. cbn [page_record doc_id] in *.
  destruct (decide (d = d)); [|contradiction]. f_equal. exact IH.
Qed.

Lemma filter_page_records_other (d d' : string) (l : list ExtractedPage) :
  d' <> d -> filter (fun p => doc_id p = d') (map (page_record d) l) = [].
Proof.
  intros Hne. induction l as [|x l IH]; [reflexivity|].
  cbn [map]. rewrite filter_cons. cbn [page_record doc_id] in *.
  destruct (decide (d = d')); [congruence|]. exact IH.
Qed.

Lemma filter_none {A} (P : A -> Prop) `{forall x, Decision (P x)} (l : list A) :
  (forall x, x ∈ l -> ~ P x) -> filter P l = [].
Proof.
  induction l as [|x l IH]; intros Hno; [reflexivity|].
  rewrite filter_cons. destruct (decide (P x)) as [Hp|Hp].
  - exfalso. apply (Hno x); [apply list_elem_of_here | exact Hp].
  - apply IH. intros y Hy. apply Hno, list_elem_of_further, Hy.
Qed.

(** A list already in strictly ascending page order is what the sorted
    read returns. *)
Lemma find_pages_exact (all l : list PageRecord) (d : string) :
  filter (fun p => doc_id p = d) all = l ->
  StronglySorted Z.lt (map page_num l) ->
  find_pages all d = l.
Proof.
  intros Hf Hs. unfold find_pages. rewrite Hf.
  assert (Hl : StronglySorted (fun p q => page_num p < page_num q) l).
  { clear -Hs. induction l as [|p l IH]; [constructor|].
    cbn [map] in Hs. apply StronglySorted_inv in Hs as [Hs Hall].
    constructor; [apply IH, Hs|].
    rewrite Forall_forall in Hall. rewrite Forall_forall. intros q Hq. apply Hall.
    apply list_elem_of_fmap. eauto. }
  apply (StronglySorted_unique_strong page_le).
  - intros x1 x2 H1 H2 H12 H21. unfold page_le in *.
    rewrite (merge_sort_Permutation page_le) in H1.
    clear -Hl H1 H2 H12 H21.
    induction Hl as [|p l Hl IH Hall]; [inversion H1|].
    rewrite Forall_forall in Hall.
    apply elem_of_cons in H1 as [->|H1]; apply elem_of_cons in H2 as [->|H2].
    + reflexivity.
    + specialize (Hall _ H2). lia.
    + specialize (Hall _ H1). lia.
    + apply IH; assumption.
  - apply StronglySorted_merge_sort; apply _.
  - clear -Hl. induction Hl as [|p l Hl IH Hall]; constructor; [exact IH|].
    eapply Forall_impl; [exact Hall|]. intros q Hq. unfold page_le. simpl in Hq. lia.
  - apply merge_sort_Permutation.
Qed.

Lemma save_pdf_with_pages_Some (wenv : WriteEnv) (m : MongoDBManager)
    (pdf_path fname : string) (pages_data : list ExtractedPage) (d : string) :
  snd (save_pdf_with_pages wenv m pdf_path fname pages_data) = Some d ->
  exists docs pages,
    documents_collection m = Some docs /\ pages_collection m = Some pages
    /\ d = uuid4 wenv /\ pages_data <> []
    /\ fst (save_pdf_with_pages wenv m pdf_path fname pages_data)
       = {| documents_collection :=
              Some (docs ++ [document_record d fname
                               (snd (upload_pdf wenv (fs m) pdf_path fname d))]);
            pages_collection := Some (pages ++ map (page_record d) pages_data);
            fs := fst (upload_pdf wenv (fs m) pdf_path fname d) |}.
Proof.
  unfold save_pdf_with_pages.
  destruct (pages_collection m) as [pages|]; [|discriminate].
  destruct (documents_collection m) as [docs|]; [|discriminate].
  destruct (upload_pdf wenv (fs m) pdf_path fname (uuid4 wenv)) as [files id] eqn:Hup.
  destruct (insert_one wenv); try discriminate.
  destruct pages_data as [|x l]; [discriminate|]. cbn [map].
  destruct (insert_many wenv); try discriminate.
  intros [= <-]. exists docs, pages. rewrite Hup. repeat split. discriminate.
Qed.

Lemma get_raw_text_filter (env : Env) (m m' : MongoDBManager) (d : string)
    (pages pages' : list PageRecord) :
  pages_collection m = Some pages -> pages_collection m' = Some pages' ->
  filter (fun p => doc_id p = d) pages' = filter (fun p => doc_id p = d) pages ->
  get_raw_text env m' d = get_raw_text env m d.
Proof.
  intros H H' Hf. unfold get_raw_text, find_pages. rewrite H, H', Hf. reflexivity.
Qed.

(** X8.  Saved pages read back.  When [save_pdf_with_pages] returns an
    identifier, it is the one drawn, [pages_data] was not empty, and
    (the identifier being fresh among the stored pages) [get_raw_text]
    returns exactly the records built from [pages_data]: up to order in
    general, and in the order given when the page numbers are strictly
    ascending.  Each has status [raw], an empty summary, no keywords and
    an empty structure, so none is a page the batch loop skips.  The
    pages of the other documents are read as before. *)
Theorem save_pdf_with_pages_round_trip (wenv : WriteEnv) (env : Env)
    (m : MongoDBManager) (pdf_path fname : string)
    (pages_data : list ExtractedPage) (d : string) :
  snd (save_pdf_with_pages wenv m pdf_path fname pages_data) = Some d ->
  (forall pages p, pages_collection m = Some pages -> p ∈ pages -> doc_id p <> d) ->
  find_raises env = false ->
  let m' := fst (save_pdf_with_pages wenv m pdf_path fname pages_data) in
  d = uuid4 wenv
  /\ pages_data <> []
  /\ get_raw_text env m' d ≡ₚ map (page_record d) pages_data
  /\ (StronglySorted Z.lt (map ex_page_num pages_data) ->
      get_raw_text env m' d = map (page_record d) pages_data
      /\ map raw_text (get_raw_text env m' d) = map ex_raw_text pages_data)
  /\ (forall p, p ∈ get_raw_text env m' d ->
        status p = "raw" /\ page_summary p = JStr "" /\ keywords p = JList []
        /\ structured_data p = JDict [] /\ should_skip p = false)
  /\ (forall d', d' <> d -> get_raw_text env m' d' = get_raw_text env m d').
Proof.
  intros Hs Hfresh Hfind m'. unfold m'.
  destruct (save_pdf_with_pages_Some wenv m pdf_path fname pages_data d Hs)
    as (docs & pages & Hdocs & Hpages & Hd & Hne & ->).
  set (docs' := Some (docs ++ [document_record d fname
                                 (snd (upload_pdf wenv (fs m) pdf_path fname d))])).
  set (files := fst (upload_pdf wenv (fs m) pdf_path fname d)).
  assert (Hfilter : filter (fun p => doc_id p = d)
                      (pages ++ map (page_record d) pages_data)
                    = map (page_record d) pages_data).
  { rewrite filter_app, filter_page_records_same.
    rewrite (filter_none (fun p => doc_id p = d) pages); [reflexivity|].
    intros p Hp. apply (Hfresh pages p Hpages Hp). }
  assert (Hraw : get_raw_text env
                   {| documents_collection := docs';
                      pages_collection := Some (pages ++ map (page_record d) pages_data);
                      fs := files |}
                   d ≡ₚ map (page_record d) pages_data).
  { unfold get_raw_text, find_pages. cbn [pages_collection].
    rewrite Hfind, Hfilter. apply merge_sort_Permutation. }
  split; [exact Hd|]. split; [exact Hne|]. split; [exact Hraw|].
  split.
  { intros Hsorted.
    assert (Heq : get_raw_text env
                    {| documents_collection := docs';
                       pages_collection := Some (pages ++ map (page_record d) pages_data);
                       fs := files |}
                    d = map (page_record d) pages_data).
    { unfold get_raw_text. cbn [pages_collection]. rewrite Hfind.
      apply find_pages_exact; [exact Hfilter|].
      rewrite map_map. exact Hsorted. }
    split; [exact Heq|]. rewrite Heq, map_map. reflexivity. }
  split.
  { intros p Hp. rewrite Hraw in Hp.
    apply list_elem_of_fmap in Hp as (x & -> & _). repeat split. }
  intros d' Hne'.
  eapply get_raw_text_filter; [exact Hpages | reflexivity |].
  rewrite filter_app, filter_page_records_other by exact Hne'.
  apply app_nil_r.
Qed.

Lemma find_one_document_fresh (docs : list DocumentRecord) (d : string)
    (r : DocumentRecord) :
  (forall x, x ∈ docs -> doc_doc_id x <> d) -> doc_doc_id r = d ->
  find_one_document (docs ++ [r]) d = Some r.
Proof.
  intros Hfresh Hr. unfold find_one_document.
  induction docs as [|x docs IH]; simpl.
  - rewrite Hr, String.eqb_refl. reflexivity.
  - destruct (String.eqb (doc_doc_id x) d) eqn:E.
    + apply String.eqb_eq in E. exfalso.
      apply (Hfresh x); [apply list_elem_of_here | exact E].
    + apply IH. intros y Hy. apply Hfresh, list_elem_of_further, Hy.
Qed.

(** X9.  Right after a successful save under a fresh identifier, the
    status of the document shows as many pages as were given, none
    processed, not complete, and a file exactly when the upload to
    GridFS went through; and [get_document_details] finds the new record
    with the saved pages. *)
Theorem saved_document_status (wenv : WriteEnv) (env : Env)
    (m : MongoDBManager) (pdf_path fname : string)
    (pages_data : list ExtractedPage) (d : string) :
  snd (save_pdf_with_pages wenv m pdf_path fname pages_data) = Some d ->
  (forall pages p, pages_collection m = Some pages -> p ∈ pages -> doc_id p <> d) ->
  (forall docs r, documents_collection m = Some docs -> r ∈ docs ->
     doc_doc_id r <> d) ->
  find_raises env = false ->
  let m' := fst (save_pdf_with_pages wenv m pdf_path fname pages_data) in
  let stored_id := snd (upload_pdf wenv (fs m) pdf_path fname d) in
  get_document_status env m' d
  = Some {| st_doc_id := d; st_filename := fname;
            st_total_pages := Z.of_nat (length pages_data);
            processed_pages := 0; is_complete := false;
            has_pdf_file := match stored_id with
                            | Some _ => true
                            | None => false
                            end |}
  /\ get_document_details env m' d
     = Some (document_record d fname stored_id, get_raw_text env m' d)
  /\ 0 < Z.of_nat (length pages_data).
Proof.
  intros Hs Hfresh Hfreshd Hfind m' stored_id. unfold m', stored_id.
  destruct (save_pdf_with_pages_Some wenv m pdf_path fname pages_data d Hs)
    as (docs & pages & Hdocs & Hpages & Hd & Hne & ->).
  set (id := snd (upload_pdf wenv (fs m) pdf_path fname d)).
  assert (Hfilter : filter (fun p => doc_id p = d)
                      (pages ++ map (page_record d) pages_data)
                    = map (page_record d) pages_data).
  { rewrite filter_app, filter_page_records_same.
    rewrite (filter_none (fun p => doc_id p = d) pages); [reflexivity|].
    intros p Hp. apply (Hfresh pages p Hpages Hp). }
  assert (Hfilter2 : filter (fun p => doc_id p = d /\ status p = "structured")
                       (pages ++ map (page_record d) pages_data) = []).
  { apply filter_none. intros p Hp [Hpd Hst].
    apply elem_of_app in Hp as [Hp|Hp].
    - apply (Hfresh pages p Hpages Hp Hpd).
    - apply list_elem_of_fmap in Hp as (x & -> & _). simpl in Hst. discriminate Hst. }
  assert (Hdoc : find_one_document (docs ++ [document_record d fname id]) d
                 = Some (document_record d fname id)).
  { apply find_one_document_fresh; [|reflexivity].
    intros x Hx. apply (Hfreshd docs x Hdocs Hx). }
  assert (Hlen : 0 < Z.of_nat (length pages_data)).
  { destruct pages_data; [congruence | simpl; lia]. }
  split.
  { unfold get_document_status, count_documents.
    cbn [documents_collection pages_collection].
    rewrite Hfind, Hdoc, Hfilter, Hfilter2, length_map.
    cbn [document_record filename pdf_file_id length].
    f_equal. f_equal.
    change (Z.of_nat 0) with 0.
    destruct (Z.of_nat (length pages_data) =? 0) eqn:E;
      [apply Z.eqb_eq in E; lia|].
    apply andb_false_r. }
  split; [|exact Hlen].
  unfold get_document_details, get_raw_text.
  cbn [documents_collection pages_collection].
  rewrite Hfind, Hdoc. reflexivity.
Qed.

(** What the upload does: the file is stored under the identifier GridFS
    gives it when it can be read, GridFS is there and the upload does
    not raise; otherwise nothing is stored and there is no reference. *)
Lemma upload_pdf_cases (wenv : WriteEnv) (files : option (list GridFile))
    (pdf_path fname d : string) :
  (forall data stored,
     open_file wenv pdf_path = Some data -> files = Some stored ->
     fs_put_raises wenv = false ->
     upload_pdf wenv files pdf_path fname d
     = (Some (stored ++ [ {| file_id := object_id wenv; file_filename := fname;
                             file_doc_id := d; file_data := data |} ]),
        Some (object_id wenv)))
  /\ (open_file wenv pdf_path = None \/ files = None \/ fs_put_raises wenv = true ->
      upload_pdf wenv files pdf_path fname d = (files, None))
  /\ (snd (upload_pdf wenv files pdf_path fname d) = None
      \/ snd (upload_pdf wenv files pdf_path fname d) = Some (object_id wenv))
  /\ (snd (upload_pdf wenv files pdf_path fname d) = None ->
      fst (upload_pdf wenv files pdf_path fname d) = files).
Proof.
  unfold upload_pdf.
  destruct (open_file wenv pdf_path) as [data|], files as [stored|],
    (fs_put_raises wenv); cbn [fst snd];
    repeat split; try (intros; discriminate); try (intros; reflexivity);
    try (intros data0 stored0 [= <-] [= <-] _; reflexivity);
    try (left; reflexivity); try (right; reflexivity);
    intros [H | [H | H]]; discriminate.
Qed.

(** X10.  [save_pdf_with_pages] returns [None] exactly when a collection
    is not connected, the insert of the document record raises,
    [pages_data] is empty, or the insert of the pages raises.  When a
    collection is not connected nothing is written.  Otherwise the
    upload to GridFS comes first and its file stays whatever follows:
    when the insert of the document record raises the two collections
    are as before, but the file has been stored; when [pages_data] is
    empty or the insert of the pages raises, the document record has
    been stored too and stays, without any page in the first case and
    with the pages stored before the failure in the second. *)
Theorem save_pdf_with_pages_failure (wenv : WriteEnv) (m : MongoDBManager)
    (pdf_path fname : string) (pages_data : list ExtractedPage) :
  let r := save_pdf_with_pages wenv m pdf_path fname pages_data in
  let up := upload_pdf wenv (fs m) pdf_path fname (uuid4 wenv) in
  (snd r = None <->
     pages_collection m = None \/ documents_collection m = None
     \/ insert_one wenv <> Written \/ pages_data = []
     \/ insert_many wenv <> Written)
  /\ (pages_collection m = None \/ documents_collection m = None -> fst r = m)
  /\ (forall docs pages,
        documents_collection m = Some docs -> pages_collection m = Some pages ->
        fs (fst r) = fst up
        /\ (insert_one wenv <> Written ->
            documents_collection (fst r) = Some docs
            /\ pages_collection (fst r) = Some pages)
        /\ (insert_one wenv = Written -> snd r = None ->
            documents_collection (fst r)
            = Some (docs ++ [document_record (uuid4 wenv) fname (snd up)])
            /\ exists stored,
                 pages_collection (fst r) = Some (pages ++ stored)
                 /\ stored `prefix_of` map (page_record (uuid4 wenv)) pages_data
                 /\ (pages_data = [] -> stored = [])))
  /\ (forall data stored,
        open_file wenv pdf_path = Some data -> fs m = Some stored ->
        fs_put_raises wenv = false ->
        up = (Some (stored ++ [ {| file_id := object_id wenv;
                                   file_filename := fname;
                                   file_doc_id := uuid4 wenv;
                                   file_data := data |} ]),
              Some (object_id wenv)))
  /\ (open_file wenv pdf_path = None \/ fs m = None \/ fs_put_raises wenv = true ->
      up = (fs m, None)).
Proof.
  cbv zeta.
  destruct (upload_pdf_cases wenv (fs m) pdf_path fname (uuid4 wenv))
    as (Hput & Hnot & _ & _).
  split; [|split; [|split; [|split; [exact Hput | exact Hnot]]]].
  - unfold save_pdf_with_pages.
    destruct (pages_collection m) as [pages|] eqn:Hp; [|cbn [snd]; tauto].
    destruct (documents_collection m) as [docs|] eqn:Hd; [|cbn [snd]; tauto].
    destruct (upload_pdf wenv (fs m) pdf_path fname (uuid4 wenv)) as [files id].
    destruct (insert_one wenv) eqn:Hone.
    2,3: (cbn [snd]; split; [intros _; right; right; left; discriminate | reflexivity]).
    destruct pages_data as [|x l]; cbn [map]; [cbn [snd]; tauto|].
    destruct (insert_many wenv) eqn:Hmany; cbn [snd].
    + split; [discriminate|]. intros [H | [H | [H | [H | H]]]]; congruence.
    + split; [intros _; right; right; right; right; discriminate | reflexivity].
    + split; [intros _; right; right; right; right; discriminate | reflexivity].
  - unfold save_pdf_with_pages. intros [H | H].
    + rewrite H. reflexivity.
    + rewrite H. destruct (pages_collection m); reflexivity.
  - intros docs pages Hd Hp. unfold save_pdf_with_pages. rewrite Hd, Hp.
    destruct (upload_pdf wenv (fs m) pdf_path fname (uuid4 wenv)) as [files id].
    cbn [fst snd].
    destruct (insert_one wenv) eqn:Hone.
    2,3: (cbn [fst snd fs documents_collection pages_collection];
          split; [reflexivity|]; split; [auto | discriminate]).
    destruct pages_data as [|x l]; cbn [map].
    { cbn [fst snd fs documents_collection pages_collection].
      split; [reflexivity|]. split; [congruence|]. intros _ _.
      split; [reflexivity|]. exists []. rewrite app_nil_r.
      split; [reflexivity|]. split; [apply prefix_nil | reflexivity]. }
    destruct (insert_many wenv) eqn:Hmany;
      cbn [fst snd fs documents_collection pages_collection];
      (split; [reflexivity|]); (split; [congruence|]); intros _ Hnone;
      try discriminate Hnone;
      (split; [reflexivity|]); eexists; (split; [reflexivity|]);
      (split; [|discriminate]);
      apply (prefix_take (page_record (uuid4 wenv) x :: map (page_record (uuid4 wenv)) l)).
Qed.

(** X11.  The legacy [save_pdf_pages] stores no file: GridFS is as it
    was, where [save_pdf_with_pages] has uploaded the file whenever the
    database is connected.  The pages written are the same, and so is
    the document record except for [pdf_file_id], which the legacy
    record has as [None]; the two collections agree entirely when the
    upload failed.  When the legacy method returns, it returns what
    [save_pdf_with_pages] returns.  It catches [OperationFailure] only:
    it raises exactly when the database is connected and one of the two
    inserts fails with another exception, where [save_pdf_with_pages]
    returns [None]. *)
Theorem save_pdf_pages_legacy (wenv : WriteEnv) (m : MongoDBManager)
    (pdf_path fname : string) (pages_data : list ExtractedPage) :
  let legacy := save_pdf_pages wenv m fname pages_data in
  let full := save_pdf_with_pages wenv m pdf_path fname pages_data in
  let up := upload_pdf wenv (fs m) pdf_path fname (uuid4 wenv) in
  fs (fst legacy) = fs m
  /\ ((exists docs pages,
         documents_collection m = Some docs /\ pages_collection m = Some pages) ->
      fs (fst full) = fst up)
  /\ pages_collection (fst legacy) = pages_collection (fst full)
  /\ ((documents_collection (fst legacy) = documents_collection m
       /\ documents_collection (fst full) = documents_collection m)
      \/ exists docs,
           documents_collection m = Some docs
           /\ documents_collection (fst legacy)
              = Some (docs ++ [document_record (uuid4 wenv) fname None])
           /\ documents_collection (fst full)
              = Some (docs ++ [document_record (uuid4 wenv) fname (snd up)]))
  /\ (snd up = None ->
      documents_collection (fst legacy) = documents_collection (fst full)
      /\ fst legacy = fst full)
  /\ (forall v, snd legacy = Ok v -> snd full = v)
  /\ (forall e, snd legacy = Raise e -> snd full = None)
  /\ ((exists e, snd legacy = Raise e) <->
        (exists docs pages,
           documents_collection m = Some docs /\ pages_collection m = Some pages)
        /\ (insert_one wenv = OtherFailure
            \/ (insert_one wenv = Written /\ pages_data <> []
                /\ insert_many wenv = OtherFailure))).
Proof.
  cbv zeta.
  pose proof (upload_pdf_cases wenv (fs m) pdf_path fname (uuid4 wenv))
    as (_ & _ & _ & Hkeep).
  unfold save_pdf_pages, save_pdf_with_pages.
  destruct (pages_collection m) as [pages|] eqn:Hp.
  2:{ cbn [fst snd]. rewrite Hp.
      split; [reflexivity|].
      split; [intros (docs & pages & _ & H); discriminate|].
      split; [reflexivity|]. split; [left; auto|]. split; [auto|].
      split; [intros v [= <-]; reflexivity|]. split; [reflexivity|].
      split; [intros [e He]; discriminate|].
      intros [(docs & pages & _ & H) _]. discriminate. }
  destruct (documents_collection m) as [docs|] eqn:Hd.
  2:{ cbn [fst snd]. rewrite Hp, Hd.
      split; [reflexivity|].
      split; [intros (docs & pages0 & H & _); discriminate|].
      split; [reflexivity|]. split; [left; auto|]. split; [auto|].
      split; [intros v [= <-]; reflexivity|]. split; [reflexivity|].
      split; [intros [e He]; discriminate|].
      intros [(docs & pages0 & H & _) _]. discriminate. }
  assert (Hconn : exists docs0 pages0,
             Some docs = Some docs0 /\ Some pages = Some pages0) by eauto.
  assert (Hm : {| documents_collection := Some docs; pages_collection := Some pages;
                  fs := fs m |} = m).
  { rewrite <- Hd, <- Hp. apply manager_eta. }
  destruct (upload_pdf wenv (fs m) pdf_path fname (uuid4 wenv)) as [files id].
  cbn [fst snd] in Hkeep |- *.
  destruct (insert_one wenv) eqn:Hone.
  - destruct pages_data as [|x l]; cbn [map].
    { cbn [fst snd fs documents_collection pages_collection].
      split; [reflexivity|]. split; [reflexivity|]. split; [reflexivity|].
      split; [right; exists docs; auto|].
      split; [intros ->; rewrite (Hkeep eq_refl); auto|].
      split; [intros v [= <-]; reflexivity|]. split; [reflexivity|].
      split; [intros [e He]; discriminate|].
      intros [_ [H | (_ & H & _)]]; congruence. }
    destruct (insert_many wenv) eqn:Hmany;
      cbn [fst snd fs documents_collection pages_collection];
      (split; [reflexivity|]); (split; [reflexivity|]); (split; [reflexivity|]);
      (split; [right; exists docs; auto|]);
      (split; [intros ->; rewrite (Hkeep eq_refl); auto|]).
    + split; [intros v [= <-]; reflexivity|]. split; [discriminate|].
      split; [intros [e He]; discriminate|].
      intros [_ [H | (_ & _ & H)]]; congruence.
    + split; [intros v [= <-]; reflexivity|]. split; [discriminate|].
      split; [intros [e He]; discriminate|].
      intros [_ [H | (_ & _ & H)]]; congruence.
    + split; [discriminate|]. split; [reflexivity|].
      split; [|eauto]. intros _. split; [exact Hconn|].
      right. repeat split; congruence.
  - cbn [fst snd fs documents_collection pages_collection]. rewrite Hp, Hd.
    split; [reflexivity|]. split; [reflexivity|]. split; [reflexivity|].
    split; [left; auto|].
    split; [intros ->; rewrite (Hkeep eq_refl), Hm; auto|].
    split; [intros v [= <-]; reflexivity|]. split; [reflexivity|].
    split; [intros [e He]; discriminate|].
    intros [_ [H | (H & _)]]; congruence.
  - cbn [fst snd fs documents_collection pages_collection]. rewrite Hp, Hd.
    split; [reflexivity|]. split; [reflexivity|]. split; [reflexivity|].
    split; [left; auto|].
    split; [intros ->; rewrite (Hkeep eq_refl), Hm; auto|].
    split; [discriminate|]. split; [reflexivity|].
    split; [|eauto]. intros _. split; [exact Hconn|]. left. reflexivity.
Qed.

(** ** Removing a document *)

Lemma delete_one_first {A} (g : A -> bool) (before after : list A) (x : A) :
  (forall y, y ∈ before -> g y = false) -> g x = true ->
  delete_one g (before ++ x :: after) = before ++ after
  /\ existsb g (before ++ x :: after) = true.
Proof.
  intros Hb Hx. induction before as [|y b IH]; simpl.
  - rewrite Hx. auto.
  - rewrite (Hb y (list_elem_of_here _ _)). simpl.
    destruct IH as [-> ->]; [|auto].
    intros z Hz. apply Hb, list_elem_of_further, Hz.
Qed.

Lemma filter_filter_other (d d' : string) (pages : list PageRecord) :
  d' <> d ->
  filter (fun p => doc_id p = d') (filter (fun p => doc_id p <> d) pages)
  = filter (fun p => doc_id p = d') pages.
Proof.
  intros Hne. induction pages as [|p pages IH]; [reflexivity|].
  rewrite !filter_cons.
  destruct (decide (doc_id p <> d)) as [Hp|Hp].
  - rewrite filter_cons. destruct (decide (doc_id p = d')); rewrite IH; reflexivity.
  - destruct (decide (doc_id p = d')) as [Hp'|Hp']; [|exact IH].
    exfalso. apply Hp. congruence.
Qed.

Lemma filter_filter_same (d : string) (pages : list PageRecord) :
  filter (fun p => doc_id p = d) (filter (fun p => doc_id p <> d) pages) = [].
Proof.
  apply filter_none. intros p Hp. apply list_elem_of_filter in Hp. tauto.
Qed.

(** The removal of the file touches GridFS only: the file of the record
    goes when the record has a reference, GridFS is there and the
    removal does not raise, and otherwise everything stays. *)
Lemma delete_file_of_cases (wenv : WriteEnv) (m : MongoDBManager)
    (doc : DocumentRecord) :
  documents_collection (delete_file_of wenv m doc) = documents_collection m
  /\ pages_collection (delete_file_of wenv m doc) = pages_collection m
  /\ (forall id stored,
        pdf_file_id doc = Some id -> id <> "" -> fs m = Some stored ->
        fs_delete_raises wenv = false ->
        fs (delete_file_of wenv m doc)
        = Some (filter (fun f => file_id f <> id) stored))
  /\ (pdf_file_id doc = None \/ pdf_file_id doc = Some "" \/ fs m = None
      \/ fs_delete_raises wenv = true ->
      delete_file_of wenv m doc = m).
Proof.
  unfold delete_file_of, delete_pdf_file.
  destruct (pdf_file_id doc) as [id|]; [|repeat split; intros; discriminate].
  destruct (String.eqb id "") eqn:E.
  { apply String.eqb_eq in E. subst id. repeat split. intros id stored [= <-] H. congruence. }
  apply String.eqb_neq in E.
  destruct (fs m) as [stored|] eqn:Hfs.
  2:{ repeat split. intros id0 stored0 _ _ H. discriminate. }
  destruct (fs_delete_raises wenv).
  { repeat split. intros id0 stored0 _ _ _ H. discriminate. }
  cbn [fst documents_collection pages_collection fs].
  split; [reflexivity|]. split; [reflexivity|]. split.
  - intros id0 stored0 [= <-] _ [= <-] _. reflexivity.
  - intros [H | [H | [H | H]]]; try discriminate. injection H as ->. congruence.
Qed.

Lemma delete_document_true (env : Env) (wenv : WriteEnv) (m : MongoDBManager)
    (d : string) :
  snd (delete_document env wenv m d) = true ->
  exists pages before doc after,
    pages_collection m = Some pages
    /\ documents_collection m = Some (before ++ doc :: after)
    /\ doc_doc_id doc = d
    /\ (forall r, r ∈ before -> doc_doc_id r <> d)
    /\ fst (delete_document env wenv m d)
       = {| documents_collection := Some (before ++ after);
            pages_collection := Some (filter (fun p => doc_id p <> d) pages);
            fs := fs (delete_file_of wenv m doc) |}.
Proof.
  unfold delete_document.
  destruct (documents_collection m) as [docs|]; [|discriminate].
  destruct (pages_collection m) as [pages|]; [|discriminate].
  destruct (find_raises env); [discriminate|].
  destruct (find_one_document docs d) as [doc|] eqn:Hdoc; [|discriminate].
  cbv zeta.
  destruct (delete_many_raises wenv); [discriminate|].
  destruct (delete_one_raises wenv); [discriminate|].
  intros _. apply find_one_document_Some in Hdoc as (b & a & -> & Hd & Hb).
  exists pages, b, doc, a.
  destruct (delete_one_first (fun r => String.eqb (doc_doc_id r) d) b a doc)
    as [Hdel _].
  { intros y Hy. apply String.eqb_neq, Hb, Hy. }
  { apply String.eqb_eq, Hd. }
  cbn [fst]. rewrite Hdel. repeat split; auto.
Qed.

(** X12.  When [delete_document] answers [True], the first record of the
    document is gone from the documents collection and every page of the
    document from the pages collection; [get_raw_text] then returns
    nothing for it, and for every other document what it returned
    before; and if no second record carried the identifier, the status,
    the details and the aggregate of the document are [None].  The file
    of the record is gone from GridFS when its removal went through; the
    answer does not depend on it, so GridFS is as it was when the record
    had no reference or the removal raised. *)
Theorem delete_document_removes (env : Env) (wenv : WriteEnv)
    (m : MongoDBManager) (d : string) :
  snd (delete_document env wenv m d) = true ->
  let m' := fst (delete_document env wenv m d) in
  exists pages before doc after,
    pages_collection m = Some pages
    /\ documents_collection m = Some (before ++ doc :: after)
    /\ doc_doc_id doc = d
    /\ (forall r, r ∈ before -> doc_doc_id r <> d)
    /\ documents_collection m' = Some (before ++ after)
    /\ pages_collection m' = Some (filter (fun p => doc_id p <> d) pages)
    /\ (forall env', get_raw_text env' m' d = [])
    /\ (forall env' d', d' <> d ->
          get_raw_text env' m' d' = get_raw_text env' m d')
    /\ ((forall r, r ∈ after -> doc_doc_id r <> d) ->
        forall env', get_document_status env' m' d = None
                     /\ get_document_details env' m' d = None
                     /\ create_document_structure env' m' d = None)
    /\ (forall id stored,
          pdf_file_id doc = Some id -> id <> "" -> fs m = Some stored ->
          fs_delete_raises wenv = false ->
          fs m' = Some (filter (fun f => file_id f <> id) stored)
          /\ get_pdf_file m' id = None)
    /\ (pdf_file_id doc = None \/ pdf_file_id doc = Some "" \/ fs m = None
        \/ fs_delete_raises wenv = true ->
        fs m' = fs m).
Proof.
  intros Hs m'. unfold m'.
  destruct (delete_document_true env wenv m d Hs)
    as (pages & b & doc & a & Hp & Hd & Hdoc & Hb & ->).
  destruct (delete_file_of_cases wenv m doc) as (_ & _ & Hgone & Hstay).
  exists pages, b, doc, a.
  split; [exact Hp|]. split; [exact Hd|]. split; [exact Hdoc|]. split; [exact Hb|].
  split; [reflexivity|]. split; [reflexivity|].
  split.
  { intros env'. unfold get_raw_text, find_pages. cbn [pages_collection].
    rewrite filter_filter_same. destruct (find_raises env'); reflexivity. }
  split.
  { intros env' d' Hne. eapply get_raw_text_filter; [exact Hp | reflexivity|].
    apply filter_filter_other, Hne. }
  split.
  { intros Ha env'.
    assert (Hnone : find_one_document (b ++ a) d = None).
    { apply find_one_document_None. intros r Hr.
      apply elem_of_app in Hr as [Hr|Hr]; auto. }
    unfold create_document_structure, get_document_status, get_document_details.
    cbn [documents_collection pages_collection]. rewrite Hnone.
    destruct (find_raises env'); auto. }
  split.
  - intros id stored Hid Hne Hfs Hr. cbn [fs].
    rewrite (Hgone id stored Hid Hne Hfs Hr). split; [reflexivity|].
    unfold get_pdf_file. cbn [fs].
    clear. induction stored as [|f stored IH]; [reflexivity|].
    rewrite filter_cons. destruct (decide (file_id f <> id)) as [Hf|Hf]; [|exact IH].
    cbn [List.find]. apply String.eqb_neq in Hf. rewrite Hf. exact IH.
  - intros Hcase. cbn [fs]. rewrite (Hstay Hcase). reflexivity.
Qed.

(** X13.  [delete_document] answers [False] exactly when a collection is
    not connected, the lookup raises, the document is unknown, or one of
    the two removals raises.  In the first three cases the database is
    as it was.  In the last the file of the record has already been
    removed from GridFS (when the record has a reference and that
    removal went through): if the removal of the pages raises the two
    collections are as they were, and if the removal of the document
    record raises the pages are gone and the record stays without any
    page, its status showing 0 pages and not complete. *)
Theorem delete_document_failure (env : Env) (wenv : WriteEnv)
    (m : MongoDBManager) (d : string) :
  let r := delete_document env wenv m d in
  (snd r = false <->
     documents_collection m = None \/ pages_collection m = None
     \/ find_raises env = true
     \/ (exists docs, documents_collection m = Some docs
           /\ forall x, x ∈ docs -> doc_doc_id x <> d)
     \/ delete_many_raises wenv = true \/ delete_one_raises wenv = true)
  /\ (documents_collection m = None \/ pages_collection m = None
      \/ find_raises env = true
      \/ (exists docs, documents_collection m = Some docs
            /\ forall x, x ∈ docs -> doc_doc_id x <> d) ->
      fst r = m)
  /\ (forall docs pages doc,
        documents_collection m = Some docs -> pages_collection m = Some pages ->
        find_raises env = false -> find_one_document docs d = Some doc ->
        fs (fst r) = fs (delete_file_of wenv m doc)
        /\ (delete_many_raises wenv = true ->
            documents_collection (fst r) = Some docs
            /\ pages_collection (fst r) = Some pages)
        /\ (delete_many_raises wenv = false -> delete_one_raises wenv = true ->
            documents_collection (fst r) = Some docs
            /\ pages_collection (fst r)
               = Some (filter (fun p => doc_id p <> d) pages)
            /\ forall env', find_raises env' = false ->
                 exists s, get_document_status env' (fst r) d = Some s
                           /\ st_total_pages s = 0 /\ is_complete s = false)
        /\ (forall id stored,
              pdf_file_id doc = Some id -> id <> "" -> fs m = Some stored ->
              fs_delete_raises wenv = false ->
              fs (fst r) = Some (filter (fun f => file_id f <> id) stored))
        /\ (pdf_file_id doc = None \/ pdf_file_id doc = Some "" \/ fs m = None
            \/ fs_delete_raises wenv = true ->
            fs (fst r) = fs m)).
Proof.
  cbv zeta. split; [|split].
  - unfold delete_document.
    destruct (documents_collection m) as [docs|] eqn:Hd; [|cbn [snd]; tauto].
    destruct (pages_collection m) as [pages|] eqn:Hp; [|cbn [snd]; tauto].
    destruct (find_raises env) eqn:Hf; [cbn [snd]; tauto|].
    destruct (find_one_document docs d) as [doc|] eqn:Hdoc.
    2:{ cbn [snd]. split; [|reflexivity]. intros _.
        right. right. right. left. exists docs. split; [reflexivity|].
        apply find_one_document_None, Hdoc. }
    cbv zeta.
    destruct (delete_many_raises wenv) eqn:Hmany; [cbn [snd]; tauto|].
    destruct (delete_one_raises wenv) eqn:Hone; cbn [snd]; [tauto|].
    pose proof Hdoc as Hdoc'.
    apply find_one_document_Some in Hdoc' as (b & a & -> & Hdd & Hb).
    destruct (delete_one_first (fun r => String.eqb (doc_doc_id r) d) b a doc)
      as [_ Hex].
    { intros y Hy. apply String.eqb_neq, Hb, Hy. }
    { apply String.eqb_eq, Hdd. }
    rewrite Hex. split; [discriminate|].
    intros [H | [H | [H | [(docs0 & [= <-] & Hno) | [H | H]]]]]; try discriminate.
    exfalso. apply (Hno doc); [|exact Hdd].
    apply elem_of_app. right. apply list_elem_of_here.
  - unfold delete_document. intros [H | [H | [H | (docs & Hd & Hno)]]].
    + rewrite H. reflexivity.
    + rewrite H. destruct (documents_collection m); reflexivity.
    + rewrite H. destruct (documents_collection m), (pages_collection m); reflexivity.
    + rewrite Hd. destruct (pages_collection m); [|reflexivity].
      destruct (find_raises env); [reflexivity|].
      rewrite (proj2 (find_one_document_None docs d) Hno). reflexivity.
  - intros docs pages doc Hd Hp Hf Hdoc.
    destruct (delete_file_of_cases wenv m doc) as (Hdc & Hpc & Hgone & Hstay).
    unfold delete_document. rewrite Hd, Hp, Hf, Hdoc. cbv zeta.
    destruct (delete_many_raises wenv) eqn:Hmany.
    { cbn [fst]. split; [reflexivity|].
      split; [intros _; rewrite Hdc, Hpc; auto|].
      split; [discriminate|].
      split; [exact Hgone|]. intros Hcase. rewrite (Hstay Hcase). reflexivity. }
    destruct (delete_one_raises wenv) eqn:Hone;
      cbn [fst fs documents_collection pages_collection].
    + split; [reflexivity|]. split; [discriminate|].
      split.
      { intros _ _. split; [reflexivity|]. split; [reflexivity|].
        intros env' Hf'.
        unfold get_document_status, count_documents.
        cbn [documents_collection pages_collection]. rewrite Hf', Hdoc.
        eexists. split; [reflexivity|].
        cbn [st_total_pages is_complete]. rewrite filter_filter_same. auto. }
      split; [exact Hgone|]. intros Hcase. rewrite (Hstay Hcase). reflexivity.
    + split; [reflexivity|]. split; [discriminate|]. split; [discriminate|].
      split; [exact Hgone|]. intros Hcase. rewrite (Hstay Hcase). reflexivity.
Qed.

Lemma filter_fresh {A} (P : A -> Prop) `{forall x, Decision (P x)} (l : list A) :
  (forall x, x ∈ l -> P x) -> filter P l = l.
Proof.
  induction l as [|x l IH]; intros Hall; [reflexivity|].
  rewrite filter_cons. destruct (decide (P x)) as [_|Hn].
  - f_equal. apply IH. intros y Hy. apply Hall, list_elem_of_further, Hy.
  - exfalso. apply Hn, Hall, list_elem_of_here.
Qed.

(** X14.  Saving a document under a fresh identifier and deleting it
    again, the reads and the removals from the two collections
    succeeding, answers [True] and gives back the two collections as
    they were.  It gives back the whole database, GridFS included, when
    no file was stored, or when the removal of the file goes through
    and the identifier GridFS gave it was fresh; and when the removal of
    a stored file raises, the answer is still [True] and the file stays
    behind. *)
Theorem save_then_delete_restores (wenv wenv' : WriteEnv) (env : Env)
    (m : MongoDBManager) (pdf_path fname : string)
    (pages_data : list ExtractedPage) (d : string) :
  snd (save_pdf_with_pages wenv m pdf_path fname pages_data) = Some d ->
  (forall pages p, pages_collection m = Some pages -> p ∈ pages -> doc_id p <> d) ->
  (forall docs r, documents_collection m = Some docs -> r ∈ docs ->
     doc_doc_id r <> d) ->
  find_raises env = false ->
  delete_many_raises wenv' = false ->
  delete_one_raises wenv' = false ->
  let saved := fst (save_pdf_with_pages wenv m pdf_path fname pages_data) in
  let up := upload_pdf wenv (fs m) pdf_path fname d in
  snd (delete_document env wenv' saved d) = true
  /\ documents_collection (fst (delete_document env wenv' saved d))
     = documents_collection m
  /\ pages_collection (fst (delete_document env wenv' saved d))
     = pages_collection m
  /\ (snd up = None
      \/ (fs_delete_raises wenv' = false /\ object_id wenv <> ""
          /\ forall stored f, fs m = Some stored -> f ∈ stored ->
               file_id f <> object_id wenv) ->
      delete_document env wenv' saved d = (m, true))
  /\ (snd up <> None -> fs_delete_raises wenv' = true ->
      fs (fst (delete_document env wenv' saved d)) = fst up
      /\ fst up <> fs m
      /\ exists f, get_pdf_file (fst (delete_document env wenv' saved d))
                     (object_id wenv) = Some f).
Proof.
  intros Hs Hfresh Hfreshd Hfind Hmany Hone saved0 up. subst saved0 up.
  destruct (save_pdf_with_pages_Some wenv m pdf_path fname pages_data d Hs)
    as (docs & pages & Hdocs & Hpages & Hd & Hne & ->).
  set (id := snd (upload_pdf wenv (fs m) pdf_path fname d)).
  set (files := fst (upload_pdf wenv (fs m) pdf_path fname d)).
  set (saved := {| documents_collection := Some (docs ++ [document_record d fname id]);
                   pages_collection := Some (pages ++ map (page_record d) pages_data);
                   fs := files |}).
  assert (Hfilter : filter (fun p => doc_id p <> d)
                      (pages ++ map (page_record d) pages_data) = pages).
  { rewrite filter_app.
    rewrite (filter_none (fun p => doc_id p <> d) (map (page_record d) pages_data)).
    - rewrite app_nil_r. apply filter_fresh. intros p Hp. apply (Hfresh pages p Hpages Hp).
    - intros p Hp Hn. apply list_elem_of_fmap in Hp as (x & -> & _).
      apply Hn. reflexivity. }
  assert (Hdel : delete_document env wenv' saved d
                 = ({| documents_collection := Some docs;
                       pages_collection := Some pages;
                       fs := fs (delete_file_of wenv' saved (document_record d fname id)) |},
                    true)).
  { unfold delete_document. cbn [documents_collection pages_collection saved].
    rewrite Hfind.
    rewrite (find_one_document_fresh docs d (document_record d fname id));
      [|intros x Hx; apply (Hfreshd docs x Hdocs Hx) | reflexivity].
    cbv zeta. rewrite Hmany, Hone.
    destruct (delete_one_first (fun r => String.eqb (doc_doc_id r) d) docs []
                (document_record d fname id)) as [Hdel Hex].
    { intros y Hy. apply String.eqb_neq. apply (Hfreshd docs y Hdocs Hy). }
    { apply String.eqb_refl. }
    rewrite Hdel, Hex, app_nil_r, Hfilter. reflexivity. }
  rewrite Hdel. cbn [fst snd documents_collection pages_collection fs].
  split; [reflexivity|]. split; [auto|]. split; [auto|].
  destruct (delete_file_of_cases wenv' saved (document_record d fname id))
    as (_ & _ & Hgone & Hstay).
  cbn [pdf_file_id document_record] in Hgone, Hstay.
  destruct (upload_pdf_cases wenv (fs m) pdf_path fname d) as (Hput & Hnot & Hid & Hkeep).
  fold id in Hid, Hkeep. fold files in Hkeep.
  assert (Hm : {| documents_collection := Some docs; pages_collection := Some pages;
                  fs := fs m |} = m).
  { rewrite <- Hdocs, <- Hpages. apply manager_eta. }
  split.
  - intros [Hnone | (Hr & Hne' & Hnew)].
    + rewrite (Hstay (or_introl Hnone)). cbn [saved fs].
      rewrite (Hkeep Hnone), Hm. reflexivity.
    + destruct Hid as [Hnone | Hsome].
      { rewrite (Hstay (or_introl Hnone)). cbn [saved fs].
        rewrite (Hkeep Hnone), Hm. reflexivity. }
      unfold id, files in *. unfold upload_pdf in *.
      destruct (open_file wenv pdf_path) as [data|]; [|discriminate Hsome].
      destruct (fs m) as [stored|] eqn:Hfs; [|discriminate Hsome].
      destruct (fs_put_raises wenv); [discriminate Hsome|].
      cbn [fst snd] in *.
      rewrite (Hgone (object_id wenv) _ eq_refl Hne' eq_refl Hr).
      rewrite filter_app, (filter_fresh _ stored).
      2:{ intros f Hf. apply (Hnew stored f eq_refl Hf). }
      rewrite filter_cons. cbn [file_id].
      destruct (decide (object_id wenv <> object_id wenv)) as [Hc|_]; [congruence|].
      rewrite filter_nil, app_nil_r, Hm. reflexivity.
  - intros Hsome Hr.
    rewrite (Hstay (or_intror (or_intror (or_intror Hr)))). cbn [saved fs].
    destruct Hid as [Hnone | Hid]; [contradiction|].
    unfold id, files in *. unfold upload_pdf in *. unfold get_pdf_file. cbn [fs].
    destruct (open_file wenv pdf_path) as [data|]; [|discriminate Hid].
    destruct (fs m) as [stored|] eqn:Hfs; [|discriminate Hid].
    destruct (fs_put_raises wenv); [discriminate Hid|].
    cbn [fst snd] in *.
    split; [reflexivity|]. split.
    + intros [= Heq]. apply (f_equal (@length GridFile)) in Heq.
      rewrite List.length_app in Heq. simpl in Heq. lia.
    + clear. induction stored as [|f stored IH]; cbn [app List.find file_id].
      * rewrite String.eqb_refl. eauto.
      * destruct (String.eqb (file_id f) (object_id wenv)); [eauto | exact IH].
Qed.

(** ** Extraction *)

Lemma extract_pages_Ok (self : PDFProcessor) (tools : Tools) (doc : list PageText) :
  forall (n : Z) (results : list ExtractedPage),
    extract_pages self tools n doc = Ok results ->
    length results = length doc
    /\ map ex_page_num results = seqZ n (Z.of_nat (length doc))
    /\ (forall p, p ∈ results -> text_length p = py_len (ex_raw_text p))
    /\ (forall (i : nat) p, results !! i = Some p ->
          exists text, doc !! i = Some (GetText text)
            /\ ex_page_num p = n + Z.of_nat i
            /\ ex_raw_text p = page_text self tools (n + Z.of_nat i) text).
Proof.
  induction doc as [|page rest IH]; intros n results Hr.
  - injection Hr as <-. repeat split; try reflexivity.
    + intros p Hp. inversion Hp.
    + intros i p Hp. rewrite lookup_nil in Hp. discriminate.
  - destruct page as [text|]; [|discriminate]. cbn [extract_pages] in Hr.
    destruct (extract_pages self tools (n + 1) rest) as [rs|e] eqn:Hrest;
      [|discriminate].
    cbn [rbind] in Hr. injection Hr as <-.
    destruct (IH (n + 1) rs Hrest) as (Hlen & Hnum & Htl & Hpt).
    split; [simpl; lia|].
    split.
    { cbn [map ex_page_num length]. rewrite Hnum.
      rewrite (seqZ_cons n (Z.of_nat (S (length rest)))) by lia.
      f_equal. f_equal; lia. }
    split.
    { intros p Hp. apply elem_of_cons in Hp as [->|Hp]; [reflexivity | auto]. }
    intros i p Hp. destruct i as [|i]; cbn [lookup list_lookup] in *.
    + injection Hp as <-. exists text. split; [reflexivity|].
      cbn [ex_page_num ex_raw_text]. rewrite Z.add_0_r. split; [reflexivity|].
      unfold page_text, is_text_scannable, default_threshold.
      destruct (use_ocrmypdf self); simpl.
      * rewrite andb_false_r. reflexivity.
      * rewrite andb_true_r. reflexivity.
    + destruct (Hpt i p Hp) as (t & Hd & Hn & Ht). exists t.
      split; [exact Hd|].
      replace (n + Z.of_nat (S i)) with (n + 1 + Z.of_nat i) by lia. auto.
Qed.

Lemma extract_pages_returns (self : PDFProcessor) (tools : Tools)
    (doc : list PageText) (n : Z) :
  (exists results, extract_pages self tools n doc = Ok results)
  <-> GetTextRaises ∉ doc.
Proof.
  revert n. induction doc as [|page rest IH]; intros n.
  - split; [intros _ H; inversion H | eauto].
  - destruct page as [text|]; cbn [extract_pages].
    + specialize (IH (n + 1)).
      destruct (extract_pages self tools (n + 1) rest) as [rs|e]; cbn [rbind].
      * split; [|eauto]. intros _ Hin.
        apply elem_of_cons in Hin as [Hin|Hin]; [discriminate|].
        apply (proj1 IH); eauto.
      * split; [intros [r Hr]; discriminate|].
        intros Hnot. apply IH. intros Hin. apply Hnot, list_elem_of_further, Hin.
    + split; [intros [r Hr]; discriminate|].
      intros Hnot. exfalso. apply Hnot, list_elem_of_here.
Qed.

Lemma StronglySorted_seqZ (m n : Z) : StronglySorted Z.lt (seqZ m n).
Proof.
  destruct (Z.le_gt_cases n 0) as [Hn|Hn]; [rewrite seqZ_nil by lia; constructor|].
  rewrite <- (Z2Nat.id n) by lia. generalize (Z.to_nat n) as k. clear.
  intros k. revert m. induction k as [|k IH]; intros m.
  - constructor.
  - rewrite seqZ_cons by lia.
    replace (Z.pred (Z.of_nat (S k))) with (Z.of_nat k) by lia.
    constructor; [apply IH|].
    apply Forall_seqZ. intros j Hj. lia.
Qed.

Lemma preprocess_cases (tools : Tools) (pdf_path : string) :
  (exists output_path,
     mkstemp tools = Some output_path /\ ocrmypdf tools = Completed 0
     /\ _preprocess_with_ocrmypdf tools pdf_path = (Ok output_path, []))
  \/ ((mkstemp tools = None \/ ocrmypdf tools <> Completed 0)
      /\ ((exists removed,
             _preprocess_with_ocrmypdf tools pdf_path = (Ok pdf_path, removed)
             /\ forall f, f ∈ removed ->
                  mkstemp tools = Some f /\ path_exists tools f = true
                  /\ remove_raises tools f = false)
          \/ (_preprocess_with_ocrmypdf tools pdf_path = (Raise OtherException, [])
              /\ exists output_path,
                   mkstemp tools = Some output_path
                   /\ path_exists tools output_path = true
                   /\ remove_raises tools output_path = true))).
Proof.
  unfold _preprocess_with_ocrmypdf.
  destruct (mkstemp tools) as [output_path|] eqn:Hmk.
  2:{ right. split; [left; reflexivity|]. left. exists [].
      split; [reflexivity|]. intros f Hf. inversion Hf. }
  assert (Hdiscard :
    ocrmypdf tools <> Completed 0 ->
    (Some output_path = None \/ ocrmypdf tools <> Completed 0)
    /\ ((exists removed,
           discard_output tools pdf_path output_path = (Ok pdf_path, removed)
           /\ forall f, f ∈ removed ->
                Some output_path = Some f /\ path_exists tools f = true
                /\ remove_raises tools f = false)
        \/ (discard_output tools pdf_path output_path = (Raise OtherException, [])
            /\ exists output_path0,
                 Some output_path = Some output_path0
                 /\ path_exists tools output_path0 = true
                 /\ remove_raises tools output_path0 = true))).
  { intros Hfail. split; [right; exact Hfail|]. unfold discard_output.
    destruct (path_exists tools output_path) eqn:Hex.
    - destruct (remove_raises tools output_path) eqn:Hrm.
      + right. split; [reflexivity|]. eauto.
      + left. exists [output_path]. split; [reflexivity|].
        intros f Hf. apply list_elem_of_singleton in Hf. subst f. auto.
    - left. exists []. split; [reflexivity|]. intros f Hf. inversion Hf. }
  destruct (ocrmypdf tools) as [rc| | |] eqn:Hrun;
    try (right; apply Hdiscard; discriminate).
  destruct (rc =? 0) eqn:Hrc.
  - apply Z.eqb_eq in Hrc. subst rc. left. eauto.
  - apply Z.eqb_neq in Hrc. right. apply Hdiscard. congruence.
Qed.

Lemma extract_Ok_inv (self : PDFProcessor) (tools : Tools) (pdf_path : string)
    (results : list ExtractedPage) :
  fst (extract_text_from_pdf self tools pdf_path) = Ok results ->
  exists processed_path removed doc,
    preprocess_if_needed self tools pdf_path = (Ok processed_path, removed)
    /\ fitz_open tools processed_path = Some doc
    /\ extract_pages self tools 1 doc = Ok results.
Proof.
  unfold extract_text_from_pdf, read_pages.
  destruct (preprocess_if_needed self tools pdf_path) as [[processed|e] removed];
    [|discriminate].
  destruct (fitz_open tools processed) as [doc|] eqn:Hopen; [|discriminate].
  cbn [fst]. intros Hr. exists processed, removed, doc. auto.
Qed.

(** The file read is the original, or the output of a successful run of
    OCRmyPDF. *)
Lemma preprocess_if_needed_Ok (self : PDFProcessor) (tools : Tools)
    (pdf_path processed_path : string) (removed : list string) :
  preprocess_if_needed self tools pdf_path = (Ok processed_path, removed) ->
  processed_path = pdf_path
  \/ (use_ocrmypdf self = true
      /\ _needs_ocr (fitz_open tools pdf_path) = true
      /\ mkstemp tools = Some processed_path
      /\ ocrmypdf tools = Completed 0).
Proof.
  unfold preprocess_if_needed.
  destruct (use_ocrmypdf self && _needs_ocr (fitz_open tools pdf_path)) eqn:Hgate.
  - apply andb_true_iff in Hgate as [Hu Hn].
    destruct (preprocess_cases tools pdf_path)
      as [(out & Hmk & Hrun & ->) | (_ & [(rm & -> & _) | (-> & _)])].
    + intros [= <- <-]. right. auto.
    + intros [= <- <-]. left. reflexivity.
    + discriminate.
  - intros [= <- <-]. left. reflexivity.
Qed.

Lemma preprocess_with_ocrmypdf_cases_removed (tools : Tools) (pdf_path : string) :
  forall f, f ∈ snd (_preprocess_with_ocrmypdf tools pdf_path) ->
    mkstemp tools = Some f.
Proof.
  destruct (preprocess_cases tools pdf_path)
    as [(out & _ & _ & ->) | (_ & [(rm & -> & Hrm) | (-> & _)])]; cbn [snd];
    intros f Hf; try (inversion Hf; fail).
  apply (Hrm f Hf).
Qed.

(** X15.  [_preprocess_with_ocrmypdf] returns the temporary file exactly
    when it could be created and OCRmyPDF exits with 0, and then removes
    nothing.  In every other case it falls back to the path it was
    given: when no temporary file could be created or none is left there
    is nothing to remove; a temporary file that is there is removed, and
    it is the only file removed; and when that removal raises the
    exception escapes and nothing is removed. *)
Theorem preprocess_with_ocrmypdf_fallback (tools : Tools) (pdf_path : string) :
  let r := _preprocess_with_ocrmypdf tools pdf_path in
  (forall out, mkstemp tools = Some out -> ocrmypdf tools = Completed 0 ->
     r = (Ok out, []))
  /\ (mkstemp tools = None \/ ocrmypdf tools <> Completed 0 ->
      fst r = Ok pdf_path
      \/ (r = (Raise OtherException, [])
          /\ exists out, mkstemp tools = Some out
               /\ path_exists tools out = true /\ remove_raises tools out = true))
  /\ (forall p, fst r = Ok p ->
        p = pdf_path \/ (mkstemp tools = Some p /\ ocrmypdf tools = Completed 0))
  /\ (forall f, f ∈ snd r ->
        mkstemp tools = Some f /\ ocrmypdf tools <> Completed 0)
  /\ (mkstemp tools = None -> r = (Ok pdf_path, []))
  /\ (forall out, mkstemp tools = Some out -> ocrmypdf tools <> Completed 0 ->
        (path_exists tools out = false -> r = (Ok pdf_path, []))
        /\ (path_exists tools out = true -> remove_raises tools out = false ->
            r = (Ok pdf_path, [out]))
        /\ (path_exists tools out = true -> remove_raises tools out = true ->
            r = (Raise OtherException, []))).
Proof.
  cbv zeta.
  split; [|split; [|split; [|split; [|split]]]].
  - intros out Hmk Hrun. unfold _preprocess_with_ocrmypdf. rewrite Hmk, Hrun.
    reflexivity.
  - destruct (preprocess_cases tools pdf_path)
      as [(out & Hmk & Hrun & ->) | (Hfail & [(rm & -> & Hrm) | (-> & Hraise)])];
      cbn [fst snd].
    + intros [H|H]; congruence.
    + intros _. left. reflexivity.
    + intros _. right. auto.
  - destruct (preprocess_cases tools pdf_path)
      as [(out & Hmk & Hrun & ->) | (Hfail & [(rm & -> & Hrm) | (-> & Hraise)])];
      cbn [fst snd].
    + intros p [= <-]. right. auto.
    + intros p [= <-]. left. reflexivity.
    + discriminate.
  - destruct (preprocess_cases tools pdf_path)
      as [(out & Hmk & Hrun & ->) | (Hfail & [(rm & -> & Hrm) | (-> & Hraise)])];
      cbn [fst snd]; intros f Hf; try (inversion Hf; fail).
    destruct (Hrm f Hf) as (Hmk & _).
    split; [exact Hmk|]. destruct Hfail as [Hn|Hn]; congruence.
  - intros Hmk. unfold _preprocess_with_ocrmypdf. rewrite Hmk. reflexivity.
  - intros out Hmk Hrun. unfold _preprocess_with_ocrmypdf, discard_output.
    rewrite Hmk.
    assert (Hcase : forall (A : Type) (x y : A),
               match ocrmypdf tools with
               | Completed returncode => if returncode =? 0 then x else y
               | _ => y
               end = y).
    { intros A x y. destruct (ocrmypdf tools) as [rc| | |]; try reflexivity.
      destruct (rc =? 0) eqn:E; [|reflexivity].
      apply Z.eqb_eq in E. subst rc. congruence. }
    rewrite Hcase.
    repeat split.
    + intros ->. reflexivity.
    + intros -> ->. reflexivity.
    + intros -> ->. reflexivity.
Qed.

(** X16.  When [extract_text_from_pdf] returns, there is one entry per
    page of the file that was read (the upload, or the output of a
    successful OCRmyPDF run when OCRmyPDF is in use and the sample calls
    for it), the entries are numbered 1, 2, ... in page order, and
    [text_length] is the length of [raw_text]. *)
Theorem extract_text_from_pdf_numbering (self : PDFProcessor) (tools : Tools)
    (pdf_path : string) (results : list ExtractedPage) :
  fst (extract_text_from_pdf self tools pdf_path) = Ok results ->
  map ex_page_num results = seqZ 1 (Z.of_nat (length results))
  /\ StronglySorted Z.lt (map ex_page_num results)
  /\ (forall p, p ∈ results -> text_length p = py_len (ex_raw_text p))
  /\ exists processed_path doc,
       fitz_open tools processed_path = Some doc
       /\ length results = length doc
       /\ (processed_path = pdf_path
           \/ (use_ocrmypdf self = true
               /\ _needs_ocr (fitz_open tools pdf_path) = true
               /\ mkstemp tools = Some processed_path
               /\ ocrmypdf tools = Completed 0)).
Proof.
  intros Hr.
  destruct (extract_Ok_inv self tools pdf_path results Hr)
    as (processed & removed & doc & Hpre & Hopen & Hpages).
  destruct (extract_pages_Ok self tools doc 1 results Hpages)
    as (Hlen & Hnum & Htl & _).
  split; [rewrite Hnum, Hlen; reflexivity|].
  split; [rewrite Hnum; apply StronglySorted_seqZ|].
  split; [exact Htl|].
  exists processed, doc. split; [exact Hopen|]. split; [exact Hlen|].
  eapply preprocess_if_needed_Ok, Hpre.
Qed.

(** X17.  Where the text of a page comes from.  With OCRmyPDF in use it is
    the text layer of the file read, however short: Tesseract is never
    called, even when the preprocessing failed and the upload itself is
    read.  Without OCRmyPDF the upload is read; a page whose text layer
    has at least 50 characters (not stripped) keeps it, and a shorter
    one gets what Tesseract reads from its rendering, or the text
    [[OCR FAILED]] when that raises. *)
Theorem extract_text_source (self : PDFProcessor) (tools : Tools)
    (pdf_path : string) (results : list ExtractedPage) :
  fst (extract_text_from_pdf self tools pdf_path) = Ok results ->
  exists processed_path doc,
    fitz_open tools processed_path = Some doc
    /\ (use_ocrmypdf self = false -> processed_path = pdf_path)
    /\ (forall (i : nat) p, results !! i = Some p ->
          exists text,
            doc !! i = Some (GetText text)
            /\ (use_ocrmypdf self = true -> ex_raw_text p = text)
            /\ (use_ocrmypdf self = false -> 50 <= py_len text ->
                ex_raw_text p = text)
            /\ (use_ocrmypdf self = false -> py_len text < 50 ->
                forall ocr_text,
                  image_to_string tools (ex_page_num p) = Some ocr_text ->
                  ex_raw_text p = ocr_text)
            /\ (use_ocrmypdf self = false -> py_len text < 50 ->
                image_to_string tools (ex_page_num p) = None ->
                ex_raw_text p = "[OCR FAILED]")).
Proof.
  intros Hr.
  destruct (extract_Ok_inv self tools pdf_path results Hr)
    as (processed & removed & doc & Hpre & Hopen & Hpages).
  destruct (extract_pages_Ok self tools doc 1 results Hpages)
    as (_ & _ & _ & Hpt).
  exists processed, doc. split; [exact Hopen|].
  split.
  { intros Hu. apply preprocess_if_needed_Ok in Hpre as [H | (H & _)];
      [exact H | congruence]. }
  intros i p Hp. destruct (Hpt i p Hp) as (text & Hd & Hn & Ht).
  exists text. split; [exact Hd|]. rewrite Ht, Hn. unfold page_text, _perform_ocr.
  split; [intros ->; reflexivity|].
  split.
  { intros -> Hlen. destruct (py_len text <? 50) eqn:E; [|reflexivity].
    apply Z.ltb_lt in E. lia. }
  split.
  { intros -> Hlen o Ho. rewrite (proj2 (Z.ltb_lt _ _) Hlen), Ho. reflexivity. }
  intros -> Hlen Ho. rewrite (proj2 (Z.ltb_lt _ _) Hlen), Ho. reflexivity.
Qed.

(** X18.  [extract_text_from_pdf] removes no file but the temporary one of
    OCRmyPDF, and none at all when OCRmyPDF is not in use; in particular
    never the upload, the temporary path being another one.  When a
    temporary file was produced and can be removed, it is removed,
    whether the pages are read or an exception is re-raised. *)
Theorem extract_removes_only_temporary (self : PDFProcessor) (tools : Tools)
    (pdf_path : string) :
  (forall f, f ∈ snd (extract_text_from_pdf self tools pdf_path) ->
     mkstemp tools = Some f /\ use_ocrmypdf self = true)
  /\ (mkstemp tools <> Some pdf_path ->
      pdf_path ∉ snd (extract_text_from_pdf self tools pdf_path))
  /\ (forall out removed,
        preprocess_if_needed self tools pdf_path = (Ok out, removed) ->
        out <> pdf_path -> path_exists tools out = true ->
        remove_raises tools out = false ->
        snd (extract_text_from_pdf self tools pdf_path) = [out]).
Proof.
  assert (Hall : forall f, f ∈ snd (extract_text_from_pdf self tools pdf_path) ->
                   mkstemp tools = Some f /\ use_ocrmypdf self = true).
  { unfold extract_text_from_pdf, read_pages.
    destruct (preprocess_if_needed self tools pdf_path) as [[processed|e] removed] eqn:Hpre.
    - assert (Hrm : forall f, f ∈ removed -> mkstemp tools = Some f /\ use_ocrmypdf self = true).
      { unfold preprocess_if_needed in Hpre.
        destruct (use_ocrmypdf self && _needs_ocr (fitz_open tools pdf_path)) eqn:Hgate.
        - apply andb_true_iff in Hgate as [Hu _].
          pose proof (preprocess_with_ocrmypdf_cases_removed tools pdf_path) as Hc.
          rewrite Hpre in Hc. cbn [snd] in Hc. intros f Hf. split; [apply Hc, Hf | exact Hu].
        - injection Hpre as <- <-. intros f Hf. inversion Hf. }
      pose proof (preprocess_if_needed_Ok self tools pdf_path processed removed Hpre) as Hproc.
      assert (Hcl : forall f,
                f ∈ (if negb (String.eqb processed pdf_path) && path_exists tools processed
                        && negb (remove_raises tools processed)
                     then [processed] else []) ->
                mkstemp tools = Some f /\ use_ocrmypdf self = true).
      { intros f Hf.
        destruct (negb (String.eqb processed pdf_path)) eqn:Hne; [|inversion Hf].
        cbn [andb] in Hf.
        destruct (path_exists tools processed && negb (remove_raises tools processed));
          [|inversion Hf].
        apply list_elem_of_singleton in Hf. subst f.
        destruct Hproc as [-> | (Hu & _ & Hmk & _)]; [|auto].
        rewrite String.eqb_refl in Hne. discriminate. }
      destruct (fitz_open tools processed); cbn [snd];
        intros f Hf; apply elem_of_app in Hf as [Hf|Hf]; auto.
    - cbn [snd]. unfold preprocess_if_needed in Hpre.
      destruct (use_ocrmypdf self && _needs_ocr (fitz_open tools pdf_path)) eqn:Hgate;
        [|discriminate].
      apply andb_true_iff in Hgate as [Hu _].
      pose proof (preprocess_with_ocrmypdf_cases_removed tools pdf_path) as Hc.
      rewrite Hpre in Hc. cbn [snd] in Hc. intros f Hf. split; [apply Hc, Hf | exact Hu]. }
  split; [exact Hall|].
  split.
  { intros Hne Hin. apply Hall in Hin as [Hmk _]. congruence. }
  intros out removed Hpre Hne Hex Hrm.
  unfold extract_text_from_pdf, read_pages. rewrite Hpre.
  assert (Hremoved : removed = []).
  { unfold preprocess_if_needed in Hpre.
    destruct (use_ocrmypdf self && _needs_ocr (fitz_open tools pdf_path));
      [|congruence].
    destruct (preprocess_cases tools pdf_path)
      as [(o & _ & _ & Heq) | (_ & [(rm & Heq & _) | (Heq & _)])];
      rewrite Heq in Hpre; congruence. }
  subst removed.
  apply String.eqb_neq in Hne. rewrite Hne, Hex, Hrm. cbn [negb andb app].
  destruct (fitz_open tools out); reflexivity.
Qed.

#[global] Instance PageText_eq_dec : EqDecision PageText.
Proof. solve_decision. Defined.

(** X19.  [extract_text_from_pdf] raises exactly when the removal of the
    temporary file after a failed OCRmyPDF run raises, or the file to
    read cannot be opened, or the text of one of its pages cannot be
    read: one unreadable page fails the whole document. *)
Theorem extract_text_from_pdf_raises (self : PDFProcessor) (tools : Tools)
    (pdf_path : string) :
  (exists e, fst (extract_text_from_pdf self tools pdf_path) = Raise e) <->
  (use_ocrmypdf self = true
   /\ _needs_ocr (fitz_open tools pdf_path) = true
   /\ ocrmypdf tools <> Completed 0
   /\ exists out, mkstemp tools = Some out /\ path_exists tools out = true
        /\ remove_raises tools out = true)
  \/ exists processed_path removed,
       preprocess_if_needed self tools pdf_path = (Ok processed_path, removed)
       /\ (fitz_open tools processed_path = None
           \/ exists doc, fitz_open tools processed_path = Some doc
                /\ GetTextRaises ∈ doc).
Proof.
  unfold extract_text_from_pdf, read_pages.
  destruct (preprocess_if_needed self tools pdf_path) as [[processed|e] removed] eqn:Hpre.
  - destruct (fitz_open tools processed) as [doc|] eqn:Hopen; cbn [fst].
    + pose proof (extract_pages_returns self tools doc 1) as Hret.
      split.
      * intros [e He]. right. exists processed, removed. split; [reflexivity|].
        right. exists doc. split; [exact Hopen|].
        destruct (decide (GetTextRaises ∈ doc)) as [Hin|Hnot]; [exact Hin|].
        apply Hret in Hnot as [r Hr]. congruence.
      * intros [(Hu & Hn & Hfail & out & Hmk & Hex & Hrm) | (p & r & [= <- <-] & Hcase)].
        -- exfalso. unfold preprocess_if_needed in Hpre. rewrite Hu, Hn in Hpre.
           cbn [andb] in Hpre.
           destruct (preprocess_cases tools pdf_path)
             as [(o & _ & Hrun & _) | (_ & [(rm & Heq & Hrmd) | (Heq & _)])];
             [congruence | | congruence].
           unfold _preprocess_with_ocrmypdf, discard_output in Heq.
           rewrite Hmk, Hex, Hrm in Heq.
           destruct (ocrmypdf tools) as [rc| | |]; try discriminate.
           destruct (rc =? 0) eqn:Hrc; [|discriminate].
           apply Z.eqb_eq in Hrc. congruence.
        -- destruct Hcase as [Hnone | (doc0 & Hd0 & Hin)]; [congruence|].
           rewrite Hopen in Hd0. injection Hd0 as <-.
           destruct (extract_pages self tools 1 doc) as [r0|e0] eqn:Hr; [|eauto].
           exfalso. apply (proj1 Hret); eauto.
    + split; [|eauto]. intros _. right. exists processed, removed. auto.
  - cbn [fst]. split; [|eauto]. intros _. left.
    unfold preprocess_if_needed in Hpre.
    destruct (use_ocrmypdf self) eqn:Hu; [|discriminate].
    destruct (_needs_ocr (fitz_open tools pdf_path)) eqn:Hn; [|discriminate].
    cbn [andb] in Hpre.
    destruct (preprocess_cases tools pdf_path)
      as [(o & _ & _ & Heq) | (Hfail & [(rm & Heq & _) | (_ & Hraise)])];
      [congruence | congruence |].
    repeat split; auto.
    destruct Hfail as [Hnone | Hfail]; [|exact Hfail].
    destruct Hraise as (out & Hmk & _). congruence.
Qed.

(** X20.  The upload path.  What [extract_text_from_pdf] returns, saved by
    [save_pdf_with_pages] under a fresh identifier, is read back by
    [get_raw_text] as pages numbered 1, 2, ... with the extracted texts
    in page order, all of them pages the batch loop will structure; and
    there is at least one. *)
Theorem upload_round_trip (self : PDFProcessor) (tools : Tools)
    (pdf_path : string) (wenv : WriteEnv) (env : Env) (m : MongoDBManager)
    (fname : string) (results : list ExtractedPage) (d : string) :
  fst (extract_text_from_pdf self tools pdf_path) = Ok results ->
  snd (save_pdf_with_pages wenv m pdf_path fname results) = Some d ->
  (forall pages p, pages_collection m = Some pages -> p ∈ pages -> doc_id p <> d) ->
  find_raises env = false ->
  let stored := get_raw_text env (fst (save_pdf_with_pages wenv m pdf_path fname results)) d in
  map page_num stored = seqZ 1 (Z.of_nat (length results))
  /\ map raw_text stored = map ex_raw_text results
  /\ (forall p, p ∈ stored -> status p = "raw" /\ should_skip p = false)
  /\ results <> [].
Proof.
  intros Hx Hs Hfresh Hfind stored. unfold stored.
  destruct (extract_Ok_inv self tools pdf_path results Hx)
    as (processed & removed & doc & _ & _ & Hpages).
  destruct (extract_pages_Ok self tools doc 1 results Hpages)
    as (Hlen & Hnum & _ & _).
  destruct (save_pdf_with_pages_Some wenv m pdf_path fname results d Hs)
    as (docs & pages & Hdocs & Hpc & Hd & Hne & ->).
  set (docs' := Some (docs ++ [document_record d fname
                                 (snd (upload_pdf wenv (fs m) pdf_path fname d))])).
  set (files := fst (upload_pdf wenv (fs m) pdf_path fname d)).
  assert (Heq : get_raw_text env
                  {| documents_collection := docs';
                     pages_collection := Some (pages ++ map (page_record d) results);
                     fs := files |}
                  d = map (page_record d) results).
  { unfold get_raw_text. cbn [pages_collection]. rewrite Hfind.
    apply find_pages_exact.
    - rewrite filter_app, filter_page_records_same.
      rewrite (filter_none (fun p => doc_id p = d) pages); [reflexivity|].
      intros p Hp. apply (Hfresh pages p Hpc Hp).
    - rewrite map_map. cbn [page_record page_num].
      change (map (fun x => ex_page_num x) results) with (map ex_page_num results).
      rewrite Hnum. apply StronglySorted_seqZ. }
  rewrite Heq, !map_map. cbn [page_record page_num raw_text].
  split.
  { change (map (fun x => ex_page_num x) results) with (map ex_page_num results).
    rewrite Hnum, Hlen. reflexivity. }
  split; [reflexivity|].
  split; [|exact Hne].
  intros p Hp. apply list_elem_of_fmap in Hp as (x & -> & _). split; reflexivity.
Qed.

(** X21.  [PDFProcessor()] raises exactly when OCRmyPDF is asked for and
    the version check raises something other than a timeout or a missing
    executable.  Otherwise OCRmyPDF is in use exactly when it was asked
    for and the check exits with 0; and a processor without it reads the
    upload itself and removes no file. *)
Theorem PDFProcessor_init_availability (tools : Tools) (requested : bool) :
  ((exists e, PDFProcessor_init tools requested = Raise e) <->
     requested = true /\ ocrmypdf_version tools = SubprocessRaises)
  /\ (forall self, PDFProcessor_init tools requested = Ok self ->
        (use_ocrmypdf self = true <->
           requested = true /\ ocrmypdf_version tools = Completed 0)
        /\ (use_ocrmypdf self = false ->
            forall pdf_path,
              extract_text_from_pdf self tools pdf_path
              = match fitz_open tools pdf_path with
                | None => (Raise OtherException, [])
                | Some doc => (extract_pages self tools 1 doc, [])
                end)).
Proof.
  unfold PDFProcessor_init, _check_ocrmypdf_available.
  destruct requested; cbn [negb].
  - destruct (ocrmypdf_version tools) as [rc| | |] eqn:Hv; cbn [rbind].
    + split.
      { split; [intros [e He]; discriminate | intros [_ H]; discriminate]. }
      intros self [= <-]. cbn [use_ocrmypdf]. split.
      * destruct (rc =? 0) eqn:Hrc.
        -- apply Z.eqb_eq in Hrc. subst rc. tauto.
        -- apply Z.eqb_neq in Hrc. split; [discriminate|].
           intros [_ H]. congruence.
      * intros Hu pdf_path. unfold extract_text_from_pdf, preprocess_if_needed, read_pages.
        cbn [use_ocrmypdf]. rewrite Hu. cbn [andb]. rewrite String.eqb_refl.
        cbn [negb andb app]. destruct (fitz_open tools pdf_path); reflexivity.
    + split.
      { split; [intros [e He]; discriminate | intros [_ H]; discriminate]. }
      intros self [= <-]. cbn [use_ocrmypdf]. split.
      * split; [discriminate | intros [_ H]; discriminate].
      * intros _ pdf_path. unfold extract_text_from_pdf, preprocess_if_needed, read_pages.
        cbn [use_ocrmypdf andb]. rewrite String.eqb_refl.
        cbn [negb andb app]. destruct (fitz_open tools pdf_path); reflexivity.
    + split.
      { split; [intros [e He]; discriminate | intros [_ H]; discriminate]. }
      intros self [= <-]. cbn [use_ocrmypdf]. split.
      * split; [discriminate | intros [_ H]; discriminate].
      * intros _ pdf_path. unfold extract_text_from_pdf, preprocess_if_needed, read_pages.
        cbn [use_ocrmypdf andb]. rewrite String.eqb_refl.
        cbn [negb andb app]. destruct (fitz_open tools pdf_path); reflexivity.
    + split; [split; eauto|]. discriminate.
  - cbn [rbind]. split.
    { split; [intros [e He]; discriminate | intros [H _]; discriminate]. }
    intros self [= <-]. cbn [use_ocrmypdf]. split.
    + split; [discriminate | intros [H _]; discriminate].
    + intros _ pdf_path. unfold extract_text_from_pdf, preprocess_if_needed, read_pages.
      cbn [use_ocrmypdf andb]. rewrite String.eqb_refl.
      cbn [negb andb app]. destruct (fitz_open tools pdf_path); reflexivity.
Qed.

(** ** The processor and its requests *)

Lemma py_lstrip_empty (s : string) :
  py_lstrip s = "" <-> str_forall py_isspace s = true.
Proof.
  induction s as [|c r IH]; simpl; [tauto|].
  destruct (py_isspace c); simpl; [exact IH|].
  split; discriminate.
Qed.

Lemma py_rstrip_empty (s : string) :
  py_rstrip s = "" <-> str_forall py_isspace s = true.
Proof.
  induction s as [|c r IH]; simpl; [tauto|].
  destruct (py_rstrip r) as [|c' r'] eqn:E.
  - destruct (py_isspace c); simpl.
    + split; [intros _; apply IH; reflexivity | reflexivity].
    + split; discriminate.
  - split; [discriminate|]. intros H. apply andb_true_iff in H as [_ H].
    apply IH in H. discriminate.
Qed.

Lemma py_lstrip_head (s : string) :
  py_lstrip s = ""
  \/ exists c r, py_lstrip s = String c r /\ py_isspace c = false.
Proof.
  induction s as [|c r IH]; simpl; [auto|].
  destruct (py_isspace c) eqn:E; [exact IH|]. right. eauto.
Qed.

Lemma is_blank_spec (raw : string) :
  is_blank raw = true <-> str_forall py_isspace raw = true.
Proof.
  unfold is_blank, py_strip.
  assert (Hlen : forall s, (py_len s =? 0) = true <-> s = "").
  { intros [|c r]; unfold py_len; simpl; split; try reflexivity; discriminate. }
  rewrite orb_true_iff, String.eqb_eq, Hlen, py_rstrip_empty.
  split.
  - intros [-> | H]; [reflexivity|].
    destruct (py_lstrip_head raw) as [He | (c & r & He & Hc)].
    + apply py_lstrip_empty, He.
    + rewrite He in H. simpl in H. rewrite Hc in H. discriminate.
  - intros H. right. apply py_lstrip_empty in H. rewrite H. reflexivity.
Qed.

(** X22.  [structure_text] never touches the database and sends at most
    one request.  It sends none when the processor is not configured,
    and none for a page that consists of whitespace only, which is what
    its blank test means. *)
Theorem structure_text_requests (json_loads : string -> result json)
    (self : AIProcessor) (env : Env) (raw : string) (max_chars : Z) (w : World) :
  let r := structure_text json_loads self env raw max_chars w in
  db (snd r) = db w
  /\ (log (snd r) = log w
      \/ exists text, log (snd r) = log w ++ [EvChat StructurePrompt text])
  /\ (not_configured self = true -> r = (Ok (default_tagged "no_api_key"), w))
  /\ (not_configured self = false -> str_forall py_isspace raw = true ->
      r = (Ok (default_tagged "empty_text"), w))
  /\ (is_blank raw = true <-> str_forall py_isspace raw = true).
Proof.
  cbv zeta.
  assert (Hblank := is_blank_spec raw).
  destruct (not_configured self) eqn:Hc.
  { unfold structure_text. rewrite Hc. cbn [ret fst snd].
    repeat split; auto; try discriminate; apply Hblank. }
  destruct (is_blank raw) eqn:Hb.
  { unfold structure_text. rewrite Hc, Hb. cbn [ret fst snd].
    repeat split; auto; try discriminate; apply Hblank. }
  destruct (text_to_process raw max_chars) as [text|e] eqn:Ht.
  - rewrite structure_text_configured; [|exact Hc | exact Hb | eauto].
    cbn [fst snd db log].
    split; [reflexivity|]. split; [eauto|]. split; [discriminate|].
    split; [|exact Hblank].
    intros _ Hs. apply Hblank in Hs. discriminate.
  - unfold structure_text. rewrite Hc, Hb, Ht. cbn [bind lift fst snd].
    split; [reflexivity|]. split; [auto|]. split; [discriminate|].
    split; [|exact Hblank].
    intros _ Hs. apply Hblank in Hs. discriminate.
Qed.

(** X23.  [AIProcessor(api_key)] is configured exactly when the argument
    or, failing that, the environment gives a non-empty key and the
    client could be built; a non-empty argument has precedence over the
    environment.  A processor that is not configured answers every
    [structure_text] call with the default structure tagged
    [no_api_key] and leaves the world as it is. *)
Theorem AIProcessor_init_configured (key env_key : option string)
    (openai_raises : bool) (mdl : string) :
  let self := AIProcessor_init key env_key openai_raises mdl in
  (not_configured self = false <->
     openai_raises = false
     /\ (str_or_none_truthy key = true \/ str_or_none_truthy env_key = true))
  /\ (str_or_none_truthy key = true -> api_key self = key)
  /\ (str_or_none_truthy key = false -> api_key self = env_key)
  /\ model self = mdl
  /\ (not_configured self = true ->
      forall json_loads env raw max_chars w,
        structure_text json_loads self env raw max_chars w
        = (Ok (default_tagged "no_api_key"), w)).
Proof.
  cbv zeta. split.
  { unfold not_configured, AIProcessor_init. cbn [api_key client].
    destruct key as [[|c k]|], env_key as [[|c' k']|], openai_raises;
      cbn; intuition discriminate. }
  split; [intros H; unfold AIProcessor_init; cbn [api_key]; rewrite H; reflexivity|].
  split; [intros H; unfold AIProcessor_init; cbn [api_key]; rewrite H; reflexivity|].
  split; [reflexivity|].
  intros Hn json_loads env raw max_chars w.
  unfold structure_text. rewrite Hn. reflexivity.
Qed.

(** ** Markdown fences *)

Lemma str_app_assoc (a b c : string) : (a +:+ b) +:+ c = a +:+ (b +:+ c).
Proof.
  induction a as [|x a IH]; [reflexivity|].
  change (String x ((a +:+ b) +:+ c) = String x (a +:+ (b +:+ c))).
  rewrite IH. reflexivity.
Qed.

Lemma str_app_nil_r (a : string) : a +:+ "" = a.
Proof.
  induction a as [|x a IH]; [reflexivity|].
  change (String x (a +:+ "") = String x a). rewrite IH. reflexivity.
Qed.

(** Text without the first character of [old] is copied as it is. *)
Lemma py_replace_from_no_first (c0 : ascii) (old' new a b : string) :
  str_forall (fun c => negb (Ascii.eqb c c0)) a = true ->
  py_replace_from (String c0 old') new O (a +:+ b)
  = a +:+ py_replace_from (String c0 old') new O b.
Proof.
  induction a as [|c a IH]; intros Ha; [reflexivity|].
  cbn [str_forall] in Ha. apply andb_true_iff in Ha as [Hc Ha].
  change (String c a +:+ b) with (String c (a +:+ b)).
  cbn [py_replace_from String.prefix].
  destruct (ascii_dec c0 c) as [->|_].
  - rewrite Ascii.eqb_refl in Hc. discriminate.
  - rewrite (IH Ha). reflexivity.
Qed.

Lemma str_forall_app (f : ascii -> bool) (a b : string) :
  str_forall f (a +:+ b) = str_forall f a && str_forall f b.
Proof.
  induction a as [|c a IH]; [reflexivity|].
  change (str_forall f (String c (a +:+ b))
          = f c && str_forall f a && str_forall f b).
  cbn [str_forall]. rewrite IH. apply andb_assoc.
Qed.

Lemma py_lstrip_app (s x : string) :
  py_lstrip (s +:+ x)
  = if str_forall py_isspace s then py_lstrip x else py_lstrip s +:+ x.
Proof.
  induction s as [|c s IH]; [reflexivity|].
  change (String c s +:+ x) with (String c (s +:+ x)).
  cbn [py_lstrip str_forall].
  destruct (py_isspace c); cbn [andb]; [exact IH | reflexivity].
Qed.

Lemma py_rstrip_nl (t : string) : py_rstrip (t +:+ nl) = py_rstrip t.
Proof.
  induction t as [|c t IH]; [reflexivity|].
  change (String c t +:+ nl) with (String c (t +:+ nl)).
  cbn [py_rstrip]. rewrite IH. reflexivity.
Qed.

Lemma py_strip_nl (s : string) : py_strip (nl +:+ s +:+ nl) = py_strip s.
Proof.
  unfold py_strip.
  change (py_lstrip (nl +:+ s +:+ nl)) with (py_lstrip (s +:+ nl)).
  rewrite py_lstrip_app.
  destruct (str_forall py_isspace s) eqn:E.
  - apply py_lstrip_empty in E. rewrite E. reflexivity.
  - apply py_rstrip_nl.
Qed.

(** X24.  A reply wrapped in a markdown fence, with or without the [json]
    tag, is cleaned to the same text as the bare reply, namely the reply
    stripped, provided the reply holds no backtick of its own. *)
Theorem clean_content_fenced (body : string) :
  str_forall (fun c => negb (Ascii.eqb c "`")) body = true ->
  clean_content body = py_strip body
  /\ clean_content ("```json" +:+ nl +:+ body +:+ nl +:+ "```") = py_strip body
  /\ clean_content ("```" +:+ nl +:+ body +:+ nl +:+ "```") = py_strip body.
Proof.
  intros Hb.
  assert (Hmid : str_forall (fun c => negb (Ascii.eqb c "`")) (nl +:+ body +:+ nl)
                 = true).
  { rewrite !str_forall_app, Hb. reflexivity. }
  assert (H1 : forall b, py_replace_from "```json" "" O ((nl +:+ body +:+ nl) +:+ b)
                 = (nl +:+ body +:+ nl) +:+ py_replace_from "```json" "" O b).
  { intros b. apply py_replace_from_no_first, Hmid. }
  assert (H2 : forall b, py_replace_from "```" "" O ((nl +:+ body +:+ nl) +:+ b)
                 = (nl +:+ body +:+ nl) +:+ py_replace_from "```" "" O b).
  { intros b. apply py_replace_from_no_first, Hmid. }
  assert (Hassoc : forall b, nl +:+ body +:+ nl +:+ b = (nl +:+ body +:+ nl) +:+ b).
  { intros b. rewrite !str_app_assoc. reflexivity. }
  unfold clean_content, py_replace.
  split.
  { rewrite <- (str_app_nil_r body) at 1.
    rewrite py_replace_from_no_first by exact Hb.
    cbn [py_replace_from]. rewrite str_app_nil_r.
    rewrite <- (str_app_nil_r body) at 1.
    rewrite py_replace_from_no_first by exact Hb.
    cbn [py_replace_from]. rewrite str_app_nil_r. reflexivity. }
  split.
  { rewrite Hassoc.
    change (py_replace_from "```json" "" O
              ("```json" +:+ (nl +:+ body +:+ nl) +:+ "```"))
      with (py_replace_from "```json" "" O ((nl +:+ body +:+ nl) +:+ "```")).
    rewrite H1.
    change (py_replace_from "```json" "" O "```") with "```".
    rewrite H2.
    change (py_replace_from "```" "" O "```") with "".
    rewrite str_app_nil_r. apply py_strip_nl. }
  rewrite Hassoc.
  change (py_replace_from "```json" "" O ("```" +:+ (nl +:+ body +:+ nl) +:+ "```"))
    with ("```" +:+ py_replace_from "```json" "" O ((nl +:+ body +:+ nl) +:+ "```")).
  rewrite H1.
  change (py_replace_from "```json" "" O "```") with "```".
  change (py_replace_from "```" "" O
            ("```" +:+ (nl +:+ body +:+ nl) +:+ "```"))
    with (py_replace_from "```" "" O ((nl +:+ body +:+ nl) +:+ "```")).
  rewrite H2.
  change (py_replace_from "```" "" O "```") with "".
  rewrite str_app_nil_r. apply py_strip_nl.
Qed.

(** ** The document summary and the document record *)

(** X25.  The context of the summarisation request has at most 12038
    characters: the joined page lines as they are up to 12000
    characters, and beyond that their first 6000 characters, the marker
    and their last 6000.  [generate_document_summary] leaves the
    database alone and sends at most that one request. *)
Theorem summary_context_bounded (py_repr : json -> string)
    (self : AIProcessor) (env : Env) (l : list json) (w : World) :
  let joined := py_join (nl +:+ nl) (page_lines py_repr 0 l) in
  let sent := summary_context py_repr l in
  py_len sent <= 12038
  /\ (py_len joined <= 12000 -> sent = joined)
  /\ (py_len joined > 12000 ->
      exists head tail,
        sent = head +:+ summary_marker +:+ tail
        /\ py_len head = 6000 /\ py_len tail = 6000
        /\ (exists rest, joined = head +:+ rest)
        /\ (exists rest, joined = rest +:+ tail))
  /\ (let w' := snd (generate_document_summary py_repr self env l w) in
      db w' = db w
      /\ (log w' = log w
          \/ log w' = log w ++ [EvChat SummaryPrompt (summary_request py_repr l)])).
Proof.
  cbv zeta. unfold summary_context.
  set (joined := py_join (nl +:+ nl) (page_lines py_repr 0 l)).
  assert (Hcases :
    (py_len joined <= 12000 /\ (py_len joined >? 12000) = false)
    \/ (py_len joined > 12000 /\ (py_len joined >? 12000) = true)).
  { destruct (py_len joined >? 12000) eqn:E.
    - right. rewrite Z.gtb_ltb in E. apply Z.ltb_lt in E. split; [lia | reflexivity].
    - left. rewrite Z.gtb_ltb in E. apply Z.ltb_ge in E. split; [lia | reflexivity]. }
  assert (Hlog : db (snd (generate_document_summary py_repr self env l w)) = db w
                 /\ (log (snd (generate_document_summary py_repr self env l w)) = log w
                     \/ log (snd (generate_document_summary py_repr self env l w))
                        = log w ++ [EvChat SummaryPrompt (summary_request py_repr l)])).
  { unfold generate_document_summary.
    destruct l as [|s1 [|s2 rest]]; [cbn; auto | cbn; auto |].
    unfold try_except. destruct (client self) as [c|]; [|cbn; auto].
    unfold bind, chat. fold (summary_request py_repr (s1 :: s2 :: rest)).
    destruct (chat_completions_create env (log w) SummaryPrompt _) as [[content|]|e];
      cbn [fst snd db log].
    - auto.
    - unfold lift. destruct (summary_fallback (s1 :: s2 :: rest)); cbn; auto.
    - unfold lift. destruct (summary_fallback (s1 :: s2 :: rest)); cbn; auto. }
  destruct Hcases as [[Hle ->] | [Hgt ->]].
  - split; [lia|]. split; [reflexivity|]. split; [lia | exact Hlog].
  - destruct (py_slice_to_head joined 6000 ltac:(lia)) as (Hl1 & Hp1).
    destruct (py_slice_from_tail joined 6000 ltac:(lia)) as (Hl2 & Hp2).
    change (Z.opp 6000) with (Z.neg 6000) in Hl2, Hp2.
    split.
    { rewrite !py_len_app, Hl1, Hl2.
      change (py_len summary_marker) with 38. lia. }
    split; [lia|]. split; [|exact Hlog].
    intros _. exists (py_slice_to joined 6000), (py_slice_from joined (-6000)).
    repeat split; assumption.
Qed.

Lemma take_30_length {A} (l : list A) : (length (take 30 l) <= 30)%nat.
Proof. rewrite length_take. lia. Qed.

Lemma generate_document_summary_world (py_repr : json -> string)
    (self : AIProcessor) (env : Env) (l : list json) (w : World) :
  snd (generate_document_summary py_repr self env l w) = w
  \/ snd (generate_document_summary py_repr self env l w)
     = {| db := db w;
          log := log w ++ [EvChat SummaryPrompt (summary_request py_repr l)] |}.
Proof.
  unfold generate_document_summary.
  destruct l as [|s1 [|s2 rest]]; [cbn; auto | cbn; auto |].
  unfold try_except. destruct (client self) as [c|]; [|cbn; auto].
  unfold bind, chat. fold (summary_request py_repr (s1 :: s2 :: rest)).
  destruct (chat_completions_create env (log w) SummaryPrompt _) as [[content|]|e];
    cbn [fst snd db log].
  - auto.
  - unfold lift. destruct (summary_fallback (s1 :: s2 :: rest)); cbn; auto.
  - unfold lift. destruct (summary_fallback (s1 :: s2 :: rest)); cbn; auto.
Qed.

(** The metadata build never raises; it sends at most the summarisation
    request, and either leaves the database as it was or rewrites the
    first record of the document with the summary that
    [generate_document_summary] gave. *)
Lemma update_document_metadata_run (py_repr : json -> string)
    (self : AIProcessor) (env : Env) (d : string) (sums kws : list json)
    (w : World) :
  exists w',
    _update_document_metadata py_repr self env d sums kws w = (Ok tt, w')
    /\ (log w' = log w
        \/ log w' = log w ++ [EvChat SummaryPrompt (summary_request py_repr sums)])
    /\ (db w' = db w
        \/ exists docs docs' summary keys,
             documents_collection (db w) = Some docs
             /\ fst (generate_document_summary py_repr self env sums w) = Ok summary
             /\ (exists len, py_len_json summary = Ok len)
             /\ dict_fromkeys [] kws = Ok keys
             /\ documents_update_one_raises env = false
             /\ update_one (fun r => String.eqb (doc_doc_id r) d)
                  (set_document_metadata summary (take 30 keys)) docs = Some docs'
             /\ db w' = {| documents_collection := Some docs';
                           pages_collection := pages_collection (db w);
                           fs := fs (db w) |}).
Proof.
  unfold _update_document_metadata, try_except.
  unfold bind at 1.
  pose proof (generate_document_summary_world py_repr self env sums w) as Hw1.
  assert (Hdb1 : db (snd (generate_document_summary py_repr self env sums w)) = db w)
    by (destruct Hw1 as [-> | ->]; reflexivity).
  assert (Hlog1 :
    log (snd (generate_document_summary py_repr self env sums w)) = log w
    \/ log (snd (generate_document_summary py_repr self env sums w))
       = log w ++ [EvChat SummaryPrompt (summary_request py_repr sums)])
    by (destruct Hw1 as [-> | ->]; auto).
  clear Hw1.
  destruct (generate_document_summary py_repr self env sums w)
    as [[doc_summary|e] w1]; cbn [fst snd] in Hdb1, Hlog1.
  2:{ eexists. split; [reflexivity|]. auto. }
  unfold bind at 1. unfold lift, unique_keywords.
  destruct (dict_fromkeys [] kws) as [keys|e] eqn:Hkeys; cbn [rbind].
  2:{ eexists. split; [reflexivity|]. auto. }
  rewrite bind_get_db. rewrite Hdb1.
  destruct (documents_collection (db w)) as [docs|] eqn:Hdocs.
  2:{ eexists. split; [reflexivity|]. auto. }
  unfold bind at 1.
  destruct (py_len_json doc_summary) as [len|e] eqn:Hlen.
  2:{ eexists. split; [reflexivity|]. auto. }
  destruct (documents_update_one_raises env) eqn:Hraise.
  { eexists. split; [reflexivity|]. auto. }
  destruct (update_one (fun r => String.eqb (doc_doc_id r) d)
              (set_document_metadata doc_summary (take 30 keys)) docs)
    as [docs'|] eqn:Hu.
  2:{ eexists. split; [reflexivity|]. auto. }
  eexists. split; [reflexivity|]. split; [exact Hlog1|]. right.
  exists docs, docs', doc_summary, keys. cbn [fst]. repeat split; eauto.
Qed.

(** X26.  [_update_document_metadata] never raises and never touches the
    pages or the files.  Either the database is as before (as it is when
    [generate_document_summary] raises, a keyword cannot be a dict key,
    the write raises or the collection is not connected), or the first
    record of the document has been rewritten with the summary that
    [generate_document_summary] returned for the page summaries given,
    the first occurrences of at most 30 keywords and the status
    [structured], keeping its identifier, its file name and its file
    reference, and nothing else has changed. *)
Theorem update_document_metadata_outcome (py_repr : json -> string)
    (self : AIProcessor) (env : Env) (d : string) (sums kws : list json)
    (w : World) :
  let r := _update_document_metadata py_repr self env d sums kws w in
  fst r = Ok tt
  /\ pages_collection (db (snd r)) = pages_collection (db w)
  /\ fs (db (snd r)) = fs (db w)
  /\ (db (snd r) = db w
      \/ exists before doc after summary unique,
           documents_collection (db w) = Some (before ++ doc :: after)
           /\ doc_doc_id doc = d
           /\ (forall x, x ∈ before -> doc_doc_id x <> d)
           /\ fst (generate_document_summary py_repr self env sums w) = Ok summary
           /\ unique_keywords kws = Ok unique
           /\ (length unique <= 30)%nat
           /\ documents_collection (db (snd r))
              = Some (before
                      ++ {| doc_doc_id := d; filename := filename doc;
                            pdf_file_id := pdf_file_id doc;
                            document_summary := summary;
                            doc_keywords := JList unique;
                            doc_status := "structured" |} :: after))
  /\ ((exists e, fst (generate_document_summary py_repr self env sums w) = Raise e)
      \/ dict_fromkeys [] kws = Raise TypeError
      \/ documents_update_one_raises env = true
      \/ documents_collection (db w) = None ->
      db (snd r) = db w).
Proof.
  cbv zeta.
  destruct (update_document_metadata_run py_repr self env d sums kws w)
    as (w' & -> & _ & Hcase). cbn [fst snd].
  split; [reflexivity|].
  destruct Hcase
    as [-> | (docs & docs' & summary & keys & Hdocs & Hsum & _ & Hkeys & Hr & Hu & ->)].
  { auto. }
  cbn [documents_collection pages_collection fs].
  split; [reflexivity|]. split; [reflexivity|].
  split; [|intros [[e He] | [H | [H | H]]]; congruence].
  right. apply update_one_Some in Hu as (b & x & a & -> & Hb & Hx & ->).
  apply String.eqb_eq in Hx.
  exists b, x, a, summary, (take 30 keys).
  split; [exact Hdocs|]. split; [exact Hx|].
  split.
  { intros y Hy. rewrite Forall_forall in Hb. apply String.eqb_neq, Hb, Hy. }
  split; [exact Hsum|].
  split; [unfold unique_keywords; rewrite Hkeys; reflexivity|].
  split; [apply take_30_length|].
  unfold set_document_metadata. rewrite Hx. reflexivity.
Qed.

(** ** The counters of a batch run *)






Lemma update_one_map {A B} (g : A -> bool) (f : A -> A) (h : A -> B)
    (l l' : list A) :
  (forall x, h (f x) = h x) -> update_one g f l = Some l' -> map h l' = map h l.
Proof.
  intros Hh Hu. apply update_one_Some in Hu as (b & x & a & -> & _ & _ & ->).
  rewrite !map_app. cbn [map]. rewrite Hh. reflexivity.
Qed.





(** ** What a run leaves alone *)

Lemma update_one_filter {A} (g : A -> bool) (f : A -> A) (P : A -> Prop)
    `{forall x, Decision (P x)} (l l' : list A) :
  (forall x, g x = true -> ~ P x /\ ~ P (f x)) ->
  update_one g f l = Some l' -> filter P l' = filter P l.
Proof.
  intros Hg Hu. apply update_one_Some in Hu as (b & x & a & -> & _ & Hx & ->).
  destruct (Hg x Hx) as [Hn Hn'].
  rewrite !filter_app, !filter_cons.
  destruct (decide (P (f x))); [contradiction|].
  destruct (decide (P x)); [contradiction|]. reflexivity.
Qed.

Lemma update_document_metadata_keeps (py_repr : json -> string)
    (self : AIProcessor) (env : Env) (d : string) (sums kws : list json)
    (Inv : MongoDBManager -> Prop) :
  (forall m docs docs' s u,
     Inv m -> documents_collection m = Some docs ->
     update_one (fun r => String.eqb (doc_doc_id r) d)
       (set_document_metadata s u) docs = Some docs' ->
     Inv {| documents_collection := Some docs';
            pages_collection := pages_collection m;
            fs := fs m |}) ->
  effect is_chat Inv (_update_document_metadata py_repr self env d sums kws).
Proof.
  intros Hdoc. unfold _update_document_metadata.
  apply effect_try_except; [|intros e; apply effect_ret].
  apply effect_bind; [apply generate_document_summary_effect|]. intros doc_summary.
  apply effect_bind; [apply effect_lift|]. intros unique.
  apply effect_get_db. intros m Hm.
  destruct (documents_collection m) as [docs|] eqn:Hdocs; [|apply effect_ret].
  apply effect_bind; [apply effect_lift|]. intros _.
  destruct (documents_update_one_raises env); [apply effect_raise|].
  destruct (update_one _ _ docs) as [docs'|] eqn:Hu; [|apply effect_ret].
  apply effect_put_db. eapply Hdoc; eauto.
Qed.

(** A property of the database kept by every write of a page of [d] and
    by the write of the document record of [d] is kept by a run on [d]. *)
Lemma process_document_effect (json_loads : string -> result json)
    (py_repr : json -> string) (self : AIProcessor) (env : Env) (d : string)
    (Inv : MongoDBManager -> Prop) :
  (forall m n sd ps kw, Inv m -> Inv (fst (update_page_data env m d n sd ps kw))) ->
  (forall m docs docs' s u,
     Inv m -> documents_collection m = Some docs ->
     update_one (fun r => String.eqb (doc_doc_id r) d)
       (set_document_metadata s u) docs = Some docs' ->
     Inv {| documents_collection := Some docs';
            pages_collection := pages_collection m;
            fs := fs m |}) ->
  effect (fun _ => True) Inv (process_document json_loads py_repr self env d).
Proof.
  intros Hpage Hdoc. unfold process_document.
  destruct (not_configured self).
  - apply effect_get_db. intros m Hm.
    apply effect_bind; [|intros _; apply effect_ret].
    apply effect_for_each. intros [] p Hp.
    apply effect_bind; [|intros _; apply effect_ret].
    apply update_page_effect. intros m' Hm'. apply Hpage, Hm'.
  - apply effect_get_db. intros m Hm.
    destruct (get_raw_text env m d) as [|p0 rest]; [apply effect_ret|].
    apply effect_bind.
    { apply effect_for_each. intros st p Hp w Hw.
      destruct (process_page_effect json_loads self env d Inv st p w)
        as (r & Hl & _ & Hi); [right; intros; apply Hpage; assumption | exact Hw |].
      exists (decision p :: r). split; [exact Hl|]. split; [|exact Hi].
      apply Forall_forall. auto. }
    intros st. apply effect_bind; [|intros _; apply effect_ret].
    destruct (all_summaries st); [apply effect_ret|].
    apply effect_bind; [apply effect_emit; exact I|]. intros _.
    apply (effect_weaken is_chat); [auto|].
    apply update_document_metadata_keeps, Hdoc.
Qed.

(** X28.  A run of [process_document], with or without a credential,
    returning or raising, only appends to the log, keeps every page
    record in its place with its document, number and text, keeps every
    document record in its place with its identifier and file name,
    leaves every record of another document exactly as it was, and does
    not touch the files. *)
Theorem process_document_frame (json_loads : string -> result json)
    (py_repr : json -> string) (self : AIProcessor) (env : Env) (d : string)
    (w : World) :
  let w' := snd (process_document json_loads py_repr self env d w) in
  (exists new, log w' = log w ++ new)
  /\ (map page_ident <$> pages_collection (db w'))
     = (map page_ident <$> pages_collection (db w))
  /\ (filter (fun p => doc_id p <> d) <$> pages_collection (db w'))
     = (filter (fun p => doc_id p <> d) <$> pages_collection (db w))
  /\ (map doc_ident <$> documents_collection (db w'))
     = (map doc_ident <$> documents_collection (db w))
  /\ (filter (fun r => doc_doc_id r <> d) <$> documents_collection (db w'))
     = (filter (fun r => doc_doc_id r <> d) <$> documents_collection (db w))
  /\ fs (db w') = fs (db w).
Proof.
  cbv zeta.
  destruct (process_document_effect json_loads py_repr self env d
              (same_frame d (db w))) with (w := w)
    as (new & Hl & _ & Hframe).
  - intros m n sd ps kw (F1 & F2 & F3 & F4 & F5). unfold same_frame, update_page_data.
    destruct (pages_collection m) as [pages|] eqn:Hpc;
      [|cbn [fst]; rewrite Hpc; auto].
    destruct (pages_update_one_raises env n);
      [cbn [fst]; rewrite Hpc; auto|].
    destruct (update_one _ _ pages) as [pages'|] eqn:Hu;
      [|cbn [fst]; rewrite Hpc; auto].
    cbn [fst pages_collection documents_collection fs].
    split; [|split; [|auto]].
    + rewrite <- F1. cbn [fmap option_fmap option_map]. f_equal.
      eapply update_one_map; [|exact Hu]. reflexivity.
    + rewrite <- F2. cbn [fmap option_fmap option_map]. f_equal.
      eapply update_one_filter; [|exact Hu].
      intros x Hx. apply page_matches_spec in Hx as [Hx _].
      cbn [set_page_fields doc_id]. tauto.
  - intros m docs docs' s u (F1 & F2 & F3 & F4 & F5) Hdocs Hu.
    unfold same_frame. cbn [pages_collection documents_collection fs].
    rewrite Hdocs in F3, F4.
    split; [exact F1|]. split; [exact F2|]. split; [|split; [|exact F5]].
    + rewrite <- F3. cbn [fmap option_fmap option_map]. f_equal.
      eapply update_one_map; [|exact Hu]. reflexivity.
    + rewrite <- F4. cbn [fmap option_fmap option_map]. f_equal.
      eapply update_one_filter; [|exact Hu].
      intros x Hx. apply String.eqb_eq in Hx.
      cbn [set_document_metadata doc_doc_id]. tauto.
  - unfold same_frame. repeat split; auto.
  - split; [eauto|]. exact Hframe.
Qed.

(** ** A run over a finished document *)

Lemma update_document_metadata_log (py_repr : json -> string)
    (self : AIProcessor) (env : Env) (d : string) (sums kws : list json)
    (w : World) :
  pages_collection (db (snd (_update_document_metadata py_repr self env d sums kws w)))
  = pages_collection (db w)
  /\ (log (snd (_update_document_metadata py_repr self env d sums kws w)) = log w
      \/ log (snd (_update_document_metadata py_repr self env d sums kws w))
         = log w ++ [EvChat SummaryPrompt (summary_request py_repr sums)]).
Proof.
  destruct (update_document_metadata_run py_repr self env d sums kws w)
    as (w' & -> & Hlog & Hdb). cbn [snd]. split; [|exact Hlog].
  destruct Hdb as [-> | (docs & docs' & s & k & _ & _ & _ & _ & _ & _ & ->)];
    reflexivity.
Qed.

Lemma requests_skips (p : Prompt) (l : list Event) :
  Forall is_skip l -> requests p l = [].
Proof.
  induction 1 as [|ev l Hev _ IH]; [reflexivity|].
  destruct ev; cbn in *; try contradiction. exact IH.
Qed.

(** A page the rule skips is recorded as skipped and nothing else
    happens. *)
Lemma process_page_skip (json_loads : string -> result json)
    (self : AIProcessor) (env : Env) (d : string) (st : LoopState)
    (p : PageRecord) (w : World) :
  should_skip p = true ->
  snd (process_page json_loads self env d st p w)
  = {| db := db w; log := log w ++ [EvSkip p] |}.
Proof.
  intros Hs. unfold process_page. fold (should_skip p). rewrite Hs, bind_emit.
  unfold bind.
  destruct (truthy (keywords p)).
  - unfold lift. destruct (py_extend (all_keywords st) (keywords p)); reflexivity.
  - reflexivity.
Qed.

Lemma skip_loop (json_loads : string -> result json)
    (self : AIProcessor) (env : Env) (d : string) (pages : list PageRecord) :
  (forall p, p ∈ pages -> should_skip p = true) ->
  forall (st : LoopState) (w : World),
    exists new,
      snd (for_each (process_page json_loads self env d) pages st w)
      = {| db := db w; log := log w ++ new |}
      /\ Forall is_skip new.
Proof.
  induction pages as [|p rest IH]; intros Hall st w.
  - exists []. cbn. rewrite app_nil_r. destruct w; auto.
  - cbn [for_each]. unfold bind.
    pose proof (process_page_skip json_loads self env d st p w
                  (Hall p (list_elem_of_here _ _))) as Hp.
    destruct (process_page json_loads self env d st p w) as [[st1|e] w1];
      cbn [snd] in Hp; subst w1.
    + destruct (IH (fun q Hq => Hall q (list_elem_of_further _ _ _ Hq)) st1
                  {| db := db w; log := log w ++ [EvSkip p] |}) as (new & -> & Hnew).
      exists (EvSkip p :: new). cbn [db log]. rewrite <- app_assoc.
      split; [reflexivity|]. constructor; [exact I | exact Hnew].
    + exists [EvSkip p]. split; [reflexivity|]. repeat constructor.
Qed.

(** X29.  A batch run over a document all of whose pages the skip rule
    skips leaves the pages collection exactly as it was, submits no page
    and sends no structuring request, and at most one summarisation
    request. *)
Theorem rerun_of_finished_document (json_loads : string -> result json)
    (py_repr : json -> string) (self : AIProcessor) (env : Env) (d : string)
    (w : World) :
  not_configured self = false ->
  (forall p, p ∈ get_raw_text env (db w) d -> should_skip p = true) ->
  let w' := snd (process_document json_loads py_repr self env d w) in
  pages_collection (db w') = pages_collection (db w)
  /\ exists new,
       log w' = log w ++ new
       /\ requests StructurePrompt new = []
       /\ (length (requests SummaryPrompt new) <= 1)%nat
       /\ (forall p, EvStructure p ∉ new).
Proof.
  intros Hc Hall.
  remember (process_document json_loads py_repr self env d w) as r eqn:Hr.
  cbv zeta. unfold process_document in Hr. rewrite Hc, bind_get_db in Hr.
  destruct (get_raw_text env (db w) d) as [|p0 rest] eqn:Hpages.
  { subst r. cbn [ret snd]. split; [reflexivity|]. exists [].
    rewrite app_nil_r. repeat split; auto.
    intros p Hp. inversion Hp. }
  cbv match in Hr. set (pages := p0 :: rest) in *.
  unfold bind at 1 in Hr.
  destruct (skip_loop json_loads self env d pages Hall
              {| all_summaries := []; all_keywords := [];
                 processed_count := 0; failed_count := 0 |} w)
    as (new1 & Hw1 & Hnew1).
  destruct (for_each (process_page json_loads self env d) pages _ w)
    as [[st|e] w1]; cbn [snd] in Hw1; subst w1.
  2:{ subst r. cbn [snd db log]. split; [reflexivity|]. exists new1.
      split; [reflexivity|].
      split; [apply requests_skips, Hnew1|].
      split; [rewrite requests_skips by exact Hnew1; simpl; lia|].
      intros p Hp. rewrite Forall_forall in Hnew1. apply (Hnew1 _ Hp). }
  set (w1 := {| db := db w; log := log w ++ new1 |}) in *.
  set (c := match all_summaries st with
            | [] => ret tt
            | _ :: _ =>
                emit (EvMetadata (all_summaries st) (all_keywords st)) ;;;
                _update_document_metadata py_repr self env d
                  (all_summaries st) (all_keywords st)
            end) in *.
  assert (Hmeta : exists new2,
            pages_collection (db (snd (c w1))) = pages_collection (db w)
            /\ log (snd (c w1)) = log w ++ new1 ++ new2
            /\ requests StructurePrompt new2 = []
            /\ (length (requests SummaryPrompt new2) <= 1)%nat
            /\ (forall p, EvStructure p ∉ new2)).
  { unfold c. destruct (all_summaries st) as [|s0 ss].
    - exists []. cbn. rewrite app_nil_r. repeat split; auto.
      intros p Hp. inversion Hp.
    - rewrite bind_emit.
      set (w2 := {| db := db w1;
                    log := log w1 ++ [EvMetadata (s0 :: ss) (all_keywords st)] |}).
      destruct (update_document_metadata_log py_repr self env d (s0 :: ss)
                  (all_keywords st) w2) as (Hpc & Hlog).
      destruct Hlog as [Hlog | Hlog].
      + exists [EvMetadata (s0 :: ss) (all_keywords st)].
        split; [rewrite Hpc; reflexivity|].
        split; [rewrite Hlog; unfold w2, w1; cbn; rewrite <- app_assoc; reflexivity|].
        split; [reflexivity|]. split; [simpl; lia|].
        intros p Hp. apply list_elem_of_singleton in Hp. discriminate.
      + exists [EvMetadata (s0 :: ss) (all_keywords st);
                EvChat SummaryPrompt (summary_request py_repr (s0 :: ss))].
        split; [rewrite Hpc; reflexivity|].
        split; [rewrite Hlog; unfold w2, w1; cbn; rewrite <- !app_assoc; reflexivity|].
        split; [reflexivity|]. split; [simpl; lia|].
        intros p Hp. apply elem_of_cons in Hp as [Hp|Hp]; [discriminate|].
        apply list_elem_of_singleton in Hp. discriminate. }
  destruct Hmeta as (new2 & Hpc & Hlog & Hr1 & Hr2 & Hns).
  assert (Hfinal : pages_collection (db (snd (c w1))) = pages_collection (db w)
                   /\ exists new,
                        log (snd (c w1)) = log w ++ new
                        /\ requests StructurePrompt new = []
                        /\ (length (requests SummaryPrompt new) <= 1)%nat
                        /\ (forall p, EvStructure p ∉ new)).
  { split; [exact Hpc|]. exists (new1 ++ new2). split; [exact Hlog|].
    rewrite !requests_app, Hr1, !requests_skips by exact Hnew1.
    split; [reflexivity|]. split; [exact Hr2|].
    intros p Hp. apply elem_of_app in Hp as [Hp|Hp].
    - rewrite Forall_forall in Hnew1. apply (Hnew1 _ Hp).
    - apply (Hns p Hp). }
  unfold bind in Hr. destruct (c w1) as [[[]|e] w2]; subst r; exact Hfinal.
Qed.

(** ** The upload filter *)

Lemma str_contains_dot (s : string) :
  str_contains "." s = match after_last_dot s with Some _ => true | None => false end.
Proof.
  induction s as [|c r IH]; [reflexivity|].
  cbn [str_contains after_last_dot String.prefix]. rewrite IH.
  destruct (after_last_dot r) as [ext|].
  - apply orb_true_r.
  - rewrite orb_false_r. destruct (ascii_dec "." c) as [<-|Hne].
    + destruct r; reflexivity.
    + destruct (Ascii.eqb c ".") eqn:E; [|reflexivity].
      apply Ascii.eqb_eq in E. congruence.
Qed.

Lemma after_last_dot_spec (s ext : string) :
  after_last_dot s = Some ext <->
  exists stem, s = stem +:+ "." +:+ ext /\ str_contains "." ext = false.
Proof.
  revert ext. induction s as [|c r IH]; intros ext.
  - split; [discriminate|]. intros (stem & H & _). destruct stem; discriminate.
  - cbn [after_last_dot]. destruct (after_last_dot r) as [e|] eqn:Hr.
    + split.
      * intros [= ->]. destruct (proj1 (IH ext) eq_refl) as (stem & -> & Hno).
        exists (String c stem). split; [reflexivity | exact Hno].
      * intros (stem & Hs & Hno). destruct stem as [|c' stem].
        -- change ("" +:+ "." +:+ ext) with (String "." ext) in Hs.
           injection Hs as -> ->.
           rewrite str_contains_dot, Hr in Hno. discriminate.
        -- change (String c' stem +:+ "." +:+ ext)
             with (String c' (stem +:+ "." +:+ ext)) in Hs.
           injection Hs as -> ->. f_equal.
           assert (H : Some e = Some ext) by (apply IH; eauto).
           congruence.
    + split.
      * destruct (Ascii.eqb c ".") eqn:E; [|discriminate].
        apply Ascii.eqb_eq in E. subst c. intros [= ->].
        exists "". split; [reflexivity|]. rewrite str_contains_dot, Hr. reflexivity.
      * intros (stem & Hs & Hno). destruct stem as [|c' stem].
        -- change ("" +:+ "." +:+ ext) with (String "." ext) in Hs.
           injection Hs as -> ->. reflexivity.
        -- change (String c' stem +:+ "." +:+ ext)
             with (String c' (stem +:+ "." +:+ ext)) in Hs.
           injection Hs as -> ->.
           assert (H : None = Some ext) by (apply IH; eauto).
           discriminate.
Qed.

Lemma ascii_lower_letter (c x : ascii) :
  x = "p"%char \/ x = "d"%char \/ x = "f"%char ->
  ascii_lower c = x <-> c = x \/ c = ascii_of_nat (nat_of_ascii x - 32).
Proof.
  intros [-> | [-> | ->]];
    destruct c as [[] [] [] [] [] [] [] []]; vm_compute;
    split; intros H; try discriminate; auto;
    destruct H as [H|H]; discriminate.
Qed.

Lemma py_lower_pdf (ext : string) :
  py_lower ext = "pdf" <->
  ext ∈ ["pdf"; "pdF"; "pDf"; "pDF"; "Pdf"; "PdF"; "PDf"; "PDF"].
Proof.
  split.
  - destruct ext as [|a [|b [|c [|x r]]]]; try discriminate.
    cbn [py_lower]. intros [= Ha Hb Hc].
    apply (ascii_lower_letter a "p") in Ha; [|auto].
    apply (ascii_lower_letter b "d") in Hb; [|auto].
    apply (ascii_lower_letter c "f") in Hc; [|auto].
    cbn in Ha, Hb, Hc.
    destruct Ha as [-> | ->], Hb as [-> | ->], Hc as [-> | ->];
      repeat (first [apply list_elem_of_here | apply list_elem_of_further]).
  - intros H. repeat (apply elem_of_cons in H as [-> | H]; [reflexivity|]).
    inversion H.
Qed.

(** X30.  [allowed_file] accepts exactly the names whose part after the
    last dot is [pdf] in any mix of cases; a name without a dot is
    refused. *)
Theorem allowed_file_pdf (filename : string) :
  (allowed_file filename = true <->
     exists stem ext,
       filename = stem +:+ "." +:+ ext
       /\ str_contains "." ext = false
       /\ py_lower ext = "pdf")
  /\ (forall ext, py_lower ext = "pdf" <->
        ext ∈ ["pdf"; "pdF"; "pDf"; "pDF"; "Pdf"; "PdF"; "PDf"; "PDF"])
  /\ (str_contains "." filename = false -> allowed_file filename = false).
Proof.
  split; [|split; [apply py_lower_pdf|]].
  - unfold allowed_file. rewrite str_contains_dot.
    destruct (after_last_dot filename) as [ext|] eqn:He.
    + cbn [andb ALLOWED_EXTENSIONS existsb]. rewrite orb_false_r, String.eqb_eq.
      apply after_last_dot_spec in He as (stem & -> & Hno). split.
      * intros Hl. exists stem, ext. auto.
      * intros (stem' & ext' & Hs & Hno' & Hl).
        assert (H1 : after_last_dot (stem +:+ "." +:+ ext) = Some ext)
          by (apply after_last_dot_spec; eauto).
        assert (H2 : after_last_dot (stem +:+ "." +:+ ext) = Some ext')
          by (apply after_last_dot_spec; eauto).
        congruence.
    + split; [discriminate|]. intros (stem & ext & Hs & Hno & _).
      assert (H : after_last_dot filename = Some ext)
        by (apply after_last_dot_spec; eauto).
      congruence.
  - intros H. unfold allowed_file. rewrite H. reflexivity.
Qed.

(** ** Concrete instances *)

Lemma two_pages_fresh (pages : list PageRecord) (p : PageRecord) :
  pages_collection (db two_page_world) = Some pages -> p ∈ pages ->
  doc_id p <> "doc-9".
Proof.
  intros [= <-] Hp.
  apply elem_of_cons in Hp as [-> | Hp]; [discriminate|].
  apply list_elem_of_singleton in Hp. subst p. discriminate.
Qed.

Lemma two_docs_fresh (docs : list DocumentRecord) (r : DocumentRecord) :
  documents_collection (db two_page_world) = Some docs -> r ∈ docs ->
  doc_doc_id r <> "doc-9".
Proof.
  intros [= <-] Hr. apply list_elem_of_singleton in Hr. subst r. discriminate.
Qed.

(** X3 on the two ingested pages: page one is given a summary. *)
Lemma update_page_data_success_witness :
  exists before p after,
    pages_collection (db two_page_world) = Some (before ++ p :: after)
    /\ doc_id p = "doc-1" /\ page_num p = 1
    /\ page_summary
         (set_page_fields (utcnow reliable_env 1) (JDict []) (JStr "S1") JNull p)
       = JStr "S1"
    /\ keywords
         (set_page_fields (utcnow reliable_env 1) (JDict []) (JStr "S1") JNull p)
       = keywords p.
Proof.
  destruct (update_page_data_success reliable_env (db two_page_world) "doc-1" 1
              (JDict []) (JStr "S1") JNull eq_refl)
    as (b & p & a & H1 & _ & H2 & H3 & _ & _ & _ & _ & _ & _ & _ & _ & H8 & H9 & _).
  exists b, p, a. repeat split; auto.
Defined.

(** X4 on page two, which has no summary: it is marked [structured] and
    is still not skipped. *)
Lemma update_structured_text_witness :
  exists before p p' after,
    pages_collection (db two_page_world) = Some (before ++ p :: after)
    /\ page_num p = 2
    /\ pages_collection
         (fst (update_structured_text reliable_env (db two_page_world) "doc-1" 2
                 (JDict [("summary", JStr "S2")])))
       = Some (before ++ p' :: after)
    /\ status p' = "structured"
    /\ should_skip p' = truthy (page_summary p).
Proof.
  destruct (update_structured_text_keeps_summary reliable_env (db two_page_world)
              "doc-1" 2 (JDict [("summary", JStr "S2")]) eq_refl)
    as (b & p & p' & a & H1 & _ & H2 & H3 & H4 & _ & _ & _ & H5).
  exists b, p, p', a. auto.
Defined.

(** X6 on the two ingested pages. *)
Lemma no_key_run_reports_complete_witness :
  exists s,
    get_document_status reliable_env (db finished_world) "doc-1" = Some s
    /\ is_complete s = true
    /\ st_total_pages s = 2.
Proof.
  assert (Hnd : NoDup (map page_num
                         (filter (fun q => doc_id q = "doc-1") [page_two; page_one]))).
  { vm_compute. apply NoDup_cons. split.
    - intros H. apply list_elem_of_singleton in H. discriminate.
    - apply NoDup_singleton. }
  destruct (no_key_run_reports_complete json_loads_subset no_repr
              unconfigured_processor two_page_env "doc-1" two_page_world
              _ [page_two; page_one] _ eq_refl eq_refl eq_refl eq_refl
              (fun _ => eq_refl) Hnd eq_refl)
    as (_ & s & Hs & Hc & _ & Ht & _).
  { exists page_one. split; [|reflexivity].
    apply list_elem_of_further, list_elem_of_here. }
  exists s. split; [exact Hs|]. split; [exact Hc|]. rewrite Ht. reflexivity.
Defined.

(** X8: two pages saved next to the two-page document. *)
Lemma save_pdf_with_pages_round_trip_witness :
  get_raw_text reliable_env
    (fst (save_pdf_with_pages reliable_writes (db two_page_world) "upload.pdf"
            "scan.pdf" scanned_pages)) "doc-9"
  = map (page_record "doc-9") scanned_pages
  /\ get_raw_text reliable_env
       (fst (save_pdf_with_pages reliable_writes (db two_page_world) "upload.pdf"
               "scan.pdf" scanned_pages)) "doc-1"
     = [page_one; page_two].
Proof.
  destruct (save_pdf_with_pages_round_trip reliable_writes reliable_env
              (db two_page_world) "upload.pdf" "scan.pdf" scanned_pages "doc-9"
              eq_refl two_pages_fresh eq_refl)
    as (_ & _ & _ & Hsorted & _ & Hother).
  split.
  - apply Hsorted. repeat constructor.
  - rewrite Hother by discriminate. reflexivity.
Defined.

(** X9 on the same save: the file was stored. *)
Lemma saved_document_status_witness :
  get_document_status reliable_env
    (fst (save_pdf_with_pages reliable_writes (db two_page_world) "upload.pdf"
            "scan.pdf" scanned_pages)) "doc-9"
  = Some {| st_doc_id := "doc-9"; st_filename := "scan.pdf";
            st_total_pages := 2; processed_pages := 0; is_complete := false;
            has_pdf_file := true |}.
Proof.
  destruct (saved_document_status reliable_writes reliable_env
              (db two_page_world) "upload.pdf" "scan.pdf" scanned_pages "doc-9"
              eq_refl two_pages_fresh two_docs_fresh eq_refl) as (H & _).
  exact H.
Defined.

(** X12 on the invoices: the three pages go, the page of the other
    document stays. *)
Lemma delete_document_removes_witness :
  (forall env',
     get_raw_text env'
       (fst (delete_document reliable_env reliable_writes invoice_db "doc-1"))
       "doc-1" = [])
  /\ length (get_raw_text reliable_env
               (fst (delete_document reliable_env reliable_writes invoice_db "doc-1"))
               "doc-2") = 1%nat.
Proof.
  destruct (delete_document_removes reliable_env reliable_writes invoice_db
              "doc-1" eq_refl)
    as (pages & b & doc & a & _ & _ & _ & _ & _ & _ & Hgone & Hother & _).
  split; [exact Hgone|].
  rewrite Hother by discriminate. reflexivity.
Defined.

(** X14 on the same save: the file is stored and removed again. *)
Lemma save_then_delete_restores_witness :
  fs (fst (save_pdf_with_pages reliable_writes (db two_page_world) "upload.pdf"
             "scan.pdf" scanned_pages))
  = Some [ {| file_id := "file-9"; file_filename := "scan.pdf";
              file_doc_id := "doc-9"; file_data := "%PDF-1.7 scan" |} ]
  /\ delete_document reliable_env reliable_writes
       (fst (save_pdf_with_pages reliable_writes (db two_page_world) "upload.pdf"
               "scan.pdf" scanned_pages)) "doc-9"
     = (db two_page_world, true).
Proof.
  split; [reflexivity|].
  destruct (save_then_delete_restores reliable_writes reliable_writes reliable_env
              (db two_page_world) "upload.pdf" "scan.pdf" scanned_pages "doc-9"
              eq_refl two_pages_fresh two_docs_fresh eq_refl eq_refl eq_refl)
    as (_ & _ & _ & Hback & _).
  apply Hback. right. split; [reflexivity|]. split; [discriminate|].
  intros stored f [= <-] Hf. inversion Hf.
Defined.

(** X16 on the scanned upload, read through OCRmyPDF; the temporary file
    is removed. *)
Lemma extract_text_from_pdf_numbering_witness :
  exists results,
    fst (extract_text_from_pdf ocr_processor scan_tools "upload.pdf") = Ok results
    /\ map ex_page_num results = [1; 2]
    /\ snd (extract_text_from_pdf ocr_processor scan_tools "upload.pdf")
       = ["/tmp/ocr.pdf"].
Proof.
  destruct (fst (extract_text_from_pdf ocr_processor scan_tools "upload.pdf"))
    as [results|e] eqn:Hr; [|vm_compute in Hr; discriminate].
  destruct (extract_text_from_pdf_numbering ocr_processor scan_tools "upload.pdf"
              results Hr) as (Hnum & _ & _ & processed & doc & Hopen & Hlen & _).
  exists results. split; [reflexivity|]. split; [|reflexivity].
  rewrite Hnum, Hlen.
  assert (Hdoc : length doc = 2%nat).
  { unfold scan_tools, fitz_open in Hopen.
    destruct (String.eqb processed "upload.pdf"); [injection Hopen as <-; reflexivity|].
    destruct (String.eqb processed "/tmp/ocr.pdf"); [injection Hopen as <-; reflexivity|].
    discriminate. }
  rewrite Hdoc. reflexivity.
Defined.

(** X17 on the scanned upload, read without OCRmyPDF: page one goes
    through Tesseract, page two keeps its text layer. *)
Lemma extract_text_source_witness :
  exists results processed_path doc,
    fst (extract_text_from_pdf tesseract_processor scan_tools "upload.pdf")
    = Ok results
    /\ fitz_open scan_tools processed_path = Some doc
    /\ processed_path = "upload.pdf"
    /\ map ex_raw_text results = ["text read by Tesseract"; str_take 60 digits100].
Proof.
  destruct (fst (extract_text_from_pdf tesseract_processor scan_tools "upload.pdf"))
    as [results|e] eqn:Hr; [|vm_compute in Hr; discriminate].
  destruct (extract_text_source tesseract_processor scan_tools "upload.pdf"
              results Hr) as (processed & doc & Hopen & Hpath & _).
  exists results, processed, doc. split; [reflexivity|]. split; [exact Hopen|].
  split; [apply Hpath; reflexivity|].
  vm_compute in Hr. injection Hr as <-. reflexivity.
Defined.

(** X20 on the scanned upload. *)
Lemma upload_round_trip_witness :
  exists results,
    fst (extract_text_from_pdf ocr_processor scan_tools "upload.pdf") = Ok results
    /\ map page_num
         (get_raw_text reliable_env
            (fst (save_pdf_with_pages reliable_writes (db two_page_world)
                    "upload.pdf" "scan.pdf" results)) "doc-9")
       = [1; 2].
Proof.
  destruct (fst (extract_text_from_pdf ocr_processor scan_tools "upload.pdf"))
    as [results|e] eqn:Hr; [|vm_compute in Hr; discriminate].
  exists results. split; [reflexivity|].
  assert (Hlen : length results = 2%nat).
  { vm_compute in Hr. injection Hr as <-. reflexivity. }
  assert (Hsave : snd (save_pdf_with_pages reliable_writes (db two_page_world)
                         "upload.pdf" "scan.pdf" results) = Some "doc-9").
  { destruct results as [|x l]; [discriminate | reflexivity]. }
  destruct (upload_round_trip ocr_processor scan_tools "upload.pdf"
              reliable_writes reliable_env (db two_page_world) "scan.pdf"
              results "doc-9" Hr Hsave two_pages_fresh eq_refl) as (Hnum & _).
  rewrite Hnum, Hlen. reflexivity.
Defined.

(** X24 on a reply with the six keys. *)
Lemma clean_content_fenced_witness :
  json_loads_subset (clean_content ("```json" +:+ nl +:+ reply_S1 +:+ nl +:+ "```"))
  = json_loads_subset reply_S1
  /\ json_loads_subset (clean_content reply_S1) = json_loads_subset reply_S1.
Proof.
  destruct (clean_content_fenced reply_S1 eq_refl) as (H0 & H1 & _).
  rewrite H0, H1. split; reflexivity.
Defined.


(** A write that changes nothing counts as failed.  On the second run
    over the two pages, at the same clock reading, page two gets the
    same rate-limit structure again: no write raises, the record is
    matched and left as it was, [modified_count] is 0, and the page is
    counted as failed, after it was counted as processed. *)
Example unchanged_write_counts_as_failed :
  (forall k, pages_update_one_raises two_page_env k = false)
  /\ exists st,
       fst (process_document json_loads_subset no_repr configured_processor
              two_page_env "doc-1" after_first_run) = Ok (Some st)
       /\ processed_count st = 2
       /\ failed_count st = 1
       /\ pages_collection
            (db (snd (process_document json_loads_subset no_repr
                        configured_processor two_page_env "doc-1"
                        after_first_run)))
          = pages_collection (db after_first_run).
Proof.
  split; [reflexivity|]. eexists. split; [vm_compute; reflexivity|].
  repeat split; vm_compute; reflexivity.
Qed.

(** X29 on the two pages after a run without a credential. *)
Lemma rerun_of_finished_document_witness :
  pages_collection
    (db (snd (process_document json_loads_subset no_repr configured_processor
                two_page_env "doc-1" finished_world)))
  = pages_collection (db finished_world)
  /\ requests StructurePrompt
       (log (snd (process_document json_loads_subset no_repr configured_processor
                    two_page_env "doc-1" finished_world))) = [].
Proof.
  destruct (rerun_of_finished_document json_loads_subset no_repr
              configured_processor two_page_env "doc-1" finished_world eq_refl)
    as (Hpc & new & Hl & Hr & _).
  { intros p Hp. vm_compute in Hp.
    apply elem_of_cons in Hp as [-> | Hp]; [reflexivity|].
    apply list_elem_of_singleton in Hp. subst p. reflexivity. }
  split; [exact Hpc|]. rewrite Hl, requests_app, Hr. reflexivity.
Defined.
